(** * Document management of the legal-practice portal

    A shallow embedding of the two document controllers of the repository
    and of the Document model, with the properties of the document
    subsystem proved (or refuted) over it.

    - [CategoryVariant] embeds [backend/controllers/documentController.js]
      together with the Mongoose schema that declares [category],
      [priority], [isDeleted] and the static [getDocumentStats]
      (soft delete).
    - [DocTypeVariant] embeds the controller keyed by [documentType]
      (hard delete); its schema is not part of the sources.

    The persistence layer is a finite map from [_id] to document (the
    collection with its unique index on [_id]); the file system is a finite
    map from path to content.  Handlers are functions from a request, the
    per-request environment and the world to a response and a new world.

    A string is the sequence of the bytes of its UTF-8 encoding; what the
    code does by character (trimming, counting a length, checking a header
    value) is written out on that encoding. *)

From Stdlib Require Import ZArith NArith String Ascii List Bool Lia DecimalString.
From stdpp Require Import gmap strings list fin_maps sorting.

Local Open Scope string_scope.

(** ** Strings as the handlers use them *)

Module Str.

(** The folding of the letters A to Z onto a to z, by which a match with
    the option ['i'] ignores the case of these letters. *)
Definition lower_ascii (c : ascii) : ascii :=
  let n := N_of_ascii c in
  if ((65 <=? n) && (n <=? 90))%N then ascii_of_N (n + 32) else c.

Fixpoint lower (s : string) : string :=
  match s with
  | EmptyString => EmptyString
  | String c s' => String (lower_ascii c) (lower s')
  end.

(** [includes needle hay]: [needle] occurs in [hay] as a substring. *)
Fixpoint includes (needle hay : string) : bool :=
  String.prefix needle hay ||
  match hay with
  | EmptyString => false
  | String _ hay' => includes needle hay'
  end.

(** The characters that a regular expression does not read literally. *)
Definition regex_special (c : ascii) : bool :=
  existsb (Ascii.eqb c)
    ["\"; "^"; "$"; "."; "|"; "?"; "*"; "+"; "("; ")"; "["; "]"; "{"; "}"]%char.

Fixpoint literal (s : string) : bool :=
  match s with
  | EmptyString => true
  | String c s' => negb (regex_special c) && literal s'
  end.

(** The regular-expression engine of the runtime and of the database:
    [None] for a string that is not a regular expression (the constructor
    or the query throws), and otherwise the unanchored, case-insensitive
    match of the expression on a subject. *)
Definition Engine : Type := string -> option (string -> bool).

(** [{ $regex: pattern, $options: 'i' }] and [new RegExp(pattern, 'i')].
    A pattern of literal characters ([literal]) is a regular expression,
    and its unanchored case-insensitive match is the case-insensitive
    substring test; what any other pattern means is for the engine to
    say. *)
Definition regexI (engine : Engine) (pattern : string)
    : option (string -> bool) :=
  if literal pattern
  then Some (fun subject => includes (lower pattern) (lower subject))
  else engine pattern.

(** An engine that takes no pattern with a special character. *)
Definition literals_only : Engine := fun _ => None.

(** The white space and the line terminators of the language, which
    [trim] strips: of one byte (space, tab, line feed, vertical tab, form
    feed, carriage return), of two (U+00A0) and of three (U+1680, U+2000 to
    U+200A, U+2028, U+2029, U+202F, U+205F, U+3000, U+FEFF). *)
Definition space1 (a : ascii) : bool :=
  existsb (Ascii.eqb a) [" "; "009"; "010"; "011"; "012"; "013"]%char.

Definition space2 (a b : ascii) : bool :=
  Ascii.eqb a "194" && Ascii.eqb b "160".

Definition space3 (a b c : ascii) : bool :=
  let n := N_of_ascii c in
  (Ascii.eqb a "225" && Ascii.eqb b "154" && Ascii.eqb c "128")
  || (Ascii.eqb a "226" && Ascii.eqb b "128"
      && (((128 <=? n) && (n <=? 138)) || (n =? 168) || (n =? 169)
          || (n =? 175))%N)
  || (Ascii.eqb a "226" && Ascii.eqb b "129" && Ascii.eqb c "159")
  || (Ascii.eqb a "227" && Ascii.eqb b "128" && Ascii.eqb c "128")
  || (Ascii.eqb a "239" && Ascii.eqb b "187" && Ascii.eqb c "191").

(** The white space at the start of [l] is dropped. *)
Fixpoint ltrim (l : list ascii) : list ascii :=
  match l with
  | a :: l1 =>
      if space1 a then ltrim l1
      else match l1 with
           | b :: l2 =>
               if space2 a b then ltrim l2
               else match l2 with
                    | c :: l3 => if space3 a b c then ltrim l3 else l
                    | [] => l
                    end
           | [] => l
           end
  | [] => []
  end.

(** The same on a reversed list, whose first byte is the last of the
    string. *)
Fixpoint ltrim_rev (l : list ascii) : list ascii :=
  match l with
  | c :: l1 =>
      if space1 c then ltrim_rev l1
      else match l1 with
           | b :: l2 =>
               if space2 b c then ltrim_rev l2
               else match l2 with
                    | a :: l3 => if space3 a b c then ltrim_rev l3 else l
                    | [] => l
                    end
           | [] => l
           end
  | [] => []
  end.

(** [String.prototype.trim] *)
Definition trim (s : string) : string :=
  string_of_list_ascii
    (rev (ltrim_rev (rev (ltrim (list_ascii_of_string s))))).

(** [s.length]: the number of UTF-16 code units of [s].  A continuation
    byte counts nothing, the first byte of a sequence of four bytes counts
    two (a surrogate pair), every other byte one. *)
Definition unit_weight (c : ascii) : nat :=
  let n := N_of_ascii c in
  if ((128 <=? n) && (n <? 192))%N then 0
  else if (240 <=? n)%N then 2 else 1.

Fixpoint units (s : string) : nat :=
  match s with
  | EmptyString => 0
  | String c s' => unit_weight c + units s'
  end.

(** A value [setHeader] takes: every code unit is a tab or lies in
    0x20-0x7E or in 0x80-0xFF (in UTF-8 the latter are the sequences of a
    byte 0xC2 or 0xC3 and a continuation byte); on any other the call
    throws. *)
Fixpoint header_value (s : string) : bool :=
  match s with
  | EmptyString => true
  | String c s' =>
      let n := N_of_ascii c in
      if ((n =? 9) || ((32 <=? n) && (n <=? 126)))%N then header_value s'
      else if ((n =? 194) || (n =? 195))%N then
        match s' with
        | String c2 s'' =>
            ((128 <=? N_of_ascii c2) && (N_of_ascii c2 <? 192))%N
            && header_value s''
        | EmptyString => false
        end
      else false
  end.

(** [String.prototype.split] with a one-character separator. *)
Fixpoint split (sep : ascii) (s : string) : list string :=
  match s with
  | EmptyString => [EmptyString]
  | String c s' =>
      if Ascii.eqb c sep then EmptyString :: split sep s'
      else match split sep s' with
           | h :: t => String c h :: t
           | [] => [String c EmptyString]
           end
  end.

Fixpoint basename_go (acc : string) (s : string) : string :=
  match s with
  | EmptyString => acc
  | String c s' =>
      if Ascii.eqb c "/"%char then basename_go s' s' else basename_go acc s'
  end.

Definition basename (s : string) : string := basename_go s s.

(** Position-independent search of the last dot of [s]: the suffix of [s]
    that starts at its last ["."], if there is one. *)
Fixpoint last_dot (s : string) : option string :=
  match s with
  | EmptyString => None
  | String c s' =>
      match last_dot s' with
      | Some e => Some e
      | None => if Ascii.eqb c "."%char then Some s else None
      end
  end.

(** [path.extname]: the extension of the last path segment, from its last
    dot; empty when there is no dot, when the only dot leads the segment,
    and for the segment [".."]. *)
Definition extname (p : string) : string :=
  match basename p with
  | EmptyString => EmptyString
  | String c rest =>
      if String.eqb (String c rest) ".." then EmptyString
      else match last_dot rest with
           | Some e => e
           | None => EmptyString
           end
  end.

(** Decimal rendering of a number, as string concatenation does it. *)
Definition of_N (n : N) : string := NilZero.string_of_uint (N.to_uint n).

End Str.

(** ** What the handlers share *)

(** Identifiers ([ObjectId]) and instants ([Date]) are natural numbers. *)
Abbreviation ObjectId := N (only parsing).
Abbreviation Date := N (only parsing).

(** What a request finds outside the stores: the clock ([Date.now()],
    [new Date()]), the draw of [Math.round(Math.random() * 1E9)], the
    identifier the driver generates for a new record, whether the database
    accepts the writes of this request (it may be unreachable or reject
    them), and the regular-expression engine. *)
Record Env := {
  now : Date;
  random : N;
  newId : ObjectId;
  persist : bool;
  regexp : Str.Engine
}.

(** An environment whose engine takes the patterns of literal characters
    only. *)
Definition mkEnv (time draw fresh : N) (writes : bool) : Env :=
  {| now := time; random := draw; newId := fresh; persist := writes;
     regexp := Str.literals_only |}.

(** The search string of a list request, when there is one, must be a
    regular expression, or building or running the query throws. *)
Definition compiles (env : Env) (search : option string) : bool :=
  match search with
  | Some pattern =>
      match Str.regexI (regexp env) pattern with
      | Some _ => true
      | None => false
      end
  | None => true
  end.

(** [{ $regex: pattern, $options: 'i' }] on a stored string. *)
Definition matches (env : Env) (pattern subject : string) : bool :=
  match Str.regexI (regexp env) pattern with
  | Some found_in => found_in subject
  | None => false
  end.

(** An identifier as a query carries it.  The identifiers of a request
    ([req.user.id], [req.query.clientId]) are strings; [find], [findOne]
    and [countDocuments] cast them to the type of the path of the schema,
    the [$match] stage of an aggregation compares them as they are. *)
Inductive QueryId : Type :=
| AsObjectId (i : ObjectId)
| AsString (i : ObjectId).

(** [$match] on a path that holds an [ObjectId]: a string is no
    [ObjectId]. *)
Definition match_id (stored : ObjectId) (v : QueryId) : bool :=
  match v with
  | AsObjectId i => (stored =? i)%N
  | AsString _ => false
  end.

(** A row of the lawyer-client relationship collection. *)
Record LawyerClient := mkLawyerClient {
  lc_id : ObjectId;
  lc_lawyerId : ObjectId;
  lc_clientId : ObjectId;
  lc_status : string;
  lc_isArchived : bool
}.

(** [req.file] as the multipart middleware leaves it. *)
Record MulterFile := mkMulterFile {
  fieldname : string;
  originalname : string;
  filename : string;
  path : string;
  size : N;
  mimetype : string
}.

(** What a handler answers: [res.status(code).json({ success: true, ... })],
    [res.status(code).json({ success: false, message })], or nothing at all
    when an exception leaves the handler uncaught. *)
Inductive Response (A : Type) : Type :=
| Success (code : N) (data : A)
| Failure (code : N) (message : string)
| Unhandled.
Arguments Success {A} code data.
Arguments Failure {A} code message.
Arguments Unhandled {A}.

Definition succeeded {A} (r : Response A) : bool :=
  match r with Success _ _ => true | _ => false end.

(** The file system: path to content. *)
Abbreviation Files := (gmap string (list Byte.byte)) (only parsing).

(** A query parameter or body field is used when it is truthy. *)
Definition truthy (o : option string) : option string :=
  match o with
  | Some s => if String.eqb s EmptyString then None else Some s
  | None => None
  end.

(** [value || fallback] on an optional string. *)
Definition or_else (o : option string) (fallback : string) : string :=
  match truthy o with Some s => s | None => fallback end.

(** [LawyerClient.findOne(filter)]: the first row that satisfies it. *)
Definition LawyerClient_findOne (p : LawyerClient -> bool)
    (rows : list LawyerClient) : option LawyerClient :=
  List.find p rows.

(** [Model.find(query)] and [Model.countDocuments(query)] range over the
    records of the collection that satisfy the query. *)
Definition Model_find {A} (p : A -> bool) (store : gmap ObjectId A)
    : list (ObjectId * A) :=
  map_to_list (filter (fun kv : ObjectId * A => Is_true (p (snd kv))) store).

(** A query constrains an identifier or a text field only when the caller
    gave one. *)
Definition same_id (o : option ObjectId) (i : ObjectId) : bool :=
  match o with Some c => (i =? c)%N | None => true end.

Definition same_text (o : option string) (s : string) : bool :=
  match truthy o with Some c => String.eqb s c | None => true end.

(** *** Sorting, skipping and limiting a result *)

(** The value a sort compares, in the order the database gives to values of
    different types. *)
Inductive SortKey : Type :=
| KEmptyArray
| KNull
| KNum (n : N)
| KStr (s : string)
| KId (i : ObjectId)
| KBool (b : bool)
| KDate (t : Date).

Definition key_rank (k : SortKey) : nat :=
  match k with
  | KEmptyArray => 0 | KNull => 1 | KNum _ => 2 | KStr _ => 3
  | KId _ => 4 | KBool _ => 5 | KDate _ => 6
  end.

Definition key_leb (a b : SortKey) : bool :=
  match a, b with
  | KNum x, KNum y => (x <=? y)%N
  | KStr x, KStr y => String.leb x y
  | KId x, KId y => (x <=? y)%N
  | KBool x, KBool y => implb x y
  | KDate x, KDate y => (x <=? y)%N
  | _, _ => (key_rank a <=? key_rank b)%nat
  end.

Definition opt_key {A} (f : A -> SortKey) (o : option A) : SortKey :=
  match o with Some a => f a | None => KNull end.

(** An array sorts by its least element ascending and by its greatest
    element descending. *)
Definition array_key (desc : bool) (l : list string) : SortKey :=
  match l with
  | [] => KEmptyArray
  | x :: l' =>
      KStr (fold_left (fun m y =>
              if (if desc then String.leb m y else String.leb y m)
              then y else m) l' x)
  end.

(** [.sort({ [sortBy]: sortOrder === 'desc' ? -1 : 1 })] *)
Definition sort_docs {A} (key : ObjectId * A -> SortKey) (desc : bool)
    (l : list (ObjectId * A)) : list (ObjectId * A) :=
  merge_sort (fun x y : ObjectId * A =>
                Is_true (if desc then key_leb (key y) (key x)
                         else key_leb (key x) (key y))) l.

(** [.skip(skip).limit(limit)]: a negative skip is refused by the database
    (the query throws), a limit of zero is no limit, and a negative limit
    returns at most its absolute value. *)
Definition paginate {A} (skip limit : Z) (l : list A) : option (list A) :=
  if (skip <? 0)%Z then None
  else
    let rest := drop (Z.to_nat skip) l in
    Some (if (limit =? 0)%Z then rest else take (Z.abs_nat limit) rest).

(** [Math.ceil(total / limit)]; there is no finite value when [limit] is
    zero (the quotient is infinite or not a number, and the response
    carries [null]). *)
Definition ceil_div (total limit : Z) : option Z :=
  if (limit =? 0)%Z then None else Some (- ((- total) / limit))%Z.

Record Pagination := mkPagination {
  currentPage : Z;
  totalPages : option Z;
  totalItems : Z;
  hasNext : bool;
  hasPrev : bool
}.

(** [array.reduce((acc, k) => { acc[k] = (acc[k] || 0) + 1; return acc }, {})] *)
Definition tally (l : list string) : gmap string N :=
  fold_left (fun acc k => <[k := (default 0 (acc !! k) + 1)%N]> acc) l ∅.

(** *** The multipart middleware of documentController.js *)

(** The file part of a multipart request before it is stored. *)
Record FilePart := mkFilePart {
  part_fieldname : string;
  part_originalname : string;
  part_mimetype : string;
  part_content : list Byte.byte
}.

Definition uploadDir : string := "uploads/documents".

Definition allowedTypes : list string :=
  [ "application/pdf";
    "application/msword";
    "application/vnd.openxmlformats-officedocument.wordprocessingml.document";
    "application/vnd.ms-excel";
    "application/vnd.openxmlformats-officedocument.spreadsheetml.sheet";
    "text/plain";
    "image/jpeg";
    "image/png";
    "image/gif";
    "image/webp";
    "application/zip";
    "application/x-rar-compressed" ].

Definition fileFilter (mimetype : string) : bool :=
  existsb (String.eqb mimetype) allowedTypes.

Definition fileSizeLimit : N := 50 * 1024 * 1024.

(** [storage.filename] *)
Definition storage_filename (env : Env) (file : FilePart) : string :=
  let uniqueSuffix := Str.of_N (now env) ++ "-" ++ Str.of_N (random env) in
  let ext := Str.extname (part_originalname file) in
  part_fieldname file ++ "-" ++ uniqueSuffix ++ ext.

Inductive MulterResult : Type :=
| MulterError (message : string)
| MulterNoFile
| MulterStored (file : MulterFile) (files : Files).

(** [upload.single('document')]: a part without a file name is passed
    over; a file part under another field name, of a type the filter
    refuses or that reaches the size limit is an error and leaves nothing
    on disk; otherwise the content is written under the generated name. *)
Definition upload_single (env : Env) (part : option FilePart)
    (files : Files) : MulterResult :=
  match part with
  | None => MulterNoFile
  | Some f =>
      if String.eqb (part_originalname f) EmptyString then MulterNoFile
      else if negb (String.eqb (part_fieldname f) "document") then
        MulterError "Unexpected field"
      else if negb (fileFilter (part_mimetype f)) then
        MulterError
          "Invalid file type. Only PDF, Word, Excel, images, and archives are allowed."
      else if (fileSizeLimit <=? N.of_nat (length (part_content f)))%N then
        MulterError "File too large"
      else
        let name := storage_filename env f in
        let p := uploadDir ++ "/" ++ name in
        MulterStored
          {| fieldname := part_fieldname f;
             originalname := part_originalname f;
             filename := name;
             path := p;
             size := N.of_nat (length (part_content f));
             mimetype := part_mimetype f |}
          (<[p := part_content f]> files)
  end.

(** ** The category variant: documentController.js and its Document model *)

Module CategoryVariant.

(** A stored document, field for field as [documentSchema] declares it;
    [createdAt] and [updatedAt] come from [timestamps: true].  The [_id] is
    the key of the collection. *)
Record Document := mkDocument {
  lawyerId : ObjectId;
  clientId : ObjectId;
  lawyerClientId : ObjectId;
  title : string;
  description : option string;
  fileName : string;
  originalFileName : string;
  filePath : string;
  fileSize : N;
  mimeType : string;
  category : string;
  status : string;
  priority : string;
  tags : list string;
  uploadedBy : ObjectId;
  reviewedBy : option ObjectId;
  reviewedAt : option Date;
  reviewNotes : option string;
  isPublic : bool;
  isDeleted : bool;
  downloadCount : N;
  lastDownloadedAt : option Date;
  lastDownloadedBy : option ObjectId;
  createdAt : Date;
  updatedAt : Date
}.

#[global] Instance Document_eq_dec : EqDecision Document.
Proof. solve_decision. Defined.

Record World := mkWorld {
  docs : gmap ObjectId Document;
  files : Files;
  relationships : list LawyerClient
}.

Definition categories : list string :=
  [ "contract"; "legal_brief"; "evidence"; "correspondence";
    "court_document"; "financial"; "medical"; "police_report";
    "witness_statement"; "expert_report"; "other" ].

Definition statuses : list string :=
  [ "draft"; "pending_review"; "reviewed"; "approved"; "rejected"; "archived" ].

Definition priorities : list string := [ "low"; "medium"; "high"; "urgent" ].

Definition one_of (l : list string) (s : string) : bool :=
  existsb (String.eqb s) l.

Definition nonempty (s : string) : bool := negb (String.eqb s EmptyString).

(** [maxlength]: on the [length] of the string. *)
Definition at_most (n : nat) (s : string) : bool :=
  (Str.units s <=? n)%nat.

(** The validators of the schema: [required], [maxlength] and [enum]. *)
Definition validate (d : Document) : bool :=
  nonempty (title d) && at_most 200 (title d)
  && match description d with Some s => at_most 1000 s | None => true end
  && nonempty (fileName d) && nonempty (originalFileName d)
  && nonempty (filePath d) && nonempty (mimeType d)
  && one_of categories (category d)
  && one_of statuses (status d)
  && one_of priorities (priority d)
  && forallb (at_most 50) (tags d)
  && match reviewNotes d with Some s => at_most 1000 s | None => true end.

(** The object handed to [Document.create] by [uploadDocument]. *)
Record NewDocument := mkNewDocument {
  new_lawyerId : ObjectId;
  new_clientId : option ObjectId;
  new_lawyerClientId : ObjectId;
  new_title : option string;
  new_description : option string;
  new_fileName : string;
  new_originalFileName : string;
  new_filePath : string;
  new_fileSize : N;
  new_mimeType : string;
  new_category : string;
  new_priority : string;
  new_tags : list string;
  new_uploadedBy : ObjectId
}.

(** [Document.create]: the setters ([trim]) and the defaults of the schema
    build the record, the required fields must be there, the validators
    must pass and the database must take the write; the new record gets the
    generated identifier, which the unique index on [_id] must not hold
    yet.  [None] is the exception [create] throws. *)
Definition Document_create (env : Env) (n : NewDocument)
    (store : gmap ObjectId Document)
    : option (ObjectId * Document * gmap ObjectId Document) :=
  match new_clientId n, new_title n with
  | Some client, Some t =>
      let d := {| lawyerId := new_lawyerId n;
                  clientId := client;
                  lawyerClientId := new_lawyerClientId n;
                  title := Str.trim t;
                  description := Str.trim <$> new_description n;
                  fileName := new_fileName n;
                  originalFileName := new_originalFileName n;
                  filePath := new_filePath n;
                  fileSize := new_fileSize n;
                  mimeType := new_mimeType n;
                  category := new_category n;
                  status := "pending_review";
                  priority := new_priority n;
                  tags := Str.trim <$> new_tags n;
                  uploadedBy := new_uploadedBy n;
                  reviewedBy := None;
                  reviewedAt := None;
                  reviewNotes := None;
                  isPublic := false;
                  isDeleted := false;
                  downloadCount := 0;
                  lastDownloadedAt := None;
                  lastDownloadedBy := None;
                  createdAt := now env;
                  updatedAt := now env |} in
      if validate d && persist env then
        match store !! newId env with
        | None => Some (newId env, d, <[newId env := d]> store)
        | Some _ => None
        end
      else None
  | _, _ => None
  end.

(** [Document.findOne({ _id: id, lawyerId, isDeleted: false })] *)
Definition Document_findOne (id lawyer : ObjectId)
    (store : gmap ObjectId Document) : option Document :=
  match store !! id with
  | Some d =>
      if (lawyerId d =? lawyer)%N && negb (isDeleted d) then Some d else None
  | None => None
  end.

(** The [pre('save')] middleware of the schema. *)
Definition pre_save (env : Env) (loaded d : Document) : Document :=
  if negb (String.eqb (status d) (status loaded))
     && String.eqb (status d) "reviewed"
     && negb (bool_decide (is_Some (reviewedAt d)))
  then
    {| lawyerId := lawyerId d; clientId := clientId d;
       lawyerClientId := lawyerClientId d; title := title d;
       description := description d; fileName := fileName d;
       originalFileName := originalFileName d; filePath := filePath d;
       fileSize := fileSize d; mimeType := mimeType d;
       category := category d; status := status d; priority := priority d;
       tags := tags d; uploadedBy := uploadedBy d;
       reviewedBy := reviewedBy d;
       reviewedAt := Some (now env);
       reviewNotes := reviewNotes d; isPublic := isPublic d;
       isDeleted := isDeleted d; downloadCount := downloadCount d;
       lastDownloadedAt := lastDownloadedAt d;
       lastDownloadedBy := lastDownloadedBy d;
       createdAt := createdAt d; updatedAt := updatedAt d |}
  else d.

Definition touch (env : Env) (d : Document) : Document :=
  {| lawyerId := lawyerId d; clientId := clientId d;
     lawyerClientId := lawyerClientId d; title := title d;
     description := description d; fileName := fileName d;
     originalFileName := originalFileName d; filePath := filePath d;
     fileSize := fileSize d; mimeType := mimeType d;
     category := category d; status := status d; priority := priority d;
     tags := tags d; uploadedBy := uploadedBy d;
     reviewedBy := reviewedBy d; reviewedAt := reviewedAt d;
     reviewNotes := reviewNotes d; isPublic := isPublic d;
     isDeleted := isDeleted d; downloadCount := downloadCount d;
     lastDownloadedAt := lastDownloadedAt d;
     lastDownloadedBy := lastDownloadedBy d;
     createdAt := createdAt d; updatedAt := now env |}.

(** The validators [save] runs on a loaded document: those of the required
    paths and those of the paths that were modified. *)
Definition validate_modified (loaded d : Document) : bool :=
  let kept {A} `{EqDecision A} (field : Document -> A) : bool :=
    bool_decide (field d = field loaded) in
  nonempty (title d) && at_most 200 (title d)
  && (kept description
      || match description d with Some s => at_most 1000 s | None => true end)
  && nonempty (fileName d) && nonempty (originalFileName d)
  && nonempty (filePath d) && nonempty (mimeType d)
  && (kept category || one_of categories (category d))
  && (kept status || one_of statuses (status d))
  && (kept priority || one_of priorities (priority d))
  && (kept tags || forallb (at_most 50) (tags d))
  && (kept reviewNotes
      || match reviewNotes d with Some s => at_most 1000 s | None => true end).

(** [document.save()] of a document that was [loaded] from the store under
    [id] and is now [d].  The middleware and the validators run; when
    nothing was modified nothing is written, otherwise the database must
    take the write and [updatedAt] moves.  [None] is the exception [save]
    throws. *)
Definition Document_save (env : Env) (id : ObjectId) (loaded d : Document)
    (store : gmap ObjectId Document)
    : option (Document * gmap ObjectId Document) :=
  let hooked := pre_save env loaded d in
  if validate_modified loaded hooked then
    if decide (hooked = loaded) then Some (hooked, store)
    else if persist env then
      let written := touch env hooked in
      Some (written, <[id := written]> store)
    else None
  else None.

Record DocumentStats := mkDocumentStats {
  totalDocuments : N;
  totalSize : N;
  byStatus : gmap string N;
  byCategory : gmap string N
}.

(** [documentSchema.statics.getDocumentStats]: the identifiers go into the
    [$match] stage as the caller passes them. *)
Definition Document_getDocumentStats (lawyer : QueryId)
    (client : option QueryId) (store : gmap ObjectId Document)
    : DocumentStats :=
  let matchStage d :=
    match_id (lawyerId d) lawyer && negb (isDeleted d)
    && match client with
       | Some c => match_id (clientId d) c
       | None => true
       end in
  let group := snd <$> Model_find matchStage store in
  match group with
  | [] => {| totalDocuments := 0; totalSize := 0;
             byStatus := ∅; byCategory := ∅ |}
  | _ => {| totalDocuments := N.of_nat (length group);
            totalSize := fold_right N.add 0%N (fileSize <$> group);
            byStatus := tally (status <$> group);
            byCategory := tally (category <$> group) |}
  end.

(** *** uploadDocument *)

Record UploadBody := mkUploadBody {
  body_clientId : option ObjectId;
  body_title : option string;
  body_description : option string;
  body_category : option string;
  body_priority : option string;
  body_tags : option string;
  (** a visibility the caller may send along; the handler does not read it *)
  body_isPublic : option bool
}.

Record UploadRequest := mkUploadRequest {
  up_user : ObjectId;
  up_errors : list string;
  up_body : UploadBody;
  up_file : option FilePart
}.

Definition uploadDocument (env : Env) (req : UploadRequest) (w : World)
    : Response (ObjectId * Document) * World :=
  match up_errors req with
  | _ :: _ => (Failure 400 "Validation errors", w)
  | [] =>
      let body := up_body req in
      let lawyer := up_user req in
      match LawyerClient_findOne
              (fun lc => (lc_lawyerId lc =? lawyer)%N
                         && bool_decide (Some (lc_clientId lc) = body_clientId body)
                         && negb (lc_isArchived lc))
              (relationships w) with
      | None => (Failure 404 "Client relationship not found", w)
      | Some lawyerClient =>
          match upload_single env (up_file req) (files w) with
          | MulterError message => (Failure 400 message, w)
          | MulterNoFile => (Failure 400 "No file uploaded", w)
          | MulterStored file stored =>
              match Document_create env
                      {| new_lawyerId := lawyer;
                         new_clientId := body_clientId body;
                         new_lawyerClientId := lc_id lawyerClient;
                         new_title := body_title body;
                         new_description := body_description body;
                         new_fileName := filename file;
                         new_originalFileName := originalname file;
                         new_filePath := path file;
                         new_fileSize := size file;
                         new_mimeType := mimetype file;
                         new_category := or_else (body_category body) "other";
                         new_priority := or_else (body_priority body) "medium";
                         new_tags :=
                           match truthy (body_tags body) with
                           | Some t => Str.trim <$> Str.split ","%char t
                           | None => []
                           end;
                         new_uploadedBy := lawyer |}
                      (docs w) with
              | Some (id, document, store) =>
                  (Success 201 (id, document),
                   {| docs := store; files := stored;
                      relationships := relationships w |})
              | None =>
                  (* the catch around [create]: unlink the file, throw again;
                     nothing catches an exception inside the callback *)
                  (Unhandled,
                   {| docs := docs w; files := delete (path file) stored;
                      relationships := relationships w |})
              end
          end
      end
  end.

(** *** getDocuments *)

Record ListQuery := mkListQuery {
  q_page : option Z;
  q_limit : option Z;
  q_clientId : option ObjectId;
  q_category : option string;
  q_status : option string;
  q_priority : option string;
  q_search : option string;
  q_sortBy : option string;
  q_sortOrder : option string
}.

Definition list_query (env : Env) (lawyer : ObjectId) (q : ListQuery)
    (d : Document) : bool :=
  (lawyerId d =? lawyer)%N && negb (isDeleted d)
  && same_id (q_clientId q) (clientId d)
  && same_text (q_category q) (category d)
  && same_text (q_status q) (status d)
  && same_text (q_priority q) (priority d)
  && match truthy (q_search q) with
     | Some search =>
         matches env search (title d)
         || match description d with
            | Some text => matches env search text
            | None => false
            end
         || existsb (matches env search) (tags d)
     | None => true
     end.

Definition field_is (sortBy name : string) : bool := String.eqb sortBy name.

(** The value of the field a sort is keyed on. *)
Definition sort_key (desc : bool) (sortBy : string)
    (kv : ObjectId * Document) : SortKey :=
  let d := snd kv in
  if field_is sortBy "_id" then KId (fst kv)
  else if field_is sortBy "lawyerId" then KId (lawyerId d)
  else if field_is sortBy "clientId" then KId (clientId d)
  else if field_is sortBy "lawyerClientId" then KId (lawyerClientId d)
  else if field_is sortBy "title" then KStr (title d)
  else if field_is sortBy "description" then opt_key KStr (description d)
  else if field_is sortBy "fileName" then KStr (fileName d)
  else if field_is sortBy "originalFileName" then KStr (originalFileName d)
  else if field_is sortBy "filePath" then KStr (filePath d)
  else if field_is sortBy "fileSize" then KNum (fileSize d)
  else if field_is sortBy "mimeType" then KStr (mimeType d)
  else if field_is sortBy "category" then KStr (category d)
  else if field_is sortBy "status" then KStr (status d)
  else if field_is sortBy "priority" then KStr (priority d)
  else if field_is sortBy "tags" then array_key desc (tags d)
  else if field_is sortBy "uploadedBy" then KId (uploadedBy d)
  else if field_is sortBy "reviewedBy" then opt_key KId (reviewedBy d)
  else if field_is sortBy "reviewedAt" then opt_key KDate (reviewedAt d)
  else if field_is sortBy "reviewNotes" then opt_key KStr (reviewNotes d)
  else if field_is sortBy "isPublic" then KBool (isPublic d)
  else if field_is sortBy "isDeleted" then KBool (isDeleted d)
  else if field_is sortBy "downloadCount" then KNum (downloadCount d)
  else if field_is sortBy "lastDownloadedAt" then opt_key KDate (lastDownloadedAt d)
  else if field_is sortBy "lastDownloadedBy" then opt_key KId (lastDownloadedBy d)
  else if field_is sortBy "createdAt" then KDate (createdAt d)
  else if field_is sortBy "updatedAt" then KDate (updatedAt d)
  else KNull.

Record ListData := mkListData {
  documents : list (ObjectId * Document);
  pagination : Pagination;
  stats : DocumentStats
}.

(** The query of the list is built first ([new RegExp(search, 'i')] throws
    on a string that is no regular expression) and run after; the
    statistics get the identifiers as the request has them. *)
Definition getDocuments (env : Env) (lawyer : ObjectId) (q : ListQuery)
    (w : World) : Response ListData :=
  let page := default 1%Z (q_page q) in
  let limit := default 20%Z (q_limit q) in
  let sortBy := default "createdAt" (q_sortBy q) in
  let desc := bool_decide (default "desc" (q_sortOrder q) = "desc") in
  let skip := ((page - 1) * limit)%Z in
  if negb (compiles env (truthy (q_search q))) then
    Failure 500 "Failed to fetch documents"
  else
    let found := Model_find (list_query env lawyer q) (docs w) in
    match paginate skip limit (sort_docs (sort_key desc sortBy) desc found) with
    | None => Failure 500 "Failed to fetch documents"
    | Some documents =>
        let total := Z.of_nat (length found) in
        Success 200
          {| documents := documents;
             pagination :=
               {| currentPage := page;
                  totalPages := ceil_div total limit;
                  totalItems := total;
                  hasNext := (skip + Z.of_nat (length documents) <? total)%Z;
                  hasPrev := (1 <? page)%Z |};
             stats := Document_getDocumentStats (AsString lawyer)
                        (AsString <$> q_clientId q) (docs w) |}
    end.

(** *** getDocumentById *)

Definition getDocumentById (lawyer id : ObjectId) (w : World)
    : Response (ObjectId * Document) :=
  match Document_findOne id lawyer (docs w) with
  | None => Failure 404 "Document not found"
  | Some document => Success 200 (id, document)
  end.

(** *** downloadDocument *)

(** The headers of a download and the bytes streamed after them.  The
    counter is saved before the headers are set: when [setHeader] refuses
    the type or the name of the file, the answer is 500 and the download
    is counted. *)
Record Download := mkDownload {
  contentType : string;
  attachment : string;
  contentLength : N;
  bytes : list Byte.byte
}.

Definition downloadDocument (env : Env) (lawyer id : ObjectId) (w : World)
    : Response Download * World :=
  match Document_findOne id lawyer (docs w) with
  | None => (Failure 404 "Document not found", w)
  | Some document =>
      match files w !! filePath document with
      | None => (Failure 404 "Document file not found", w)
      | Some content =>
          let counted :=
            {| lawyerId := lawyerId document; clientId := clientId document;
               lawyerClientId := lawyerClientId document;
               title := title document; description := description document;
               fileName := fileName document;
               originalFileName := originalFileName document;
               filePath := filePath document; fileSize := fileSize document;
               mimeType := mimeType document; category := category document;
               status := status document; priority := priority document;
               tags := tags document; uploadedBy := uploadedBy document;
               reviewedBy := reviewedBy document;
               reviewedAt := reviewedAt document;
               reviewNotes := reviewNotes document;
               isPublic := isPublic document; isDeleted := isDeleted document;
               downloadCount := downloadCount document + 1;
               lastDownloadedAt := Some (now env);
               lastDownloadedBy := Some lawyer;
               createdAt := createdAt document;
               updatedAt := updatedAt document |} in
          match Document_save env id document counted (docs w) with
          | None => (Failure 500 "Failed to download document", w)
          | Some (saved, store) =>
              let counted_world :=
                {| docs := store; files := files w;
                   relationships := relationships w |} in
              if Str.header_value (mimeType saved)
                 && Str.header_value (originalFileName saved)
              then
                (Success 200
                   {| contentType := mimeType saved;
                      attachment := originalFileName saved;
                      contentLength := fileSize saved;
                      bytes := content |},
                 counted_world)
              else
                (* [setHeader] throws after the save *)
                (Failure 500 "Failed to download document", counted_world)
          end
      end
  end.

(** *** updateDocument *)

Record UpdateBody := mkUpdateBody {
  patch_title : option string;
  patch_description : option string;
  patch_category : option string;
  patch_priority : option string;
  patch_tags : option string;
  patch_status : option string;
  patch_reviewNotes : option string
}.

Record UpdateRequest := mkUpdateRequest {
  upd_user : ObjectId;
  upd_id : ObjectId;
  upd_errors : list string;
  upd_body : UpdateBody
}.

(** The assignments of [updateDocument] on the loaded document, in their
    order: the fields first, and after them the test on the status, which
    reads [document.status] as the assignment before it has left it. *)
Definition apply_patch (env : Env) (lawyer : ObjectId) (b : UpdateBody)
    (document : Document) : Document :=
  let title1 :=
    match truthy (patch_title b) with
    | Some t => Str.trim t
    | None => title document
    end in
  let description1 :=
    match patch_description b with
    | Some t => Some (Str.trim t)
    | None => description document
    end in
  let category1 := or_else (patch_category b) (category document) in
  let priority1 := or_else (patch_priority b) (priority document) in
  let tags1 :=
    match truthy (patch_tags b) with
    | Some t => Str.trim <$> (Str.trim <$> Str.split ","%char t)
    | None => tags document
    end in
  let status1 := or_else (patch_status b) (status document) in
  let reviewNotes1 :=
    match patch_reviewNotes b with
    | Some t => Some t
    | None => reviewNotes document
    end in
  let entersReview :=
    bool_decide (patch_status b = Some "reviewed")
    && negb (String.eqb status1 "reviewed") in
  {| lawyerId := lawyerId document; clientId := clientId document;
     lawyerClientId := lawyerClientId document;
     title := title1; description := description1;
     fileName := fileName document;
     originalFileName := originalFileName document;
     filePath := filePath document; fileSize := fileSize document;
     mimeType := mimeType document; category := category1;
     status := status1; priority := priority1;
     tags := tags1; uploadedBy := uploadedBy document;
     reviewedBy := if entersReview then Some lawyer else reviewedBy document;
     reviewedAt := if entersReview then Some (now env) else reviewedAt document;
     reviewNotes := reviewNotes1;
     isPublic := isPublic document; isDeleted := isDeleted document;
     downloadCount := downloadCount document;
     lastDownloadedAt := lastDownloadedAt document;
     lastDownloadedBy := lastDownloadedBy document;
     createdAt := createdAt document; updatedAt := updatedAt document |}.

Definition updateDocument (env : Env) (req : UpdateRequest) (w : World)
    : Response (ObjectId * Document) * World :=
  match upd_errors req with
  | _ :: _ => (Failure 400 "Validation errors", w)
  | [] =>
      match Document_findOne (upd_id req) (upd_user req) (docs w) with
      | None => (Failure 404 "Document not found", w)
      | Some document =>
          match Document_save env (upd_id req) document
                  (apply_patch env (upd_user req) (upd_body req) document)
                  (docs w) with
          | None => (Failure 500 "Failed to update document", w)
          | Some (saved, store) =>
              (Success 200 (upd_id req, saved),
               {| docs := store; files := files w;
                  relationships := relationships w |})
          end
      end
  end.

(** *** deleteDocument (soft delete) *)

Definition deleteDocument (env : Env) (lawyer id : ObjectId) (w : World)
    : Response unit * World :=
  match Document_findOne id lawyer (docs w) with
  | None => (Failure 404 "Document not found", w)
  | Some document =>
      let flagged :=
        {| lawyerId := lawyerId document; clientId := clientId document;
           lawyerClientId := lawyerClientId document;
           title := title document; description := description document;
           fileName := fileName document;
           originalFileName := originalFileName document;
           filePath := filePath document; fileSize := fileSize document;
           mimeType := mimeType document; category := category document;
           status := status document; priority := priority document;
           tags := tags document; uploadedBy := uploadedBy document;
           reviewedBy := reviewedBy document;
           reviewedAt := reviewedAt document;
           reviewNotes := reviewNotes document;
           isPublic := isPublic document;
           isDeleted := true;
           downloadCount := downloadCount document;
           lastDownloadedAt := lastDownloadedAt document;
           lastDownloadedBy := lastDownloadedBy document;
           createdAt := createdAt document;
           updatedAt := updatedAt document |} in
      match Document_save env id document flagged (docs w) with
      | None => (Failure 500 "Failed to delete document", w)
      | Some (_, store) =>
          (Success 200 tt,
           {| docs := store; files := files w;
              relationships := relationships w |})
      end
  end.

(** *** getDocumentStats *)

Definition getDocumentStats (lawyer : ObjectId) (client : option ObjectId)
    (w : World) : Response DocumentStats :=
  Success 200
    (Document_getDocumentStats (AsString lawyer) (AsString <$> client) (docs w)).

(** *** The requests of the interface and their effect on the world *)

Inductive Request : Type :=
| Upload (req : UploadRequest)
| List (lawyer : ObjectId) (q : ListQuery)
| GetById (lawyer id : ObjectId)
| DownloadReq (lawyer id : ObjectId)
| Update (req : UpdateRequest)
| Delete (lawyer id : ObjectId)
| Stats (lawyer : ObjectId) (client : option ObjectId).

Definition handle (env : Env) (r : Request) (w : World) : World :=
  match r with
  | Upload req => snd (uploadDocument env req w)
  | List _ _ => w
  | GetById _ _ => w
  | DownloadReq lawyer id => snd (downloadDocument env lawyer id w)
  | Update req => snd (updateDocument env req w)
  | Delete lawyer id => snd (deleteDocument env lawyer id w)
  | Stats _ _ => w
  end.

End CategoryVariant.

(** ** The documentType variant: the controller with hard delete *)

Module DocTypeVariant.

(** A stored document of this variant, with the fields the controller
    reads and writes and the client declares for it ([documentType],
    [lastAccessed]; no [priority], no [isDeleted]). *)
Record Document := mkDocument {
  lawyerId : ObjectId;
  clientId : ObjectId;
  title : string;
  description : option string;
  fileName : string;
  originalFileName : string;
  filePath : string;
  fileSize : N;
  mimeType : string;
  documentType : string;
  status : string;
  tags : list string;
  isPublic : bool;
  uploadedBy : ObjectId;
  reviewedBy : option ObjectId;
  reviewedAt : option Date;
  reviewNotes : option string;
  downloadCount : N;
  lastAccessed : option Date;
  createdAt : Date;
  updatedAt : Date
}.

#[global] Instance Document_eq_dec : EqDecision Document.
Proof. solve_decision. Defined.

Record World := mkWorld {
  docs : gmap ObjectId Document;
  files : Files;
  relationships : list LawyerClient
}.

(** The object handed to [Document.create] by [uploadDocument]. *)
Record NewDocument := mkNewDocument {
  new_lawyerId : ObjectId;
  new_clientId : option ObjectId;
  new_title : option string;
  new_description : option string;
  new_fileName : string;
  new_originalFileName : string;
  new_filePath : string;
  new_fileSize : N;
  new_mimeType : string;
  new_documentType : string;
  new_tags : list string;
  new_isPublic : bool;
  new_uploadedBy : ObjectId
}.

(** Modelled from the spec: the schema behind [Document.create] of this
    variant is missing from the sources.  A new row starts with the default
    status of this variant (["new"]) and [downloadCount = 0], belongs to one
    lawyer and one client and has a title; the fields the controller passes
    are stored as passed.  [None] is the exception [create] throws, when
    the database does not take the write or the generated identifier is
    taken. *)
Definition Document_create (env : Env) (n : NewDocument)
    (store : gmap ObjectId Document)
    : option (ObjectId * Document * gmap ObjectId Document) :=
  match new_clientId n, new_title n with
  | Some client, Some t =>
      let d := {| lawyerId := new_lawyerId n;
                  clientId := client;
                  title := t;
                  description := new_description n;
                  fileName := new_fileName n;
                  originalFileName := new_originalFileName n;
                  filePath := new_filePath n;
                  fileSize := new_fileSize n;
                  mimeType := new_mimeType n;
                  documentType := new_documentType n;
                  status := "new";
                  tags := new_tags n;
                  isPublic := new_isPublic n;
                  uploadedBy := new_uploadedBy n;
                  reviewedBy := None;
                  reviewedAt := None;
                  reviewNotes := None;
                  downloadCount := 0;
                  lastAccessed := None;
                  createdAt := now env;
                  updatedAt := now env |} in
      if persist env then
        match store !! newId env with
        | None => Some (newId env, d, <[newId env := d]> store)
        | Some _ => None
        end
      else None
  | _, _ => None
  end.

(** [Document.findOne({ _id: id, lawyerId })] *)
Definition Document_findOne (id lawyer : ObjectId)
    (store : gmap ObjectId Document) : option Document :=
  match store !! id with
  | Some d => if (lawyerId d =? lawyer)%N then Some d else None
  | None => None
  end.

Definition touch (env : Env) (d : Document) : Document :=
  {| lawyerId := lawyerId d; clientId := clientId d; title := title d;
     description := description d; fileName := fileName d;
     originalFileName := originalFileName d; filePath := filePath d;
     fileSize := fileSize d; mimeType := mimeType d;
     documentType := documentType d; status := status d; tags := tags d;
     isPublic := isPublic d; uploadedBy := uploadedBy d;
     reviewedBy := reviewedBy d; reviewedAt := reviewedAt d;
     reviewNotes := reviewNotes d; downloadCount := downloadCount d;
     lastAccessed := lastAccessed d; createdAt := createdAt d;
     updatedAt := now env |}.

(** [document.save()] of a document that was [loaded] from the store under
    [id] and is now [d]: when nothing was modified nothing is written,
    otherwise the database must take the write and [updatedAt] moves.
    [None] is the exception [save] throws. *)
Definition Document_save (env : Env) (id : ObjectId) (loaded d : Document)
    (store : gmap ObjectId Document)
    : option (Document * gmap ObjectId Document) :=
  if decide (d = loaded) then Some (d, store)
  else if persist env then
    let written := touch env d in
    Some (written, <[id := written]> store)
  else None.

Record DocumentStats := mkDocumentStats {
  totalDocuments : N;
  totalSize : N;
  byStatus : gmap string N;
  byType : gmap string N
}.

Definition aggregate (group : list Document) : DocumentStats :=
  {| totalDocuments := N.of_nat (length group);
     totalSize := fold_right N.add 0%N (fileSize <$> group);
     byStatus := tally (status <$> group);
     byType := tally (documentType <$> group) |}.

(** Modelled from the spec: the statics [getLawyerDocumentStats] and
    [getClientDocumentStats] are missing from the sources.  They are the
    count, the sum of the byte sizes and the frequencies by status and by
    type over the documents of the lawyer, of one client when it is given. *)
Definition Document_getLawyerDocumentStats (lawyer : ObjectId)
    (store : gmap ObjectId Document) : DocumentStats :=
  aggregate (snd <$> Model_find (fun d => (lawyerId d =? lawyer)%N) store).

Definition Document_getClientDocumentStats (lawyer client : ObjectId)
    (store : gmap ObjectId Document) : DocumentStats :=
  aggregate (snd <$> Model_find
               (fun d => (lawyerId d =? lawyer)%N && (clientId d =? client)%N)
               store).

(** *** uploadDocument *)

Record UploadBody := mkUploadBody {
  body_clientId : option ObjectId;
  body_title : option string;
  body_description : option string;
  body_documentType : option string;
  body_tags : option (list string);
  (** a visibility the caller may send along; the handler does not read it *)
  body_isPublic : option bool
}.

(** The request as the handler receives it: the multipart middleware has
    run before it, so [up_file] names a file that is on disk already. *)
Record UploadRequest := mkUploadRequest {
  up_user : ObjectId;
  up_errors : list string;
  up_body : UploadBody;
  up_file : option MulterFile
}.

Definition uploadDocument (env : Env) (req : UploadRequest) (w : World)
    : Response (ObjectId * Document) * World :=
  match up_errors req with
  | _ :: _ => (Failure 400 "Validation errors", w)
  | [] =>
      let body := up_body req in
      let lawyer := up_user req in
      match LawyerClient_findOne
              (fun lc => (lc_lawyerId lc =? lawyer)%N
                         && bool_decide (Some (lc_clientId lc) = body_clientId body)
                         && existsb (String.eqb (lc_status lc)) ["active"; "pending"])
              (relationships w) with
      | None => (Failure 404 "Client relationship not found or inactive", w)
      | Some clientRelationship =>
          match up_file req with
          | None => (Failure 400 "No file uploaded", w)
          | Some file =>
              match Document_create env
                      {| new_lawyerId := lawyer;
                         new_clientId := body_clientId body;
                         new_title := body_title body;
                         new_description := body_description body;
                         new_fileName := filename file;
                         new_originalFileName := originalname file;
                         new_filePath := path file;
                         new_fileSize := size file;
                         new_mimeType := mimetype file;
                         new_documentType := default "other" (body_documentType body);
                         new_tags := default [] (body_tags body);
                         new_isPublic := false;
                         new_uploadedBy := lawyer |}
                      (docs w) with
              | Some (id, document, store) =>
                  (Success 201 (id, document),
                   {| docs := store; files := files w;
                      relationships := relationships w |})
              | None => (Failure 500 "Failed to upload document", w)
              end
          end
      end
  end.

(** *** getLawyerDocuments *)

Record ListQuery := mkListQuery {
  q_page : option Z;
  q_limit : option Z;
  q_status : option string;
  q_documentType : option string;
  q_clientId : option ObjectId;
  q_search : option string;
  q_sortBy : option string;
  q_sortOrder : option string
}.

(** [value && value !== 'all'] *)
Definition unless_all (o : option string) : option string :=
  match truthy o with
  | Some v => if String.eqb v "all" then None else Some v
  | None => None
  end.

Definition list_query (env : Env) (lawyer : ObjectId) (q : ListQuery)
    (d : Document) : bool :=
  (lawyerId d =? lawyer)%N
  && same_text (unless_all (q_status q)) (status d)
  && same_text (unless_all (q_documentType q)) (documentType d)
  && same_id (q_clientId q) (clientId d)
  && match truthy (q_search q) with
     | Some search =>
         matches env search (title d)
         || match description d with
            | Some text => matches env search text
            | None => false
            end
         || matches env search (originalFileName d)
     | None => true
     end.

Definition field_is (sortBy name : string) : bool := String.eqb sortBy name.

(** The value of the field a sort is keyed on. *)
Definition sort_key (desc : bool) (sortBy : string)
    (kv : ObjectId * Document) : SortKey :=
  let d := snd kv in
  if field_is sortBy "_id" then KId (fst kv)
  else if field_is sortBy "lawyerId" then KId (lawyerId d)
  else if field_is sortBy "clientId" then KId (clientId d)
  else if field_is sortBy "title" then KStr (title d)
  else if field_is sortBy "description" then opt_key KStr (description d)
  else if field_is sortBy "fileName" then KStr (fileName d)
  else if field_is sortBy "originalFileName" then KStr (originalFileName d)
  else if field_is sortBy "filePath" then KStr (filePath d)
  else if field_is sortBy "fileSize" then KNum (fileSize d)
  else if field_is sortBy "mimeType" then KStr (mimeType d)
  else if field_is sortBy "documentType" then KStr (documentType d)
  else if field_is sortBy "status" then KStr (status d)
  else if field_is sortBy "tags" then array_key desc (tags d)
  else if field_is sortBy "isPublic" then KBool (isPublic d)
  else if field_is sortBy "uploadedBy" then KId (uploadedBy d)
  else if field_is sortBy "reviewedBy" then opt_key KId (reviewedBy d)
  else if field_is sortBy "reviewedAt" then opt_key KDate (reviewedAt d)
  else if field_is sortBy "reviewNotes" then opt_key KStr (reviewNotes d)
  else if field_is sortBy "downloadCount" then KNum (downloadCount d)
  else if field_is sortBy "lastAccessed" then opt_key KDate (lastAccessed d)
  else if field_is sortBy "createdAt" then KDate (createdAt d)
  else if field_is sortBy "updatedAt" then KDate (updatedAt d)
  else KNull.

Record ListData := mkListData {
  documents : list (ObjectId * Document);
  pagination : Pagination;
  stats : DocumentStats
}.

(** The database throws on a [$regex] that is no regular expression. *)
Definition getLawyerDocuments (env : Env) (lawyer : ObjectId) (q : ListQuery)
    (w : World) : Response ListData :=
  let page := default 1%Z (q_page q) in
  let limit := default 20%Z (q_limit q) in
  let sortBy := default "createdAt" (q_sortBy q) in
  let desc := bool_decide (default "desc" (q_sortOrder q) = "desc") in
  let skip := ((page - 1) * limit)%Z in
  if negb (compiles env (truthy (q_search q))) then
    Failure 500 "Failed to fetch documents"
  else
    let found := Model_find (list_query env lawyer q) (docs w) in
    match paginate skip limit (sort_docs (sort_key desc sortBy) desc found) with
    | None => Failure 500 "Failed to fetch documents"
    | Some documents =>
        let total := Z.of_nat (length found) in
        Success 200
          {| documents := documents;
             pagination :=
               {| currentPage := page;
                  totalPages := ceil_div total limit;
                  totalItems := total;
                  hasNext := (skip + Z.of_nat (length documents) <? total)%Z;
                  hasPrev := (1 <? page)%Z |};
             stats := Document_getLawyerDocumentStats lawyer (docs w) |}
    end.

(** *** getDocumentById *)

Definition getDocumentById (env : Env) (lawyer id : ObjectId) (w : World)
    : Response (ObjectId * Document) * World :=
  match Document_findOne id lawyer (docs w) with
  | None => (Failure 404 "Document not found", w)
  | Some document =>
      let accessed :=
        {| lawyerId := lawyerId document; clientId := clientId document;
           title := title document; description := description document;
           fileName := fileName document;
           originalFileName := originalFileName document;
           filePath := filePath document; fileSize := fileSize document;
           mimeType := mimeType document;
           documentType := documentType document; status := status document;
           tags := tags document; isPublic := isPublic document;
           uploadedBy := uploadedBy document;
           reviewedBy := reviewedBy document;
           reviewedAt := reviewedAt document;
           reviewNotes := reviewNotes document;
           downloadCount := downloadCount document;
           lastAccessed := Some (now env);
           createdAt := createdAt document; updatedAt := updatedAt document |} in
      match Document_save env id document accessed (docs w) with
      | None => (Failure 500 "Failed to fetch document", w)
      | Some (saved, store) =>
          (Success 200 (id, saved),
           {| docs := store; files := files w;
              relationships := relationships w |})
      end
  end.

(** *** updateDocument *)

Record UpdateBody := mkUpdateBody {
  patch_title : option string;
  patch_description : option string;
  patch_documentType : option string;
  patch_status : option string;
  patch_tags : option (list string);
  patch_reviewNotes : option string
}.

Definition review_terminal (status : string) : bool :=
  String.eqb status "reviewed" || String.eqb status "approved"
  || String.eqb status "rejected".

(** The assignments of [updateDocument] on the loaded document. *)
Definition apply_patch (env : Env) (lawyer : ObjectId) (b : UpdateBody)
    (document : Document) : Document :=
  let transition :=
    match patch_status b with
    | Some s => if String.eqb s (status document) then None else Some s
    | None => None
    end in
  let reviews :=
    match transition with Some s => review_terminal s | None => false end in
  {| lawyerId := lawyerId document; clientId := clientId document;
     title := default (title document) (patch_title b);
     description := match patch_description b with
                    | Some t => Some t
                    | None => description document
                    end;
     fileName := fileName document;
     originalFileName := originalFileName document;
     filePath := filePath document; fileSize := fileSize document;
     mimeType := mimeType document;
     documentType := default (documentType document) (patch_documentType b);
     status := default (status document) transition;
     tags := default (tags document) (patch_tags b);
     isPublic := isPublic document; uploadedBy := uploadedBy document;
     reviewedBy := if reviews then Some lawyer else reviewedBy document;
     reviewedAt := if reviews then Some (now env) else reviewedAt document;
     reviewNotes := match truthy (patch_reviewNotes b) with
                    | Some notes =>
                        if reviews then Some notes else reviewNotes document
                    | None => reviewNotes document
                    end;
     downloadCount := downloadCount document;
     lastAccessed := lastAccessed document;
     createdAt := createdAt document; updatedAt := updatedAt document |}.

Definition updateDocument (env : Env) (lawyer id : ObjectId) (b : UpdateBody)
    (w : World) : Response (ObjectId * Document) * World :=
  match Document_findOne id lawyer (docs w) with
  | None => (Failure 404 "Document not found", w)
  | Some document =>
      match Document_save env id document (apply_patch env lawyer b document)
              (docs w) with
      | None => (Failure 500 "Failed to update document", w)
      | Some (saved, store) =>
          (Success 200 (id, saved),
           {| docs := store; files := files w;
              relationships := relationships w |})
      end
  end.

(** *** deleteDocument (hard delete) *)

(** The file goes first ([fs.unlink]; that it is already gone is logged and
    passed over), the record after it ([findByIdAndDelete]); when the
    database refuses, the file is gone and the record stays. *)
Definition deleteDocument (env : Env) (lawyer id : ObjectId) (w : World)
    : Response unit * World :=
  match Document_findOne id lawyer (docs w) with
  | None => (Failure 404 "Document not found", w)
  | Some document =>
      let unlinked := delete (filePath document) (files w) in
      if persist env then
        (Success 200 tt,
         {| docs := delete id (docs w); files := unlinked;
            relationships := relationships w |})
      else
        (Failure 500 "Failed to delete document",
         {| docs := docs w; files := unlinked;
            relationships := relationships w |})
  end.

(** *** downloadDocument *)

(** [res.download(filePath, originalFileName)] *)
Record Download := mkDownload {
  attachment : string;
  bytes : list Byte.byte
}.

Definition downloadDocument (env : Env) (lawyer id : ObjectId) (w : World)
    : Response Download * World :=
  match Document_findOne id lawyer (docs w) with
  | None => (Failure 404 "Document not found", w)
  | Some document =>
      match files w !! filePath document with
      | None => (Failure 404 "File not found on server", w)
      | Some content =>
          let counted :=
            {| lawyerId := lawyerId document; clientId := clientId document;
               title := title document; description := description document;
               fileName := fileName document;
               originalFileName := originalFileName document;
               filePath := filePath document; fileSize := fileSize document;
               mimeType := mimeType document;
               documentType := documentType document; status := status document;
               tags := tags document; isPublic := isPublic document;
               uploadedBy := uploadedBy document;
               reviewedBy := reviewedBy document;
               reviewedAt := reviewedAt document;
               reviewNotes := reviewNotes document;
               downloadCount := downloadCount document + 1;
               lastAccessed := Some (now env);
               createdAt := createdAt document; updatedAt := updatedAt document |} in
          match Document_save env id document counted (docs w) with
          | None => (Failure 500 "Failed to download document", w)
          | Some (saved, store) =>
              (Success 200
                 {| attachment := originalFileName saved; bytes := content |},
               {| docs := store; files := files w;
                  relationships := relationships w |})
          end
      end
  end.

(** *** getDocumentStats *)

Definition getDocumentStats (lawyer : ObjectId) (client : option ObjectId)
    (w : World) : Response DocumentStats :=
  match client with
  | Some c => Success 200 (Document_getClientDocumentStats lawyer c (docs w))
  | None => Success 200 (Document_getLawyerDocumentStats lawyer (docs w))
  end.

(** *** The requests of the interface and their effect on the world *)

Inductive Request : Type :=
| Upload (req : UploadRequest)
| List (lawyer : ObjectId) (q : ListQuery)
| GetById (lawyer id : ObjectId)
| DownloadReq (lawyer id : ObjectId)
| Update (lawyer id : ObjectId) (b : UpdateBody)
| Delete (lawyer id : ObjectId)
| Stats (lawyer : ObjectId) (client : option ObjectId).

Definition handle (env : Env) (r : Request) (w : World) : World :=
  match r with
  | Upload req => snd (uploadDocument env req w)
  | List _ _ => w
  | GetById lawyer id => snd (getDocumentById env lawyer id w)
  | DownloadReq lawyer id => snd (downloadDocument env lawyer id w)
  | Update lawyer id b => snd (updateDocument env lawyer id b w)
  | Delete lawyer id => snd (deleteDocument env lawyer id w)
  | Stats _ _ => w
  end.

End DocTypeVariant.

(** ** The routes of documentController.js and their validators *)

Module CategoryRoutes.

(** The length [isLength] measures: the code points of the string (a
    surrogate pair counts once) without the variation selectors U+FE0E and
    U+FE0F. *)
Definition continuation (c : ascii) : bool :=
  ((128 <=? N_of_ascii c) && (N_of_ascii c <? 192))%N.

Fixpoint code_points (s : string) : nat :=
  match s with
  | EmptyString => 0
  | String c s' => (if continuation c then 0 else 1) + code_points s'
  end.

Fixpoint selectors (s : string) : nat :=
  match s with
  | EmptyString => 0
  | String a s1 =>
      match s1 with
      | String b (String c _) =>
          if Ascii.eqb a "239" && Ascii.eqb b "184"
             && (Ascii.eqb c "142" || Ascii.eqb c "143")
          then 1 else 0
      | _ => 0
      end + selectors s1
  end.

(** [.isLength({ min, max })] *)
Definition isLength (min max : nat) (s : string) : bool :=
  let len := code_points s - selectors s in
  (min <=? len)%nat && (len <=? max)%nat.

(** A check of a validation chain: its message when it fails. *)
Definition check (ok : bool) (message : string) : list string :=
  if ok then [] else [message].

(** [.optional()]: the chain is skipped when the field is not there. *)
Definition optional (field : option string) (chain : string -> list string)
    : list string :=
  match field with
  | Some value => chain value
  | None => []
  end.

(** [validateUploadDocument]: the messages of the checks that fail, in the
    order of the chains.  The client identifier is either absent or an
    identifier ([isMongoId] holds of every identifier there is here); a
    missing title is checked as the empty string. *)
Definition validateUploadDocument (b : CategoryVariant.UploadBody)
    : list string :=
  match CategoryVariant.body_clientId b with
  | Some _ => []
  | None => ["Client ID is required"; "Invalid client ID format"]
  end
  ++ check (isLength 3 200
              (Str.trim (default EmptyString (CategoryVariant.body_title b))))
       "Title must be between 3 and 200 characters"
  ++ optional (CategoryVariant.body_description b)
       (fun v => check (isLength 0 1000 (Str.trim v))
                   "Description cannot exceed 1000 characters")
  ++ optional (CategoryVariant.body_category b)
       (fun v => check (CategoryVariant.one_of CategoryVariant.categories v)
                   "Invalid document category")
  ++ optional (CategoryVariant.body_priority b)
       (fun v => check (CategoryVariant.one_of CategoryVariant.priorities v)
                   "Invalid priority level").

(** The body as the sanitizers ([.trim()]) of the chains leave it. *)
Definition sanitizeUpload (b : CategoryVariant.UploadBody)
    : CategoryVariant.UploadBody :=
  {| CategoryVariant.body_clientId := CategoryVariant.body_clientId b;
     CategoryVariant.body_title :=
       Some (Str.trim (default EmptyString (CategoryVariant.body_title b)));
     CategoryVariant.body_description :=
       Str.trim <$> CategoryVariant.body_description b;
     CategoryVariant.body_category := CategoryVariant.body_category b;
     CategoryVariant.body_priority := CategoryVariant.body_priority b;
     CategoryVariant.body_tags := CategoryVariant.body_tags b;
     CategoryVariant.body_isPublic := CategoryVariant.body_isPublic b |}.

(** A body with no field. *)
Definition noBody : CategoryVariant.UploadBody :=
  CategoryVariant.mkUploadBody None None None None None None None.

(** What reaches POST /upload: a multipart request, whose fields and file
    nothing has read yet, or a request whose body a body parser has read
    (and which has no file part). *)
Inductive UploadInput : Type :=
| Multipart (fields : CategoryVariant.UploadBody) (file : option FilePart)
| Parsed (body : CategoryVariant.UploadBody).

(** [router.post('/upload', protect, lawyer, validateUploadDocument,
    uploadDocument)], for the lawyer the authentication has let through.
    The validators and the first lines of the handler read [req.body]
    before [upload.single], which the handler calls after the relationship
    check, reads the fields of a multipart request. *)
Definition post_upload (env : Env) (user : ObjectId) (input : UploadInput)
    (w : CategoryVariant.World)
    : Response (ObjectId * CategoryVariant.Document) * CategoryVariant.World :=
  let body := match input with Multipart _ _ => noBody | Parsed b => b end in
  let file := match input with Multipart _ f => f | Parsed _ => None end in
  CategoryVariant.uploadDocument env
    {| CategoryVariant.up_user := user;
       CategoryVariant.up_errors := validateUploadDocument body;
       CategoryVariant.up_body := sanitizeUpload body;
       CategoryVariant.up_file := file |} w.

(** [validateUpdateDocument] *)
Definition validateUpdateDocument (b : CategoryVariant.UpdateBody)
    : list string :=
  optional (CategoryVariant.patch_title b)
    (fun v => check (isLength 3 200 (Str.trim v))
                "Title must be between 3 and 200 characters")
  ++ optional (CategoryVariant.patch_description b)
       (fun v => check (isLength 0 1000 (Str.trim v))
                   "Description cannot exceed 1000 characters")
  ++ optional (CategoryVariant.patch_category b)
       (fun v => check (CategoryVariant.one_of CategoryVariant.categories v)
                   "Invalid document category")
  ++ optional (CategoryVariant.patch_priority b)
       (fun v => check (CategoryVariant.one_of CategoryVariant.priorities v)
                   "Invalid priority level")
  ++ optional (CategoryVariant.patch_status b)
       (fun v => check (CategoryVariant.one_of CategoryVariant.statuses v)
                   "Invalid document status")
  ++ optional (CategoryVariant.patch_reviewNotes b)
       (fun v => check (isLength 0 1000 (Str.trim v))
                   "Review notes cannot exceed 1000 characters").

Definition sanitizeUpdate (b : CategoryVariant.UpdateBody)
    : CategoryVariant.UpdateBody :=
  {| CategoryVariant.patch_title := Str.trim <$> CategoryVariant.patch_title b;
     CategoryVariant.patch_description :=
       Str.trim <$> CategoryVariant.patch_description b;
     CategoryVariant.patch_category := CategoryVariant.patch_category b;
     CategoryVariant.patch_priority := CategoryVariant.patch_priority b;
     CategoryVariant.patch_tags := CategoryVariant.patch_tags b;
     CategoryVariant.patch_status := CategoryVariant.patch_status b;
     CategoryVariant.patch_reviewNotes :=
       Str.trim <$> CategoryVariant.patch_reviewNotes b |}.

(** [router.put('/:id', protect, lawyer, validateUpdateDocument,
    updateDocument)] *)
Definition put_update (env : Env) (user id : ObjectId)
    (b : CategoryVariant.UpdateBody) (w : CategoryVariant.World)
    : Response (ObjectId * CategoryVariant.Document) * CategoryVariant.World :=
  CategoryVariant.updateDocument env
    {| CategoryVariant.upd_user := user;
       CategoryVariant.upd_id := id;
       CategoryVariant.upd_errors := validateUpdateDocument b;
       CategoryVariant.upd_body := sanitizeUpdate b |} w.

End CategoryRoutes.

(** ** The virtuals of the Document schema *)

Definition imageTypes : list string :=
  ["image/jpeg"; "image/png"; "image/gif"; "image/webp"; "image/svg+xml"].

Definition isImage (d : CategoryVariant.Document) : bool :=
  existsb (String.eqb (CategoryVariant.mimeType d)) imageTypes.

Definition isPDF (d : CategoryVariant.Document) : bool :=
  String.eqb (CategoryVariant.mimeType d) "application/pdf".

(** ** The icon the client shows for a file *)

(** The five pictures [getFileIcon] chooses from. *)
Inductive Icon : Type :=
| PageIcon
| MemoIcon
| ChartIcon
| PictureIcon
| PackageIcon.

(** [getFileIcon] of documentService.ts; [mimeType.includes(s)] is the
    substring test. *)
Definition getFileIcon (mimeType : string) : Icon :=
  if Str.includes "pdf" mimeType then PageIcon
  else if Str.includes "word" mimeType || Str.includes "document" mimeType
  then MemoIcon
  else if Str.includes "excel" mimeType || Str.includes "spreadsheet" mimeType
  then ChartIcon
  else if Str.includes "image" mimeType then PictureIcon
  else if Str.includes "zip" mimeType || Str.includes "rar" mimeType
  then PackageIcon
  else PageIcon.

(** ** Observations on responses, and sample data *)

Module Category := CategoryVariant.
Module DocType := DocTypeVariant.

(** The documents of a list response (none when the request failed). *)
Definition listedC (r : Response Category.ListData)
    : list (N * Category.Document) :=
  match r with
  | Success _ data => Category.documents data
  | _ => []
  end.

Definition listedT (r : Response DocType.ListData)
    : list (N * DocType.Document) :=
  match r with
  | Success _ data => DocType.documents data
  | _ => []
  end.

(** The world with the record [i] taken out of the collection. *)
Definition withoutC (i : N) (w : Category.World) : Category.World :=
  {| Category.docs := delete i (Category.docs w);
     Category.files := Category.files w;
     Category.relationships := Category.relationships w |}.

Definition withoutT (i : N) (w : DocType.World) : DocType.World :=
  {| DocType.docs := delete i (DocType.docs w);
     DocType.files := DocType.files w;
     DocType.relationships := DocType.relationships w |}.

(** *** A small office: lawyers 7 and 8, client 9 *)

(** The environment of a request that only reads. *)
Definition reading : Env := mkEnv 9000 0 0 true.

Definition noFilterC : Category.ListQuery :=
  Category.mkListQuery None None None None None None None None None.

Definition officeC : Category.World :=
  Category.mkWorld ∅ ∅ [mkLawyerClient 100 7 9 "active" false].

Definition leasePart : FilePart :=
  mkFilePart "document" "lease.pdf" "application/pdf" [Byte.x25; Byte.x50].

Definition uploadLease : Category.UploadRequest :=
  Category.mkUploadRequest 7 []
    (Category.mkUploadBody (Some 9%N) (Some "Lease") None None None None
       (Some true))
    (Some leasePart).

Definition uploadWill : Category.UploadRequest :=
  Category.mkUploadRequest 7 []
    (Category.mkUploadBody (Some 9%N) (Some "Will") (Some "last will")
       (Some "contract") (Some "high") (Some "estate, family") None)
    (Some (mkFilePart "document" "will.txt" "text/plain" [Byte.x57])).

(** Lawyer 7 has uploaded two documents for client 9. *)
Definition twoDocsC : Category.World :=
  snd (Category.uploadDocument (mkEnv 2000 6 2 true)
         uploadWill
         (snd (Category.uploadDocument
                 (mkEnv 1000 5 1 true) uploadLease officeC))).

(** The first of them as it is stored. *)
Definition leaseC : Category.Document :=
  {| Category.lawyerId := 7; Category.clientId := 9;
     Category.lawyerClientId := 100; Category.title := "Lease";
     Category.description := None;
     Category.fileName := "document-1000-5.pdf";
     Category.originalFileName := "lease.pdf";
     Category.filePath := "uploads/documents/document-1000-5.pdf";
     Category.fileSize := 2; Category.mimeType := "application/pdf";
     Category.category := "other"; Category.status := "pending_review";
     Category.priority := "medium"; Category.tags := [];
     Category.uploadedBy := 7; Category.reviewedBy := None;
     Category.reviewedAt := None; Category.reviewNotes := None;
     Category.isPublic := false; Category.isDeleted := false;
     Category.downloadCount := 0; Category.lastDownloadedAt := None;
     Category.lastDownloadedBy := None;
     Category.createdAt := 1000; Category.updatedAt := 1000 |}.

(** A record is hidden in a world of the category variant when no read
    surfaces or counts it: a list answers as if the record were not in the
    collection (documents, total and statistics alike), fetching and
    downloading it answer 404 to every caller, and so do the statistics. *)
Definition hiddenC (i : N) (w : Category.World) : Prop :=
  (∀ env L q, Category.getDocuments env L q w
              = Category.getDocuments env L q (withoutC i w))
  ∧ (∀ env L q, i ∉ (fst <$> listedC (Category.getDocuments env L q w)))
  ∧ (∀ L, Category.getDocumentById L i w = Failure 404 "Document not found")
  ∧ (∀ env L, Category.downloadDocument env L i w
              = (Failure 404 "Document not found", w))
  ∧ (∀ L c, Category.getDocumentStats L c w
            = Category.getDocumentStats L c (withoutC i w)).

(** The same in the documentType variant, where fetching writes. *)
Definition hiddenT (i : N) (w : DocType.World) : Prop :=
  (∀ env L q, DocType.getLawyerDocuments env L q w
              = DocType.getLawyerDocuments env L q (withoutT i w))
  ∧ (∀ env L q, i ∉ (fst <$> listedT (DocType.getLawyerDocuments env L q w)))
  ∧ (∀ env L, DocType.getDocumentById env L i w
              = (Failure 404 "Document not found", w))
  ∧ (∀ env L, DocType.downloadDocument env L i w
              = (Failure 404 "Document not found", w))
  ∧ (∀ L c, DocType.getDocumentStats L c w
            = DocType.getDocumentStats L c (withoutT i w)).





(** How many successful downloads of the document [i] a request makes. *)
Definition downloadsC (env : Env) (r : Category.Request) (i : N)
    (w : Category.World) : N :=
  match r with
  | Category.DownloadReq L j =>
      if bool_decide (j = i)
         && succeeded (Category.downloadDocument env L j w).1
      then 1 else 0
  | _ => 0
  end.

Definition downloadsT (env : Env) (r : DocType.Request) (i : N)
    (w : DocType.World) : N :=
  match r with
  | DocType.DownloadReq L j =>
      if bool_decide (j = i)
         && succeeded (DocType.downloadDocument env L j w).1
      then 1 else 0
  | _ => 0
  end.

(** The type and the name of the file of a document can go into the
    headers of a download. *)
Definition sendableC (d : Category.Document) : Prop :=
  Str.header_value (Category.mimeType d) = true
  ∧ Str.header_value (Category.originalFileName d) = true.

(** The bytes a download answers (none when it failed). *)
Definition bytesC (r : Response Category.Download) : option (list Byte.byte) :=
  match r with Success _ dl => Some (Category.bytes dl) | _ => None end.

Definition bytesT (r : Response DocType.Download) : option (list Byte.byte) :=
  match r with Success _ dl => Some (DocType.bytes dl) | _ => None end.

(** The download counter of the record [i], when there is one. *)
Definition countC (i : N) (w : Category.World) : option N :=
  Category.downloadCount <$> Category.docs w !! i.

Definition countT (i : N) (w : DocType.World) : option N :=
  DocType.downloadCount <$> DocType.docs w !! i.

(** A sequence of requests, each with its environment, handled in order. *)
Fixpoint runC (trace : list (Env * Category.Request)) (w : Category.World)
    : Category.World :=
  match trace with
  | [] => w
  | (env, r) :: rest => runC rest (Category.handle env r w)
  end.

Fixpoint runT (trace : list (Env * DocType.Request)) (w : DocType.World)
    : DocType.World :=
  match trace with
  | [] => w
  | (env, r) :: rest => runT rest (DocType.handle env r w)
  end.

(** The record [i] is in the collection before each request of the trace
    (with hard delete a record can leave, and its identifier is then free
    for another record). *)
Fixpoint staysT (i : N) (trace : list (Env * DocType.Request))
    (w : DocType.World) : Prop :=
  match trace with
  | [] => True
  | (env, r) :: rest =>
      is_Some (DocType.docs w !! i) ∧ staysT i rest (DocType.handle env r w)
  end.

(** Three downloads of the same document, one after the other. *)
Definition thriceC (e1 e2 e3 : Env) (L i : N) (w : Category.World)
    : list (Response Category.Download) * Category.World :=
  let r1 := Category.downloadDocument e1 L i w in
  let r2 := Category.downloadDocument e2 L i r1.2 in
  let r3 := Category.downloadDocument e3 L i r2.2 in
  ([r1.1; r2.1; r3.1], r3.2).

Definition thriceT (e1 e2 e3 : Env) (L i : N) (w : DocType.World)
    : list (Response DocType.Download) * DocType.World :=
  let r1 := DocType.downloadDocument e1 L i w in
  let r2 := DocType.downloadDocument e2 L i r1.2 in
  let r3 := DocType.downloadDocument e3 L i r2.2 in
  ([r1.1; r2.1; r3.1], r3.2).

(** An update that only sets the status. *)
Definition setStatusC (lawyer id : N) (status : string) : Category.UpdateRequest :=
  Category.mkUpdateRequest lawyer id []
    (Category.mkUpdateBody None None None None None (Some status) None).

(** What an update answers: status, reviewer and review time of the
    document returned. *)
Definition reviewC (r : Response (N * Category.Document))
    : option (string * option N * option N) :=
  match r with
  | Success _ (_, d) =>
      Some (Category.status d, Category.reviewedBy d, Category.reviewedAt d)
  | _ => None
  end.

(** *** The same office in the documentType variant *)

(** The multipart middleware has stored the lease under this name before
    the handler runs. *)
Definition leaseFile : MulterFile :=
  {| fieldname := "document"; originalname := "lease.pdf";
     filename := "document-1000-5.pdf";
     path := "uploads/documents/document-1000-5.pdf";
     size := 2; mimetype := "application/pdf" |}.

Definition officeT : DocType.World :=
  DocType.mkWorld ∅
    {[ "uploads/documents/document-1000-5.pdf" := [Byte.x25; Byte.x50] ]}
    [mkLawyerClient 100 7 9 "active" false].

Definition uploadLeaseT (client : N) : DocType.UploadRequest :=
  DocType.mkUploadRequest 7 []
    (DocType.mkUploadBody (Some client) (Some "Lease") None None None None)
    (Some leaseFile).

(** Lawyer 7 has uploaded the lease for client 9. *)
Definition oneDocT : DocType.World :=
  snd (DocType.uploadDocument (mkEnv 1000 5 1 true)
         (uploadLeaseT 9) officeT).

(** An office whose only relationship is completed, and not archived. *)
Definition completedC : Category.World :=
  Category.mkWorld ∅ ∅ [mkLawyerClient 100 7 9 "completed" false].

(** Is there a relationship row of this lawyer and client that is active or
    pending? *)
Definition active_or_pending (lawyer : N) (client : option N)
    (rows : list LawyerClient) : bool :=
  existsb (fun lc => (lc_lawyerId lc =? lawyer)%N
                     && bool_decide (Some (lc_clientId lc) = client)
                     && (String.eqb (lc_status lc) "active"
                         || String.eqb (lc_status lc) "pending")) rows.

(** Is there one that is not archived? *)
Definition not_archived (lawyer : N) (client : option N)
    (rows : list LawyerClient) : bool :=
  existsb (fun lc => (lc_lawyerId lc =? lawyer)%N
                     && bool_decide (Some (lc_clientId lc) = client)
                     && negb (lc_isArchived lc)) rows.

(** *** Searching *)

(** [needle] occurs in [hay] when the case of letters is ignored. *)
Definition contains_ci (needle hay : string) : Prop :=
  ∃ pre post, Str.lower hay = (pre ++ Str.lower needle ++ post)%string.








(** Lawyer 7 holds an agreement tagged contract. *)
Definition agreementT : DocType.Document :=
  {| DocType.lawyerId := 7; DocType.clientId := 9;
     DocType.title := "Agreement"; DocType.description := None;
     DocType.fileName := "document-1000-5.pdf";
     DocType.originalFileName := "scan.pdf";
     DocType.filePath := "uploads/documents/document-1000-5.pdf";
     DocType.fileSize := 2; DocType.mimeType := "application/pdf";
     DocType.documentType := "other"; DocType.status := "new";
     DocType.tags := ["contract"]; DocType.isPublic := false;
     DocType.uploadedBy := 7; DocType.reviewedBy := None;
     DocType.reviewedAt := None; DocType.reviewNotes := None;
     DocType.downloadCount := 0; DocType.lastAccessed := None;
     DocType.createdAt := 1000; DocType.updatedAt := 1000 |}.

Definition archiveT : DocType.World :=
  DocType.mkWorld {[ 1%N := agreementT ]} ∅
    [mkLawyerClient 100 7 9 "active" false].

Definition searchT (s : string) : DocType.ListQuery :=
  DocType.mkListQuery None None None None None (Some s) None None.

(** ** Further observations *)

(** The fields of a document an update has no business with: whose it is,
    the file behind it, who uploaded it and when, its visibility, its
    deletion flag and its download counter. *)
Definition fixedC (d : Category.Document)
    : N * N * N * (string * string * string * N * string) * N * bool * bool
      * N * N :=
  (Category.lawyerId d, Category.clientId d, Category.lawyerClientId d,
   (Category.fileName d, Category.originalFileName d, Category.filePath d,
    Category.fileSize d, Category.mimeType d),
   Category.uploadedBy d, Category.isPublic d, Category.isDeleted d,
   Category.downloadCount d, Category.createdAt d).

Definition fixedT (d : DocType.Document)
    : N * N * (string * string * string * N * string) * N * bool * N * N :=
  (DocType.lawyerId d, DocType.clientId d,
   (DocType.fileName d, DocType.originalFileName d, DocType.filePath d,
    DocType.fileSize d, DocType.mimeType d),
   DocType.uploadedBy d, DocType.isPublic d,
   DocType.downloadCount d, DocType.createdAt d).

(** A patch that carries nothing. *)
Definition emptyPatchC : Category.UpdateBody :=
  Category.mkUpdateBody None None None None None None None.

Definition emptyPatchT : DocType.UpdateBody :=
  DocType.mkUpdateBody None None None None None None.

(** Every record of the collection is private. *)
Definition all_privateC (w : Category.World) : Prop :=
  ∀ i d, Category.docs w !! i = Some d -> Category.isPublic d = false.

Definition all_privateT (w : DocType.World) : Prop :=
  ∀ i d, DocType.docs w !! i = Some d -> DocType.isPublic d = false.

(** The documents and the pagination of a list response of the documentType
    variant (its statistics come from statics that are not in the sources). *)
Definition pageT (r : Response DocType.ListData)
    : option (list (N * DocType.Document) * Pagination) :=
  match r with
  | Success _ data => Some (DocType.documents data, DocType.pagination data)
  | _ => None
  end.

(** Lawyer 7 retitles the lease and asks for another priority and status. *)
Definition retitleLease : Category.UpdateRequest :=
  Category.mkUpdateRequest 7 1 []
    (Category.mkUpdateBody (Some "Lease 2024") None None (Some "high")
       None (Some "approved") None).

Definition retitledC : Category.World :=
  (Category.updateDocument (mkEnv 4000 0 0 true) retitleLease twoDocsC).2.

Definition leaseRetitledC : Category.Document :=
  default leaseC (Category.docs retitledC !! 1%N).

(** Everything a soft delete leaves as it was: all the fields of a document
    but [isDeleted] and [updatedAt]. *)
Definition restOfC (d : Category.Document) :=
  (Category.lawyerId d, Category.clientId d, Category.lawyerClientId d,
   Category.fileName d, Category.originalFileName d, Category.filePath d,
   Category.fileSize d, Category.mimeType d, Category.uploadedBy d,
   Category.isPublic d, Category.downloadCount d, Category.createdAt d,
   (Category.title d, Category.description d, Category.category d,
    Category.status d, Category.priority d, Category.tags d,
    Category.reviewedBy d, Category.reviewedAt d, Category.reviewNotes d,
    Category.lastDownloadedAt d, Category.lastDownloadedBy d)).



(** The order a list request asks for: [x] may come before [y]. *)
Definition in_order {A} (key : N * A -> SortKey) (desc : bool)
    (x y : N * A) : Prop :=
  Is_true (if desc then key_leb (key y) (key x) else key_leb (key x) (key y)).

(** Newest first. *)
Definition newer_firstC (x y : N * Category.Document) : Prop :=
  (Category.createdAt y.2 <= Category.createdAt x.2)%N.

Definition newer_firstT (x y : N * DocType.Document) : Prop :=
  (DocType.createdAt y.2 <= DocType.createdAt x.2)%N.

(** Oldest first. *)
Definition older_firstC (x y : N * Category.Document) : Prop :=
  (Category.createdAt x.2 <= Category.createdAt y.2)%N.

Definition older_firstT (x y : N * DocType.Document) : Prop :=
  (DocType.createdAt x.2 <= DocType.createdAt y.2)%N.



(** How often [k] occurs in [l]. *)
Definition occurrences (k : string) (l : list string) : N :=
  N.of_nat (length (filter (fun x => x = k) l)).

(** The sum of the counts of a frequency table. *)
Definition sum_counts (m : gmap string N) : N :=
  map_fold (fun _ n acc => (n + acc)%N) 0%N m.

(** The documents the statistics of the category variant range over when
    the lawyer and the client are given as [ObjectId]s. *)
Definition countedC (L : N) (c : option N) (d : Category.Document) : bool :=
  (Category.lawyerId d =? L)%N && negb (Category.isDeleted d)
  && same_id c (Category.clientId d).

(** Every tag that the pieces between the commas of a tags string give has
    at most fifty characters. *)
Definition short_tags (tags : option string) : Prop :=
  match truthy tags with
  | Some t => ∀ piece, piece ∈ Str.split ","%char t ->
                       (Str.units (Str.trim piece) <= 50)%nat
  | None => True
  end.

(** A string of ASCII characters: its bytes, its code points and its
    UTF-16 code units are the same in number. *)
Definition ascii_only (s : string) : bool :=
  forallb (fun c => (N_of_ascii c <? 128)%N) (list_ascii_of_string s).

(** A text field of a body that is absent or ASCII. *)
Definition plain_text (field : option string) : Prop :=
  match field with
  | Some v => ascii_only v = true
  | None => True
  end.

(** The review information of a document. *)
Definition reviewT (d : DocType.Document)
    : option N * option N * option string :=
  (DocType.reviewedBy d, DocType.reviewedAt d, DocType.reviewNotes d).

(** Lawyer 7 approves the agreement with a note. *)
Definition approveWithNote : DocType.UpdateBody :=
  DocType.mkUpdateBody None None None (Some "approved") None (Some "fine").

Definition approvedWorldT : DocType.World :=
  (DocType.updateDocument (mkEnv 4000 0 0 true) 7 1 approveWithNote archiveT).2.

Definition approvedT : DocType.Document :=
  default agreementT (DocType.docs approvedWorldT !! 1%N).

(** The character [c] occurs in [s]. *)
Definition has_char (c : ascii) (s : string) : bool :=
  existsb (Ascii.eqb c) (list_ascii_of_string s).

(** How many times. *)
Definition count_char (c : ascii) (s : string) : nat :=
  length (filter (fun x => x = c) (list_ascii_of_string s)).

(** * Properties *)

(** ** Queries, sorting and pages *)

Section Queries.
Context {A : Type}.
Implicit Types (p : A -> bool) (store : gmap N A) (l : list (N * A)).

Lemma Model_find_spec p store i d :
  (i, d) ∈ Model_find p store ↔ store !! i = Some d ∧ p d = true.
Proof.
  unfold Model_find.
  rewrite elem_of_map_to_list, map_lookup_filter_Some. simpl.
  rewrite Is_true_true. reflexivity.
Qed.

Lemma Model_find_absent p store i :
  store !! i = None -> Model_find p (delete i store) = Model_find p store.
Proof.
  intros Hnone. unfold Model_find. by rewrite delete_id.
Qed.

(** A record the query refuses may as well not be in the collection. *)
Lemma Model_find_refused p store i d :
  store !! i = Some d -> p d = false ->
  Model_find p (delete i store) = Model_find p store.
Proof.
  intros Hd Hp. unfold Model_find.
  rewrite map_filter_delete. f_equal. apply delete_id.
  apply map_lookup_filter_None. right. intros d' Hd'. simpl.
  rewrite Hd in Hd'. injection Hd' as <-. rewrite Hp. exact id.
Qed.

Lemma sort_docs_perm (key : N * A -> SortKey) desc l :
  sort_docs key desc l ≡ₚ l.
Proof. unfold sort_docs. apply merge_sort_Permutation. Qed.

Lemma paginate_subset {B} skip limit (l page : list B) :
  paginate skip limit l = Some page -> page ⊆ l.
Proof.
  unfold paginate. destruct (skip <? 0)%Z; [discriminate|].
  intros [= <-]. intros x Hx.
  destruct (limit =? 0)%Z.
  - eapply subseteq_drop; eassumption.
  - eapply subseteq_drop, subseteq_take; eassumption.
Qed.



(** Whatever the sort and the page, what a list returns was found by the
    query in the collection. *)
Lemma page_of_found p store (key : N * A -> SortKey) desc skip limit page i d :
  paginate skip limit (sort_docs key desc (Model_find p store)) = Some page ->
  (i, d) ∈ page -> store !! i = Some d ∧ p d = true.
Proof.
  intros Hpage Hin. apply Model_find_spec.
  rewrite <- (sort_docs_perm key desc).
  eapply paginate_subset; eassumption.
Qed.

End Queries.

(** ** Scoping of a list to the calling lawyer *)

Lemma list_queryC_scope env lawyer q d :
  Category.list_query env lawyer q d = true ->
  Category.lawyerId d = lawyer ∧ Category.isDeleted d = false.
Proof.
  unfold Category.list_query. rewrite !andb_true_iff, negb_true_iff.
  intros [[[[[[Hl Hd] _] _] _] _] _]. by apply N.eqb_eq in Hl.
Qed.

Lemma list_queryT_scope env lawyer q d :
  DocType.list_query env lawyer q d = true -> DocType.lawyerId d = lawyer.
Proof.
  unfold DocType.list_query. rewrite !andb_true_iff.
  intros [[[[Hl _] _] _] _]. by apply N.eqb_eq in Hl.
Qed.

Lemma listedC_found env lawyer q w i d :
  (i, d) ∈ listedC (Category.getDocuments env lawyer q w) ->
  Category.docs w !! i = Some d ∧ Category.list_query env lawyer q d = true.
Proof.
  unfold Category.getDocuments, listedC.
  destruct (compiles _ _); [|by intros ?%elem_of_nil]. cbn [negb].
  destruct (paginate _ _ _) as [page|] eqn:Hpage; [|by intros ?%elem_of_nil].
  simpl. intros Hin. eapply page_of_found; eassumption.
Qed.

Lemma listedT_found env lawyer q w i d :
  (i, d) ∈ listedT (DocType.getLawyerDocuments env lawyer q w) ->
  DocType.docs w !! i = Some d ∧ DocType.list_query env lawyer q d = true.
Proof.
  unfold DocType.getLawyerDocuments, listedT.
  destruct (compiles _ _); [|by intros ?%elem_of_nil]. cbn [negb].
  destruct (paginate _ _ _) as [page|] eqn:Hpage; [|by intros ?%elem_of_nil].
  simpl. intros Hin. eapply page_of_found; eassumption.
Qed.

(** C4.  Whatever the filters, the page and the sort, every document a list
    call of lawyer [L] returns has [lawyerId = L], in both controllers; so a
    document of another lawyer is in no result of [L]. *)
Theorem list_only_own_documents :
  (∀ env L q w i d,
     (i, d) ∈ listedC (Category.getDocuments env L q w) ->
     Category.lawyerId d = L)
  ∧ (∀ env L q w i d,
     (i, d) ∈ listedT (DocType.getLawyerDocuments env L q w) ->
     DocType.lawyerId d = L)
  ∧ (∀ env L q w i d,
     Category.docs w !! i = Some d -> Category.lawyerId d ≠ L ->
     i ∉ (fst <$> listedC (Category.getDocuments env L q w)))
  ∧ (∀ env L q w i d,
     DocType.docs w !! i = Some d -> DocType.lawyerId d ≠ L ->
     i ∉ (fst <$> listedT (DocType.getLawyerDocuments env L q w))).
Proof.
  split; [|split; [|split]].
  - intros env L q w i d [_ Hq]%listedC_found.
    by apply list_queryC_scope in Hq as [? _].
  - intros env L q w i d [_ Hq]%listedT_found. by apply list_queryT_scope in Hq.
  - intros env L q w i d Hd Hne [[i' d'] [-> Hin]]%list_elem_of_fmap.
    apply listedC_found in Hin as [Hd' Hq]. simpl in *.
    rewrite Hd in Hd'. injection Hd' as <-.
    by apply list_queryC_scope in Hq as [? _].
  - intros env L q w i d Hd Hne [[i' d'] [-> Hin]]%list_elem_of_fmap.
    apply listedT_found in Hin as [Hd' Hq]. simpl in *.
    rewrite Hd in Hd'. injection Hd' as <-.
    by apply list_queryT_scope in Hq.
Qed.

(** Lawyer 7 has two documents for client 9; they are what lawyer 7 lists,
    they are of lawyer 7, and lawyer 8 lists nothing. *)
Lemma list_only_own_documents_witness :
  (fst <$> listedC (Category.getDocuments reading 7 noFilterC twoDocsC))
  = [2%N; 1%N]
  ∧ listedC (Category.getDocuments reading 8 noFilterC twoDocsC) = []
  ∧ Category.lawyerId leaseC = 7%N
  ∧ 1%N ∉ (fst <$> listedC
                     (Category.getDocuments reading 8 noFilterC twoDocsC)).
Proof.
  split; [vm_compute; reflexivity|].
  split; [vm_compute; reflexivity|].
  split.
  - apply (proj1 list_only_own_documents reading 7%N noFilterC twoDocsC 1%N
             leaseC).
    vm_compute. apply list_elem_of_further, list_elem_of_here.
  - apply (proj1 (proj2 (proj2 list_only_own_documents)) reading 8%N
             noFilterC twoDocsC 1%N leaseC); [vm_compute; reflexivity|].
    vm_compute. discriminate.
Defined.

(** ** Saving, and what a save leaves alone *)

Lemma pre_saveC_same_status env loaded d :
  Category.status d = Category.status loaded ->
  Category.pre_save env loaded d = d.
Proof.
  intros Hs. unfold Category.pre_save. rewrite Hs, String.eqb_refl. reflexivity.
Qed.

Lemma pre_saveC_isDeleted env loaded d :
  Category.isDeleted (Category.pre_save env loaded d) = Category.isDeleted d.
Proof. unfold Category.pre_save. by destruct (_ && _). Qed.

Lemma pre_saveC_downloadCount env loaded d :
  Category.downloadCount (Category.pre_save env loaded d)
  = Category.downloadCount d.
Proof. unfold Category.pre_save. by destruct (_ && _). Qed.

Lemma pre_saveC_lawyerId env loaded d :
  Category.lawyerId (Category.pre_save env loaded d) = Category.lawyerId d.
Proof. unfold Category.pre_save. by destruct (_ && _). Qed.

Lemma pre_saveC_isPublic env loaded d :
  Category.isPublic (Category.pre_save env loaded d) = Category.isPublic d.
Proof. unfold Category.pre_save. by destruct (_ && _). Qed.

Lemma pre_saveC_filePath env loaded d :
  Category.filePath (Category.pre_save env loaded d) = Category.filePath d.
Proof. unfold Category.pre_save. by destruct (_ && _). Qed.

(** What [save] returns is the document after the middleware, as it was or
    with a new [updatedAt]; the collection holds it under its identifier. *)
Lemma Document_saveC_inv env i loaded d store saved store' :
  Category.Document_save env i loaded d store = Some (saved, store') ->
  (Category.pre_save env loaded d = loaded ∧ saved = loaded ∧ store' = store)
  ∨ (Category.pre_save env loaded d ≠ loaded ∧ persist env = true
     ∧ saved = Category.touch env (Category.pre_save env loaded d)
     ∧ store' = <[i := saved]> store).
Proof.
  unfold Category.Document_save.
  generalize (Category.pre_save env loaded d). intros hooked H.
  destruct (Category.validate_modified loaded hooked); [|discriminate].
  destruct (decide (hooked = loaded)) as [Heq|Hne].
  - injection H as <- <-. left. by rewrite Heq.
  - destruct (persist env); [|discriminate].
    injection H as <- <-. right. done.
Qed.

Lemma Document_saveT_inv env i loaded d store saved store' :
  DocType.Document_save env i loaded d store = Some (saved, store') ->
  (d = loaded ∧ saved = loaded ∧ store' = store)
  ∨ (d ≠ loaded ∧ persist env = true
     ∧ saved = DocType.touch env d ∧ store' = <[i := saved]> store).
Proof.
  unfold DocType.Document_save. intros H.
  destruct (decide (d = loaded)) as [Heq|Hne].
  - injection H as <- <-. left. by rewrite Heq.
  - destruct (persist env); [|discriminate].
    injection H as <- <-. right. done.
Qed.

Lemma validate_pre_save env loaded d :
  Category.validate (Category.pre_save env loaded d) = Category.validate d.
Proof. unfold Category.pre_save. by destruct (_ && _). Qed.

(** A document that passes all the validators passes those [save] runs. *)
Lemma validate_modified_weaker loaded d :
  Category.validate d = true -> Category.validate_modified loaded d = true.
Proof.
  unfold Category.validate, Category.validate_modified.
  rewrite !andb_true_iff.
  intros (((((((((((-> & ->) & ->) & ->) & ->) & ->) & ->) & ->) & ->) & ->)
            & ->) & ->).
  by rewrite !orb_true_r.
Qed.

Lemma findOneC_Some i L store d :
  Category.Document_findOne i L store = Some d ->
  store !! i = Some d ∧ Category.lawyerId d = L ∧ Category.isDeleted d = false.
Proof.
  unfold Category.Document_findOne. destruct (store !! i) as [d'|]; [|done].
  destruct (_ && _) eqn:Hc; [|done]. intros [= ->].
  apply andb_true_iff in Hc as [Hl Hd]. apply N.eqb_eq in Hl.
  apply negb_true_iff in Hd. done.
Qed.

Lemma findOneT_Some i L store d :
  DocType.Document_findOne i L store = Some d ->
  store !! i = Some d ∧ DocType.lawyerId d = L.
Proof.
  unfold DocType.Document_findOne. destruct (store !! i) as [d'|]; [|done].
  destruct (_ =? _)%N eqn:Hl; [|done]. intros [= ->].
  by apply N.eqb_eq in Hl.
Qed.

(** ** Deleted documents stay out of every read *)

Lemma statsC_without L c store i d :
  store !! i = Some d -> Category.isDeleted d = true ->
  Category.Document_getDocumentStats L c (delete i store)
  = Category.Document_getDocumentStats L c store.
Proof.
  intros Hd Hdel. unfold Category.Document_getDocumentStats.
  rewrite (Model_find_refused _ store i d Hd); [done|].
  rewrite Hdel. simpl. by rewrite andb_false_r.
Qed.

Lemma deleted_hiddenC w i d :
  Category.docs w !! i = Some d -> Category.isDeleted d = true -> hiddenC i w.
Proof.
  intros Hd Hdel.
  assert (Hq : ∀ env L q, Category.list_query env L q d = false).
  { intros env L q. unfold Category.list_query. rewrite Hdel. simpl.
    by rewrite andb_false_r. }
  repeat split.
  - intros env L q. unfold Category.getDocuments, withoutC. simpl.
    rewrite (Model_find_refused _ _ i d Hd (Hq env L q)).
    by rewrite (statsC_without _ _ _ i d Hd Hdel).
  - intros env L q [[i' d'] [-> Hin]]%list_elem_of_fmap.
    apply listedC_found in Hin as [Hd' Hq']. simpl in *.
    rewrite Hd in Hd'. injection Hd' as <-. by rewrite Hq in Hq'.
  - intros L. unfold Category.getDocumentById, Category.Document_findOne.
    rewrite Hd, Hdel. by rewrite andb_false_r.
  - intros env L. unfold Category.downloadDocument, Category.Document_findOne.
    rewrite Hd, Hdel. by rewrite andb_false_r.
  - intros L c. unfold Category.getDocumentStats, withoutC. simpl.
    by rewrite (statsC_without _ _ _ i d Hd Hdel).
Qed.

Lemma absent_hiddenT w i : DocType.docs w !! i = None -> hiddenT i w.
Proof.
  intros Hnone.
  assert (Hw : withoutT i w = w).
  { unfold withoutT. rewrite delete_id by done. by destruct w. }
  repeat split.
  - intros env L q. by rewrite Hw.
  - intros env L q [[i' d'] [-> Hin]]%list_elem_of_fmap.
    apply listedT_found in Hin as [Hd' _]. simpl in *. congruence.
  - intros env L. unfold DocType.getDocumentById, DocType.Document_findOne.
    by rewrite Hnone.
  - intros env L. unfold DocType.downloadDocument, DocType.Document_findOne.
    by rewrite Hnone.
  - intros L c. by rewrite Hw.
Qed.

Lemma deleteC_success env L i w :
  succeeded (Category.deleteDocument env L i w).1 = true ->
  ∃ d, Category.docs (Category.deleteDocument env L i w).2 !! i = Some d
       ∧ Category.isDeleted d = true.
Proof.
  unfold Category.deleteDocument.
  destruct (Category.Document_findOne i L _) as [d|] eqn:Hfind; [|done].
  apply findOneC_Some in Hfind as (Hd & _ & Hlive).
  destruct (Category.Document_save _ _ _ _ _) as [[saved store]|] eqn:Hsave;
    [|done].
  intros _. simpl.
  apply Document_saveC_inv in Hsave as [(Heq & _)|(_ & _ & -> & ->)].
  - rewrite pre_saveC_same_status in Heq by done.
    apply (f_equal Category.isDeleted) in Heq. simpl in Heq. congruence.
  - eexists. rewrite lookup_insert_eq. split; [done|].
    simpl. by rewrite pre_saveC_isDeleted.
Qed.

Lemma deleteT_success env L i w :
  succeeded (DocType.deleteDocument env L i w).1 = true ->
  DocType.docs (DocType.deleteDocument env L i w).2 = delete i (DocType.docs w).
Proof.
  unfold DocType.deleteDocument.
  destruct (DocType.Document_findOne i L _) as [d|]; [|done].
  by destruct (persist env).
Qed.

(** C2.  A document whose [isDeleted] is set is returned or counted by no
    list, fetch, download or statistics call, whoever calls; and after a
    delete that succeeded every later read hides the document, by the
    [isDeleted] filter in the category variant and by its absence from the
    collection in the documentType variant. *)
Theorem deleted_documents_never_surface :
  (∀ w i d,
     Category.docs w !! i = Some d -> Category.isDeleted d = true ->
     hiddenC i w)
  ∧ (∀ env L i w,
     succeeded (Category.deleteDocument env L i w).1 = true ->
     hiddenC i (Category.deleteDocument env L i w).2)
  ∧ (∀ env L i w,
     succeeded (DocType.deleteDocument env L i w).1 = true ->
     DocType.docs (DocType.deleteDocument env L i w).2 !! i = None
     ∧ hiddenT i (DocType.deleteDocument env L i w).2).
Proof.
  split; [exact deleted_hiddenC|]. split.
  - intros env L i w Hok.
    destruct (deleteC_success env L i w Hok) as (d & Hd & Hdel).
    by eapply deleted_hiddenC.
  - intros env L i w Hok.
    assert (Hnone : DocType.docs (DocType.deleteDocument env L i w).2 !! i = None).
    { rewrite (deleteT_success env L i w Hok). apply lookup_delete_eq. }
    split; [done|]. by apply absent_hiddenT.
Qed.

(** Lawyer 7 deletes the lease: the delete succeeds and the lease is hidden
    from then on. *)
Lemma deleted_documents_never_surface_witness :
  succeeded (Category.deleteDocument (mkEnv 3000 0 0 true)
               7 1 twoDocsC).1 = true
  ∧ hiddenC 1 (Category.deleteDocument (mkEnv 3000 0 0 true)
                 7 1 twoDocsC).2.
Proof.
  split; [vm_compute; reflexivity|].
  apply (proj1 (proj2 deleted_documents_never_surface)
           (mkEnv 3000 0 0 true) 7%N 1%N twoDocsC).
  vm_compute. reflexivity.
Defined.

(** ** Creation *)

Lemma Document_createC_inv env n store i d store' :
  Category.Document_create env n store = Some (i, d, store') ->
  Category.isPublic d = false ∧ Category.isDeleted d = false
  ∧ Category.downloadCount d = 0%N
  ∧ Category.lawyerId d = Category.new_lawyerId n
  ∧ Category.filePath d = Category.new_filePath n
  ∧ i = newId env ∧ persist env = true
  ∧ store !! i = None ∧ store' = <[i := d]> store.
Proof.
  unfold Category.Document_create.
  destruct (Category.new_clientId n), (Category.new_title n); try done.
  destruct (Category.validate _ && persist env) eqn:Hok; [|done].
  apply andb_true_iff in Hok as [_ Hp].
  destruct (store !! newId env) eqn:Hfree; [done|].
  intros [= <- <- <-]. done.
Qed.

Lemma Document_createT_inv env n store i d store' :
  DocType.Document_create env n store = Some (i, d, store') ->
  DocType.isPublic d = DocType.new_isPublic n
  ∧ DocType.downloadCount d = 0%N
  ∧ DocType.lawyerId d = DocType.new_lawyerId n
  ∧ DocType.filePath d = DocType.new_filePath n
  ∧ i = newId env ∧ persist env = true
  ∧ store !! i = None ∧ store' = <[i := d]> store.
Proof.
  unfold DocType.Document_create.
  destruct (DocType.new_clientId n), (DocType.new_title n); try done.
  destruct (persist env) eqn:Hp; [|done].
  destruct (store !! newId env) eqn:Hfree; [done|].
  intros [= <- <- <-]. done.
Qed.

(** A successful upload of the category variant, taken apart. *)
Lemma uploadC_success env req w c i d w' :
  Category.uploadDocument env req w = (Success c (i, d), w') ->
  ∃ lc file stored n,
    upload_single env (Category.up_file req) (Category.files w)
      = MulterStored file stored
    ∧ Category.Document_create env n (Category.docs w)
      = Some (i, d, Category.docs w')
    ∧ Category.new_lawyerId n = Category.up_user req
    ∧ Category.new_filePath n = path file
    ∧ Category.files w' = stored
    ∧ LawyerClient_findOne
        (fun lc => (lc_lawyerId lc =? Category.up_user req)%N
                   && bool_decide (Some (lc_clientId lc)
                                   = Category.body_clientId (Category.up_body req))
                   && negb (lc_isArchived lc))
        (Category.relationships w) = Some lc.
Proof.
  unfold Category.uploadDocument.
  destruct (Category.up_errors req); [|done].
  destruct (LawyerClient_findOne _ _) as [lc|] eqn:Hlc; [|done].
  destruct (upload_single _ _ _) as [|  |file stored] eqn:Hup; try done.
  destruct (Category.Document_create _ _ _) as [[[i' d'] store]|] eqn:Hc;
    [|done].
  intros [= <- <- <- <-]. simpl. eauto 10.
Qed.

Lemma uploadT_success env req w c i d w' :
  DocType.uploadDocument env req w = (Success c (i, d), w') ->
  ∃ file n,
    DocType.up_file req = Some file
    ∧ DocType.Document_create env n (DocType.docs w)
      = Some (i, d, DocType.docs w')
    ∧ DocType.new_lawyerId n = DocType.up_user req
    ∧ DocType.new_isPublic n = false
    ∧ DocType.files w' = DocType.files w.
Proof.
  unfold DocType.uploadDocument.
  destruct (DocType.up_errors req); [|done].
  destruct (LawyerClient_findOne _ _) as [lc|]; [|done].
  destruct (DocType.up_file req) as [file|]; [|done].
  destruct (DocType.Document_create _ _ _) as [[[i' d'] store]|] eqn:Hc;
    [|done].
  intros [= <- <- <- <-]. simpl. eauto 10.
Qed.

Lemma touchT_isPublic env d :
  DocType.isPublic (DocType.touch env d) = DocType.isPublic d.
Proof. reflexivity. Qed.

(** C1.  Whatever the caller sends (a visibility included), the record an
    upload produces has [isPublic = false]; it is stored under the
    identifier returned, and fetching it with the uploader's identity
    returns it with [isPublic = false].  In the documentType variant a
    fetch writes [lastAccessed]; it answers the record unless the database
    refuses that write. *)
Theorem upload_is_never_public :
  (∀ env req w c i d w',
     Category.uploadDocument env req w = (Success c (i, d), w') ->
     Category.isPublic d = false
     ∧ Category.docs w' !! i = Some d
     ∧ Category.getDocumentById (Category.up_user req) i w'
       = Success 200 (i, d))
  ∧ (∀ env req w c i d w',
     DocType.uploadDocument env req w = (Success c (i, d), w') ->
     DocType.isPublic d = false
     ∧ DocType.docs w' !! i = Some d
     ∧ ∀ env2,
         match (DocType.getDocumentById env2 (DocType.up_user req) i w').1 with
         | Success code (i', d') =>
             code = 200%N ∧ i' = i ∧ DocType.isPublic d' = false
         | Failure code _ => code = 500%N ∧ persist env2 = false
         | Unhandled => False
         end).
Proof.
  split.
  - intros env req w c i d w' Hup.
    apply uploadC_success in Hup as (lc & file & stored & n & _ & Hc & Hl & _).
    apply Document_createC_inv in Hc
      as (Hpub & Hdel & _ & Hlaw & _ & _ & _ & _ & Hstore).
    assert (Hd : Category.docs w' !! i = Some d).
    { rewrite Hstore. apply lookup_insert_eq. }
    split; [done|]. split; [done|].
    unfold Category.getDocumentById, Category.Document_findOne.
    rewrite Hd, Hlaw, Hl, N.eqb_refl, Hdel. reflexivity.
  - intros env req w c i d w' Hup.
    apply uploadT_success in Hup as (file & n & _ & Hc & Hl & Hp & _).
    apply Document_createT_inv in Hc
      as (Hpub & _ & Hlaw & _ & _ & _ & _ & Hstore).
    assert (Hd : DocType.docs w' !! i = Some d).
    { rewrite Hstore. apply lookup_insert_eq. }
    rewrite Hp in Hpub.
    split; [done|]. split; [done|].
    intros env2. unfold DocType.getDocumentById, DocType.Document_findOne.
    rewrite Hd, Hlaw, Hl, N.eqb_refl.
    unfold DocType.Document_save.
    destruct (decide _) as [_|_]; [simpl; done|].
    destruct (persist env2); simpl; done.
Qed.

(** The lease is uploaded with [isPublic: true] in the body; the record is
    private and is fetched private. *)
Lemma upload_is_never_public_witness :
  Category.body_isPublic (Category.up_body uploadLease) = Some true
  ∧ Category.isPublic leaseC = false
  ∧ Category.getDocumentById 7
      1 (Category.uploadDocument (mkEnv 1000 5 1 true) uploadLease officeC).2
    = Success 200 (1%N, leaseC).
Proof.
  split; [reflexivity|].
  destruct (proj1 upload_is_never_public (mkEnv 1000 5 1 true) uploadLease
              officeC 201%N 1%N leaseC
              (Category.uploadDocument (mkEnv 1000 5 1 true) uploadLease officeC).2)
    as (Hpub & _ & Hget).
  - vm_compute. reflexivity.
  - split; [exact Hpub | exact Hget].
Defined.

(** ** Deleting twice *)

(** C10.  After a delete that succeeded, a second delete of the same
    document answers 404 and changes nothing, whoever issues it: the lookup
    of the category variant skips the record whose [isDeleted] is set, and
    in the documentType variant the record is gone. *)
Theorem second_delete_is_not_found :
  (∀ env1 env2 L L2 i w,
     succeeded (Category.deleteDocument env1 L i w).1 = true ->
     Category.deleteDocument env2 L2 i (Category.deleteDocument env1 L i w).2
     = (Failure 404 "Document not found",
        (Category.deleteDocument env1 L i w).2))
  ∧ (∀ env1 env2 L L2 i w,
     succeeded (DocType.deleteDocument env1 L i w).1 = true ->
     DocType.deleteDocument env2 L2 i (DocType.deleteDocument env1 L i w).2
     = (Failure 404 "Document not found",
        (DocType.deleteDocument env1 L i w).2)).
Proof.
  split.
  - intros env1 env2 L L2 i w Hok.
    destruct (deleteC_success env1 L i w Hok) as (d & Hd & Hdel).
    unfold Category.deleteDocument at 1. unfold Category.Document_findOne.
    rewrite Hd, Hdel. by rewrite andb_false_r.
  - intros env1 env2 L L2 i w Hok.
    pose proof (deleteT_success env1 L i w Hok) as Hstore.
    unfold DocType.deleteDocument at 1. unfold DocType.Document_findOne.
    rewrite Hstore, lookup_delete_eq. reflexivity.
Qed.

(** Lawyer 7 deletes the lease twice. *)
Lemma second_delete_is_not_found_witness :
  succeeded (Category.deleteDocument (mkEnv 3000 0 0 true) 7 1 twoDocsC).1 = true
  ∧ (Category.deleteDocument (mkEnv 3100 0 0 true) 7 1
       (Category.deleteDocument (mkEnv 3000 0 0 true) 7 1 twoDocsC).2).1
    = Failure 404 "Document not found".
Proof.
  split; [vm_compute; reflexivity|].
  rewrite (proj1 second_delete_is_not_found (mkEnv 3000 0 0 true)
             (mkEnv 3100 0 0 true) 7%N 7%N 1%N twoDocsC);
    [reflexivity | vm_compute; reflexivity].
Defined.

(** ** Pagination *)








(** A request without a search string, and one whose search string has
    literal characters only, can be run. *)
Lemma compiles_literal env search :
  match truthy search with
  | Some s => Str.literal s = true
  | None => True
  end ->
  compiles env (truthy search) = true.
Proof.
  destruct (truthy search) as [s|]; [|done]. intros Hlit.
  unfold compiles, Str.regexI. by rewrite Hlit.
Qed.



(** ** The download counter *)

Lemma saveC_effect env i loaded d store saved store' :
  Category.Document_save env i loaded d store = Some (saved, store') ->
  store !! i = Some loaded ->
  store' !! i = Some saved
  ∧ Category.downloadCount saved = Category.downloadCount d
  ∧ Category.filePath saved = Category.filePath d
  ∧ (∀ j, j ≠ i -> store' !! j = store !! j).
Proof.
  intros Hsave Hi.
  apply Document_saveC_inv in Hsave as [(Heq & -> & ->)|(_ & _ & -> & ->)].
  - split; [done|].
    rewrite <- (pre_saveC_downloadCount env loaded d),
            <- (pre_saveC_filePath env loaded d), Heq. done.
  - rewrite lookup_insert_eq. split; [done|]. simpl.
    rewrite pre_saveC_downloadCount, pre_saveC_filePath.
    split; [done|]. split; [done|].
    intros j Hj. by rewrite lookup_insert_ne.
Qed.

Lemma saveT_effect env i loaded d store saved store' :
  DocType.Document_save env i loaded d store = Some (saved, store') ->
  store !! i = Some loaded ->
  store' !! i = Some saved
  ∧ DocType.downloadCount saved = DocType.downloadCount d
  ∧ DocType.filePath saved = DocType.filePath d
  ∧ (∀ j, j ≠ i -> store' !! j = store !! j).
Proof.
  intros Hsave Hi.
  apply Document_saveT_inv in Hsave as [(-> & -> & ->)|(_ & _ & -> & ->)].
  - done.
  - rewrite lookup_insert_eq. split; [done|]. simpl.
    split; [done|]. split; [done|].
    intros j Hj. by rewrite lookup_insert_ne.
Qed.

(** A download that succeeds: the record was there with its file, the
    answer carries the content of the file, the counter is one more, and
    neither the files nor the path of the record have changed. *)
Lemma downloadC_success env L i w c dl w' :
  Category.downloadDocument env L i w = (Success c dl, w') ->
  ∃ d d',
    Category.docs w !! i = Some d ∧ Category.docs w' !! i = Some d'
    ∧ Category.downloadCount d' = (Category.downloadCount d + 1)%N
    ∧ Category.filePath d' = Category.filePath d
    ∧ Category.files w !! Category.filePath d = Some (Category.bytes dl)
    ∧ Category.files w' = Category.files w
    ∧ (∀ j, j ≠ i -> Category.docs w' !! j = Category.docs w !! j).
Proof.
  unfold Category.downloadDocument.
  destruct (Category.Document_findOne i L _) as [d|] eqn:Hfind; [|done].
  apply findOneC_Some in Hfind as (Hd & _ & _).
  destruct (Category.files w !! Category.filePath d) as [content|] eqn:Hfile;
    [|done].
  destruct (Category.Document_save _ _ _ _ _) as [[saved store]|] eqn:Hsave;
    [|done].
  destruct (_ && _); [|done].
  intros [= <- <- <-]. simpl.
  apply saveC_effect in Hsave as (Hsaved & Hcount & Hpath & Hother); [|done].
  exists d, saved. simpl in *. done.
Qed.

Lemma downloadT_success env L i w c dl w' :
  DocType.downloadDocument env L i w = (Success c dl, w') ->
  ∃ d d',
    DocType.docs w !! i = Some d ∧ DocType.docs w' !! i = Some d'
    ∧ DocType.downloadCount d' = (DocType.downloadCount d + 1)%N
    ∧ DocType.filePath d' = DocType.filePath d
    ∧ DocType.files w !! DocType.filePath d = Some (DocType.bytes dl)
    ∧ DocType.files w' = DocType.files w
    ∧ (∀ j, j ≠ i -> DocType.docs w' !! j = DocType.docs w !! j).
Proof.
  unfold DocType.downloadDocument.
  destruct (DocType.Document_findOne i L _) as [d|] eqn:Hfind; [|done].
  apply findOneT_Some in Hfind as (Hd & _).
  destruct (DocType.files w !! DocType.filePath d) as [content|] eqn:Hfile;
    [|done].
  destruct (DocType.Document_save _ _ _ _ _) as [[saved store]|] eqn:Hsave;
    [|done].
  intros [= <- <- <-]. simpl.
  apply saveT_effect in Hsave as (Hsaved & Hcount & Hpath & Hother); [|done].
  exists d, saved. simpl in *. done.
Qed.

(** A download leaves the world as it was and fails, or it raises the
    counter of its document by one and touches nothing else; in the second
    case it succeeds when the type and the name of the file can go into a
    header, and is answered 500 when they cannot. *)
Lemma downloadC_world env L i w :
  (succeeded (Category.downloadDocument env L i w).1 = false
   ∧ (Category.downloadDocument env L i w).2 = w)
  ∨ ∃ d d',
      Category.docs w !! i = Some d
      ∧ Category.docs (Category.downloadDocument env L i w).2 !! i = Some d'
      ∧ Category.downloadCount d' = (Category.downloadCount d + 1)%N
      ∧ (∀ j, j ≠ i ->
         Category.docs (Category.downloadDocument env L i w).2 !! j
         = Category.docs w !! j)
      ∧ (sendableC d ->
         succeeded (Category.downloadDocument env L i w).1 = true)
      ∧ (¬ sendableC d ->
         (Category.downloadDocument env L i w).1
         = Failure 500 "Failed to download document").
Proof.
  unfold Category.downloadDocument.
  destruct (Category.Document_findOne i L _) as [d|] eqn:Hfind; [|by left].
  apply findOneC_Some in Hfind as (Hd & _ & _).
  destruct (Category.files w !! _); [|by left].
  destruct (Category.Document_save _ _ _ _ _) as [[saved store]|] eqn:Hsave;
    [|by left].
  right. exists d, saved.
  pose proof Hsave as Hinv.
  apply saveC_effect in Hsave as (Hsaved & Hcount & _ & Hother); [|done].
  assert (Hsame : Category.mimeType saved = Category.mimeType d
                  ∧ Category.originalFileName saved
                    = Category.originalFileName d).
  { apply Document_saveC_inv in Hinv as [(_ & -> & _)|(_ & _ & -> & _)];
      [done|].
    rewrite pre_saveC_same_status by done. done. }
  destruct Hsame as [-> ->].
  destruct (Str.header_value (Category.mimeType d)) eqn:Hm;
    destruct (Str.header_value (Category.originalFileName d)) eqn:Hn;
    simpl; (split; [done|]); (split; [done|]); (split; [done|]);
    (split; [done|]); unfold sendableC; rewrite Hm, Hn;
    (split; [by intros []|]); intros Hno; try done;
    exfalso; by apply Hno.
Qed.

Lemma downloadT_failure env L i w :
  succeeded (DocType.downloadDocument env L i w).1 = false ->
  (DocType.downloadDocument env L i w).2 = w.
Proof.
  unfold DocType.downloadDocument.
  destruct (DocType.Document_findOne i L _) as [d|]; [|done].
  destruct (DocType.files w !! _); [|done].
  by destruct (DocType.Document_save _ _ _ _ _) as [[saved store]|].
Qed.

(** A save of the record under [i] whose counter was not touched leaves the
    counter of every record as it was. *)
Lemma saveC_keeps_count env i loaded d store saved store' j dj dj' :
  Category.Document_save env i loaded d store = Some (saved, store') ->
  store !! i = Some loaded ->
  Category.downloadCount d = Category.downloadCount loaded ->
  store !! j = Some dj -> store' !! j = Some dj' ->
  Category.downloadCount dj' = Category.downloadCount dj.
Proof.
  intros Hsave Hi Hsame Hj Hj'.
  apply saveC_effect in Hsave as (Hsaved & Hcount & _ & Hother); [|done].
  destruct (decide (j = i)) as [->|Hne].
  - congruence.
  - rewrite Hother in Hj' by done. congruence.
Qed.

Lemma saveT_keeps_count env i loaded d store saved store' j dj dj' :
  DocType.Document_save env i loaded d store = Some (saved, store') ->
  store !! i = Some loaded ->
  DocType.downloadCount d = DocType.downloadCount loaded ->
  store !! j = Some dj -> store' !! j = Some dj' ->
  DocType.downloadCount dj' = DocType.downloadCount dj.
Proof.
  intros Hsave Hi Hsame Hj Hj'.
  apply saveT_effect in Hsave as (Hsaved & Hcount & _ & Hother); [|done].
  destruct (decide (j = i)) as [->|Hne].
  - congruence.
  - rewrite Hother in Hj' by done. congruence.
Qed.

(** An upload leaves the records that were there as they were. *)
Lemma uploadC_keeps env req w j dj :
  Category.docs w !! j = Some dj ->
  Category.docs (Category.uploadDocument env req w).2 !! j = Some dj.
Proof.
  intros Hj. unfold Category.uploadDocument.
  destruct (Category.up_errors req); [|done].
  destruct (LawyerClient_findOne _ _) as [lc|]; [|done].
  destruct (upload_single _ _ _) as [| |file stored]; try done.
  destruct (Category.Document_create _ _ _) as [[[i d] store]|] eqn:Hc; [|done].
  apply Document_createC_inv in Hc as (_ & _ & _ & _ & _ & _ & _ & Hfree & ->).
  simpl. rewrite lookup_insert_ne; [done|]. congruence.
Qed.

Lemma uploadT_keeps env req w j dj :
  DocType.docs w !! j = Some dj ->
  DocType.docs (DocType.uploadDocument env req w).2 !! j = Some dj.
Proof.
  intros Hj. unfold DocType.uploadDocument.
  destruct (DocType.up_errors req); [|done].
  destruct (LawyerClient_findOne _ _) as [lc|]; [|done].
  destruct (DocType.up_file req) as [file|]; [|done].
  destruct (DocType.Document_create _ _ _) as [[[i d] store]|] eqn:Hc; [|done].
  apply Document_createT_inv in Hc as (_ & _ & _ & _ & _ & _ & Hfree & ->).
  simpl. rewrite lookup_insert_ne; [done|]. congruence.
Qed.

(** No request lowers the counter of a record, and only a download of the
    record changes it; where the file of the record can be sent, the
    counter moves by the number of successful downloads of it the request
    makes: one for a successful download, none for anything else. *)
Lemma handleC_count env r w i d d' :
  Category.docs w !! i = Some d ->
  Category.docs (Category.handle env r w) !! i = Some d' ->
  (Category.downloadCount d <= Category.downloadCount d')%N
  ∧ (sendableC d ->
     Category.downloadCount d'
     = (Category.downloadCount d + downloadsC env r i w)%N)
  ∧ (Category.downloadCount d' ≠ Category.downloadCount d ->
     ∃ L, r = Category.DownloadReq L i).
Proof.
  intros Hd Hd'.
  assert (Hsame : ∀ r0 : Category.Request,
            downloadsC env r0 i w = 0%N ->
            Category.downloadCount d' = Category.downloadCount d ->
            (Category.downloadCount d <= Category.downloadCount d')%N
            ∧ (sendableC d ->
               Category.downloadCount d'
               = (Category.downloadCount d + downloadsC env r0 i w)%N)
            ∧ (Category.downloadCount d' ≠ Category.downloadCount d ->
               ∃ L, r0 = Category.DownloadReq L i)).
  { intros r0 -> ->. split; [lia|]. split; [intros _; lia|done]. }
  destruct r as [req|L q|L j|L j|req|L j|L c]; simpl in Hd'.
  - apply Hsame; [done|].
    rewrite (uploadC_keeps env req w i d Hd) in Hd'. by injection Hd' as <-.
  - apply Hsame; [done|]. rewrite Hd in Hd'. by injection Hd' as <-.
  - apply Hsame; [done|]. rewrite Hd in Hd'. by injection Hd' as <-.
  - destruct (downloadC_world env L j w)
      as [[Hfail Hw]|(dj & dj' & Hj & Hj' & Hcount & Hother & Hyes & _)].
    + apply Hsame.
      * simpl. by rewrite Hfail, andb_false_r.
      * rewrite Hw, Hd in Hd'. by injection Hd' as <-.
    + destruct (decide (j = i)) as [->|Hne].
      * rewrite Hd in Hj. injection Hj as <-.
        rewrite Hd' in Hj'. injection Hj' as <-.
        split; [lia|]. split; [|by eauto].
        intros Hsend. simpl. rewrite (Hyes Hsend), bool_decide_eq_true_2 by done.
        simpl. lia.
      * apply Hsame.
        -- simpl. by rewrite bool_decide_eq_false_2.
        -- rewrite Hother, Hd in Hd' by done. by injection Hd' as <-.
  - apply Hsame; [done|]. revert Hd'. unfold Category.updateDocument.
    destruct (Category.upd_errors req); [|simpl; congruence].
    destruct (Category.Document_findOne _ _ _) as [doc|] eqn:Hfind;
      [|simpl; congruence].
    apply findOneC_Some in Hfind as (Hdoc & _ & _).
    destruct (Category.Document_save _ _ _ _ _) as [[saved store]|] eqn:Hsave;
      [|simpl; congruence].
    simpl. intros Hd'.
    eapply saveC_keeps_count; [exact Hsave|exact Hdoc|reflexivity|exact Hd|exact Hd'].
  - apply Hsame; [done|]. revert Hd'. unfold Category.deleteDocument.
    destruct (Category.Document_findOne _ _ _) as [doc|] eqn:Hfind;
      [|simpl; congruence].
    apply findOneC_Some in Hfind as (Hdoc & _ & _).
    destruct (Category.Document_save _ _ _ _ _) as [[saved store]|] eqn:Hsave;
      [|simpl; congruence].
    simpl. intros Hd'.
    eapply saveC_keeps_count; [exact Hsave|exact Hdoc|reflexivity|exact Hd|exact Hd'].
  - apply Hsame; [done|]. rewrite Hd in Hd'. by injection Hd' as <-.
Qed.

Lemma handleT_count env r w i d d' :
  DocType.docs w !! i = Some d ->
  DocType.docs (DocType.handle env r w) !! i = Some d' ->
  DocType.downloadCount d'
  = (DocType.downloadCount d + downloadsT env r i w)%N.
Proof.
  intros Hd Hd'. destruct r as [req|L q|L j|L j|L j b|L j|L c]; simpl in *.
  - rewrite (uploadT_keeps env req w i d Hd) in Hd'.
    injection Hd' as <-. lia.
  - rewrite Hd in Hd'. injection Hd' as <-. lia.
  - rewrite N.add_0_r. revert Hd'. unfold DocType.getDocumentById.
    destruct (DocType.Document_findOne _ _ _) as [doc|] eqn:Hfind;
      [|simpl; congruence].
    apply findOneT_Some in Hfind as (Hdoc & _).
    destruct (DocType.Document_save _ _ _ _ _) as [[saved store]|] eqn:Hsave;
      [|simpl; congruence].
    simpl. intros Hd'.
    eapply saveT_keeps_count; [exact Hsave|exact Hdoc|reflexivity|exact Hd|exact Hd'].
  - destruct (DocType.downloadDocument env L j w) as [[c dl|c m|] w'] eqn:Hdl;
      simpl in *.
    + apply downloadT_success in Hdl
        as (dj & dj' & Hj & Hj' & Hcount & _ & _ & _ & Hother).
      rewrite andb_true_r. case_bool_decide as Hji.
      * subst j. congruence.
      * rewrite Hother in Hd' by done. rewrite Hd in Hd'.
        injection Hd' as <-. lia.
    + rewrite andb_false_r.
      pose proof (downloadT_failure env L j w) as Hsame.
      rewrite Hdl in Hsame. simpl in Hsame. rewrite Hsame in Hd' by done.
      rewrite Hd in Hd'. injection Hd' as <-. lia.
    + rewrite andb_false_r.
      pose proof (downloadT_failure env L j w) as Hsame.
      rewrite Hdl in Hsame. simpl in Hsame. rewrite Hsame in Hd' by done.
      rewrite Hd in Hd'. injection Hd' as <-. lia.
  - rewrite N.add_0_r. revert Hd'. unfold DocType.updateDocument.
    destruct (DocType.Document_findOne _ _ _) as [doc|] eqn:Hfind;
      [|simpl; congruence].
    apply findOneT_Some in Hfind as (Hdoc & _).
    destruct (DocType.Document_save _ _ _ _ _) as [[saved store]|] eqn:Hsave;
      [|simpl; congruence].
    simpl. intros Hd'.
    eapply saveT_keeps_count; [exact Hsave|exact Hdoc|reflexivity|exact Hd|exact Hd'].
  - rewrite N.add_0_r. revert Hd'. unfold DocType.deleteDocument.
    destruct (DocType.Document_findOne _ _ _) as [doc|] eqn:Hfind;
      [|simpl; congruence].
    destruct (persist env); simpl.
    + intros Hd'. destruct (decide (i = j)) as [->|Hne].
      * by rewrite lookup_delete_eq in Hd'.
      * rewrite lookup_delete_ne in Hd' by done. congruence.
    + congruence.
  - rewrite Hd in Hd'. injection Hd' as <-. lia.
Qed.

(** With soft delete no record ever leaves the collection. *)
Lemma handleC_stays env r w i :
  is_Some (Category.docs w !! i) ->
  is_Some (Category.docs (Category.handle env r w) !! i).
Proof.
  intros [d Hd]. destruct r as [req|L q|L j|L j|req|L j|L c]; simpl; eauto.
  - eexists. by apply uploadC_keeps.
  - destruct (downloadC_world env L j w)
      as [[_ ->]|(dj & dj' & _ & Hj' & _ & Ho & _)]; [eauto|].
    destruct (decide (i = j)) as [->|Hne]; [eauto|].
    rewrite Ho by done. eauto.
  - unfold Category.updateDocument.
    destruct (Category.upd_errors req); [|simpl; eauto].
    destruct (Category.Document_findOne _ _ _) as [doc|] eqn:Hfind;
      [|simpl; eauto].
    apply findOneC_Some in Hfind as (Hdoc & _ & _).
    destruct (Category.Document_save _ _ _ _ _) as [[saved store]|] eqn:Hsave;
      [|simpl; eauto].
    apply saveC_effect in Hsave as (Hsaved & _ & _ & Ho); [|done]. simpl.
    destruct (decide (i = Category.upd_id req)) as [->|Hne]; [eauto|].
    rewrite Ho by done. eauto.
  - unfold Category.deleteDocument.
    destruct (Category.Document_findOne _ _ _) as [doc|] eqn:Hfind;
      [|simpl; eauto].
    apply findOneC_Some in Hfind as (Hdoc & _ & _).
    destruct (Category.Document_save _ _ _ _ _) as [[saved store]|] eqn:Hsave;
      [|simpl; eauto].
    apply saveC_effect in Hsave as (Hsaved & _ & _ & Ho); [|done]. simpl.
    destruct (decide (i = j)) as [->|Hne]; [eauto|].
    rewrite Ho by done. eauto.
Qed.

Lemma runC_monotone trace : ∀ w i d,
  Category.docs w !! i = Some d ->
  ∃ d', Category.docs (runC trace w) !! i = Some d'
        ∧ (Category.downloadCount d <= Category.downloadCount d')%N.
Proof.
  induction trace as [|[env r] rest IH]; intros w i d Hd; simpl.
  - exists d. split; [done|lia].
  - destruct (handleC_stays env r w i) as [d1 Hd1]; [eauto|].
    destruct (handleC_count env r w i d d1 Hd Hd1) as [Hstep _].
    destruct (IH _ i d1 Hd1) as (d' & Hd' & Hle).
    exists d'. split; [done|lia].
Qed.

Lemma runT_monotone trace : ∀ w i d d',
  staysT i trace w ->
  DocType.docs w !! i = Some d ->
  DocType.docs (runT trace w) !! i = Some d' ->
  (DocType.downloadCount d <= DocType.downloadCount d')%N.
Proof.
  induction trace as [|[env r] rest IH]; intros w i d d' Hstay Hd Hd'; simpl in *.
  - rewrite Hd in Hd'. injection Hd' as <-. lia.
  - destruct Hstay as [_ Hstay].
    destruct (DocType.docs (DocType.handle env r w) !! i) as [d1|] eqn:Hd1.
    + pose proof (handleT_count env r w i d d1 Hd Hd1) as Hstep.
      pose proof (IH _ i d1 d' Hstay Hd1 Hd') as Hle. lia.
    + destruct rest as [|[env2 r2] rest]; simpl in *.
      * congruence.
      * destruct Hstay as [[? Hsome] _]. congruence.
Qed.

(** Fetching a document in the documentType variant writes [lastAccessed]
    and leaves every counter as it was. *)
Lemma getByIdT_count env L i w j :
  countT j (DocType.getDocumentById env L i w).2 = countT j w.
Proof.
  unfold countT, DocType.getDocumentById.
  destruct (DocType.Document_findOne _ _ _) as [doc|] eqn:Hfind; [|done].
  apply findOneT_Some in Hfind as (Hdoc & _).
  destruct (DocType.Document_save _ _ _ _ _) as [[saved store]|] eqn:Hsave;
    [|done].
  apply saveT_effect in Hsave as (Hsaved & Hcount & _ & Ho); [|done]. simpl.
  destruct (decide (j = i)) as [->|Hne].
  - rewrite Hsaved, Hdoc. simpl. by rewrite Hcount.
  - by rewrite Ho.
Qed.

(** Three downloads that succeed count three and answer the same bytes. *)
Lemma thriceC_counts e1 e2 e3 L i w :
  Forall (fun r => succeeded r = true) (thriceC e1 e2 e3 L i w).1 ->
  ∃ n content,
    countC i w = Some n
    ∧ countC i (thriceC e1 e2 e3 L i w).2 = Some (n + 3)%N
    ∧ bytesC <$> (thriceC e1 e2 e3 L i w).1
      = [Some content; Some content; Some content].
Proof.
  unfold thriceC. simpl.
  destruct (Category.downloadDocument e1 L i w) as [r1 w1] eqn:H1. simpl.
  destruct (Category.downloadDocument e2 L i w1) as [r2 w2] eqn:H2. simpl.
  destruct (Category.downloadDocument e3 L i w2) as [r3 w3] eqn:H3. simpl.
  intros Hall. apply Forall_cons in Hall as [Hs1 Hall].
  apply Forall_cons in Hall as [Hs2 Hall]. apply Forall_cons in Hall as [Hs3 _].
  destruct r1 as [c1 dl1| |]; try done. destruct r2 as [c2 dl2| |]; try done.
  destruct r3 as [c3 dl3| |]; try done.
  apply downloadC_success in H1 as (d0 & d1 & Hd0 & Hd1 & Hc1 & Hp1 & Hb1 & Hf1 & _).
  apply downloadC_success in H2 as (d1' & d2 & Hd1' & Hd2 & Hc2 & Hp2 & Hb2 & Hf2 & _).
  apply downloadC_success in H3 as (d2' & d3 & Hd2' & Hd3 & Hc3 & Hp3 & Hb3 & Hf3 & _).
  assert (d1' = d1) as -> by congruence. assert (d2' = d2) as -> by congruence.
  exists (Category.downloadCount d0), (Category.bytes dl1).
  unfold countC. rewrite Hd0, Hd3. simpl.
  split; [done|]. split; [f_equal; lia|].
  rewrite Hf1, Hp1, Hb1 in Hb2. rewrite Hf2, Hf1, Hp2, Hp1, Hb1 in Hb3.
  congruence.
Qed.

Lemma thriceT_counts e1 e2 e3 L i w :
  Forall (fun r => succeeded r = true) (thriceT e1 e2 e3 L i w).1 ->
  ∃ n content,
    countT i w = Some n
    ∧ countT i (thriceT e1 e2 e3 L i w).2 = Some (n + 3)%N
    ∧ bytesT <$> (thriceT e1 e2 e3 L i w).1
      = [Some content; Some content; Some content].
Proof.
  unfold thriceT. simpl.
  destruct (DocType.downloadDocument e1 L i w) as [r1 w1] eqn:H1. simpl.
  destruct (DocType.downloadDocument e2 L i w1) as [r2 w2] eqn:H2. simpl.
  destruct (DocType.downloadDocument e3 L i w2) as [r3 w3] eqn:H3. simpl.
  intros Hall. apply Forall_cons in Hall as [Hs1 Hall].
  apply Forall_cons in Hall as [Hs2 Hall]. apply Forall_cons in Hall as [Hs3 _].
  destruct r1 as [c1 dl1| |]; try done. destruct r2 as [c2 dl2| |]; try done.
  destruct r3 as [c3 dl3| |]; try done.
  apply downloadT_success in H1 as (d0 & d1 & Hd0 & Hd1 & Hc1 & Hp1 & Hb1 & Hf1 & _).
  apply downloadT_success in H2 as (d1' & d2 & Hd1' & Hd2 & Hc2 & Hp2 & Hb2 & Hf2 & _).
  apply downloadT_success in H3 as (d2' & d3 & Hd2' & Hd3 & Hc3 & Hp3 & Hb3 & Hf3 & _).
  assert (d1' = d1) as -> by congruence. assert (d2' = d2) as -> by congruence.
  exists (DocType.downloadCount d0), (DocType.bytes dl1).
  unfold countT. rewrite Hd0, Hd3. simpl.
  split; [done|]. split; [f_equal; lia|].
  rewrite Hf1, Hp1, Hb1 in Hb2. rewrite Hf2, Hf1, Hp2, Hp1, Hb1 in Hb3.
  congruence.
Qed.

Lemma downloadC_counts env L i w :
  succeeded (Category.downloadDocument env L i w).1 = true ->
  ∃ n, countC i w = Some n
       ∧ countC i (Category.downloadDocument env L i w).2 = Some (n + 1)%N.
Proof.
  destruct (Category.downloadDocument env L i w) as [[c dl| |] w'] eqn:Hdl;
    try done.
  intros _. apply downloadC_success in Hdl as (d & d' & Hd & Hd' & Hc & _).
  exists (Category.downloadCount d). unfold countC. simpl.
  rewrite Hd, Hd'. simpl. by rewrite Hc.
Qed.

Lemma downloadT_counts env L i w :
  succeeded (DocType.downloadDocument env L i w).1 = true ->
  ∃ n, countT i w = Some n
       ∧ countT i (DocType.downloadDocument env L i w).2 = Some (n + 1)%N.
Proof.
  destruct (DocType.downloadDocument env L i w) as [[c dl| |] w'] eqn:Hdl;
    try done.
  intros _. apply downloadT_success in Hdl as (d & d' & Hd & Hd' & Hc & _).
  exists (DocType.downloadCount d). unfold countT. simpl.
  rewrite Hd, Hd'. simpl. by rewrite Hc.
Qed.

(** A download by the owner of a record whose file is on disk succeeds
    when the database takes the write of the counter (and, in
    documentController.js, the record passes the validators of its schema
    and the type and the name of its file can go into a header). *)
Lemma downloadC_succeeds env L i w d content :
  Category.docs w !! i = Some d -> Category.lawyerId d = L ->
  Category.isDeleted d = false ->
  Category.files w !! Category.filePath d = Some content ->
  Category.validate d = true -> sendableC d -> persist env = true ->
  ∃ dl,
    (Category.downloadDocument env L i w).1 = Success 200 dl
    ∧ Category.bytes dl = content
    ∧ countC i (Category.downloadDocument env L i w).2
      = Some (Category.downloadCount d + 1)%N.
Proof.
  intros Hd HL Hlive Hfile Hv [Hm Hn] Hp.
  unfold Category.downloadDocument, Category.Document_findOne.
  rewrite Hd, HL, N.eqb_refl, Hlive. cbn [negb andb]. rewrite Hfile.
  unfold Category.Document_save.
  rewrite pre_saveC_same_status by done.
  rewrite validate_modified_weaker by exact Hv.
  destruct (decide _) as [Heq|_].
  { apply (f_equal Category.downloadCount) in Heq. simpl in Heq. lia. }
  rewrite Hp. cbn [Category.touch Category.mimeType Category.originalFileName].
  rewrite Hm, Hn. cbn [andb fst snd]. eexists. split; [reflexivity|].
  split; [reflexivity|].
  unfold countC. cbn [Category.docs]. by rewrite lookup_insert_eq.
Qed.

Lemma downloadT_succeeds env L i w d content :
  DocType.docs w !! i = Some d -> DocType.lawyerId d = L ->
  DocType.files w !! DocType.filePath d = Some content ->
  persist env = true ->
  ∃ dl,
    (DocType.downloadDocument env L i w).1 = Success 200 dl
    ∧ DocType.bytes dl = content
    ∧ countT i (DocType.downloadDocument env L i w).2
      = Some (DocType.downloadCount d + 1)%N.
Proof.
  intros Hd HL Hfile Hp.
  unfold DocType.downloadDocument, DocType.Document_findOne.
  rewrite Hd, HL, N.eqb_refl, Hfile.
  unfold DocType.Document_save.
  destruct (decide _) as [Heq|_].
  { apply (f_equal DocType.downloadCount) in Heq. simpl in Heq. lia. }
  rewrite Hp. cbn [fst snd]. eexists. split; [reflexivity|].
  split; [reflexivity|].
  unfold countT. cbn [DocType.docs]. by rewrite lookup_insert_eq.
Qed.

(** C7.  In both controllers: a download by the owner of a document whose
    file is on disk succeeds when the database takes the write (and, in
    documentController.js, the record passes the validators and its file
    name and type can go into a header); a download that succeeds raises
    the [downloadCount] of its document by exactly one; three downloads
    that succeed raise it by three and answer the same bytes each time; no
    request lowers the counter of a document, so it never goes down while
    the document is in the collection; only a download changes it, and a
    list or a fetch by identifier leaves every counter as it was.  (In
    documentController.js a download whose headers cannot be set is counted
    although it is answered 500; where they can be set, a request moves the
    counter by the number of successful downloads it makes.) *)
Theorem download_count_counts_downloads :
  ((∀ env L i w d content,
      Category.docs w !! i = Some d -> Category.lawyerId d = L ->
      Category.isDeleted d = false ->
      Category.files w !! Category.filePath d = Some content ->
      Category.validate d = true -> sendableC d -> persist env = true ->
      ∃ dl,
        (Category.downloadDocument env L i w).1 = Success 200 dl
        ∧ Category.bytes dl = content
        ∧ countC i (Category.downloadDocument env L i w).2
          = Some (Category.downloadCount d + 1)%N)
   ∧ (∀ env L i w,
      succeeded (Category.downloadDocument env L i w).1 = true ->
      ∃ n, countC i w = Some n
           ∧ countC i (Category.downloadDocument env L i w).2 = Some (n + 1)%N)
   ∧ (∀ e1 e2 e3 L i w,
      Forall (fun r => succeeded r = true) (thriceC e1 e2 e3 L i w).1 ->
      ∃ n content,
        countC i w = Some n
        ∧ countC i (thriceC e1 e2 e3 L i w).2 = Some (n + 3)%N
        ∧ bytesC <$> (thriceC e1 e2 e3 L i w).1
          = [Some content; Some content; Some content])
   ∧ (∀ env r w i d d',
      Category.docs w !! i = Some d ->
      Category.docs (Category.handle env r w) !! i = Some d' ->
      (Category.downloadCount d <= Category.downloadCount d')%N
      ∧ (sendableC d ->
         Category.downloadCount d'
         = (Category.downloadCount d + downloadsC env r i w)%N)
      ∧ (Category.downloadCount d' ≠ Category.downloadCount d ->
         ∃ L, r = Category.DownloadReq L i))
   ∧ (∀ trace w i d,
      Category.docs w !! i = Some d ->
      ∃ d', Category.docs (runC trace w) !! i = Some d'
            ∧ (Category.downloadCount d <= Category.downloadCount d')%N)
   ∧ (∀ env L q w, Category.handle env (Category.List L q) w = w)
   ∧ (∀ env L i w, Category.handle env (Category.GetById L i) w = w))
  ∧
  ((∀ env L i w d content,
      DocType.docs w !! i = Some d -> DocType.lawyerId d = L ->
      DocType.files w !! DocType.filePath d = Some content ->
      persist env = true ->
      ∃ dl,
        (DocType.downloadDocument env L i w).1 = Success 200 dl
        ∧ DocType.bytes dl = content
        ∧ countT i (DocType.downloadDocument env L i w).2
          = Some (DocType.downloadCount d + 1)%N)
   ∧ (∀ env L i w,
      succeeded (DocType.downloadDocument env L i w).1 = true ->
      ∃ n, countT i w = Some n
           ∧ countT i (DocType.downloadDocument env L i w).2 = Some (n + 1)%N)
   ∧ (∀ e1 e2 e3 L i w,
      Forall (fun r => succeeded r = true) (thriceT e1 e2 e3 L i w).1 ->
      ∃ n content,
        countT i w = Some n
        ∧ countT i (thriceT e1 e2 e3 L i w).2 = Some (n + 3)%N
        ∧ bytesT <$> (thriceT e1 e2 e3 L i w).1
          = [Some content; Some content; Some content])
   ∧ (∀ env r w i d d',
      DocType.docs w !! i = Some d ->
      DocType.docs (DocType.handle env r w) !! i = Some d' ->
      DocType.downloadCount d'
      = (DocType.downloadCount d + downloadsT env r i w)%N)
   ∧ (∀ trace w i d d',
      staysT i trace w ->
      DocType.docs w !! i = Some d ->
      DocType.docs (runT trace w) !! i = Some d' ->
      (DocType.downloadCount d <= DocType.downloadCount d')%N)
   ∧ (∀ env L q w, DocType.handle env (DocType.List L q) w = w)
   ∧ (∀ env L i w j,
      countT j (DocType.handle env (DocType.GetById L i) w) = countT j w)).
Proof.
  split.
  - split; [exact downloadC_succeeds|].
    split; [exact downloadC_counts|]. split; [exact thriceC_counts|].
    split; [exact handleC_count|]. split; [intros; by apply runC_monotone|].
    split; reflexivity.
  - split; [exact downloadT_succeeds|].
    split; [exact downloadT_counts|]. split; [exact thriceT_counts|].
    split; [exact handleT_count|]. split; [exact (fun t => runT_monotone t)|].
    split; [reflexivity|]. intros env L i w j. simpl. apply getByIdT_count.
Qed.

(** Lawyer 7 downloads the lease three times from documentController.js:
    the counter goes from 0 to 3 and the two bytes of the file come back
    each time.  Lawyer 7 downloads the lease from the documentType
    controller: the two bytes come back and the counter is 1. *)
Lemma download_count_counts_downloads_witness :
  (countC 1 twoDocsC = Some 0%N
   ∧ countC 1 (thriceC (mkEnv 3001 0 0 true)
                 (mkEnv 3002 0 0 true)
                 (mkEnv 3003 0 0 true) 7 1 twoDocsC).2
     = Some 3%N
   ∧ ∃ content,
       bytesC <$> (thriceC (mkEnv 3001 0 0 true)
                     (mkEnv 3002 0 0 true)
                     (mkEnv 3003 0 0 true) 7 1 twoDocsC).1
       = [Some content; Some content; Some content])
  ∧ ∃ dl,
      (DocType.downloadDocument (mkEnv 3001 0 0 true)
         7 1 oneDocT).1 = Success 200 dl
      ∧ DocType.bytes dl = [Byte.x25; Byte.x50]
      ∧ countT 1 (DocType.downloadDocument
                    (mkEnv 3001 0 0 true) 7 1 oneDocT).2
        = Some 1%N.
Proof.
  split.
  - destruct (proj1 (proj2 (proj2 (proj1 download_count_counts_downloads)))
                (mkEnv 3001 0 0 true)
                (mkEnv 3002 0 0 true)
                (mkEnv 3003 0 0 true)
                7%N 1%N twoDocsC)
      as (n & content & Hn & Hn3 & Hbytes).
    + vm_compute. repeat constructor.
    + assert (H0 : countC 1 twoDocsC = Some 0%N) by (vm_compute; reflexivity).
      rewrite H0 in Hn. injection Hn as <-.
      split; [done|]. split; [exact Hn3|]. by exists content.
  - destruct (proj1 (proj2 download_count_counts_downloads)
                (mkEnv 3001 0 0 true) 7%N 1%N oneDocT
                (default agreementT (DocType.docs oneDocT !! 1%N))
                [Byte.x25; Byte.x50])
      as (dl & Hdl & Hbytes & Hcount);
      [vm_compute; reflexivity | reflexivity | vm_compute; reflexivity
      | reflexivity |].
    exists dl. split; [exact Hdl|]. split; [exact Hbytes|]. exact Hcount.
Defined.

(** ** Review information on a status change *)

(** In the documentType variant a change of status into a review-terminal
    value records the caller and the time. *)
Lemma updateT_records_review env L i b w s d :
  DocType.docs w !! i = Some d -> DocType.lawyerId d = L ->
  DocType.patch_status b = Some s -> DocType.review_terminal s = true ->
  s ≠ DocType.status d -> persist env = true ->
  ∃ d' w',
    DocType.updateDocument env L i b w = (Success 200 (i, d'), w')
    ∧ DocType.docs w' !! i = Some d'
    ∧ DocType.status d' = s
    ∧ DocType.reviewedBy d' = Some L
    ∧ DocType.reviewedAt d' = Some (now env).
Proof.
  intros Hd HL Hs Hterm Hne Hp.
  unfold DocType.updateDocument, DocType.Document_findOne.
  rewrite Hd, HL, N.eqb_refl.
  assert (Hpatch : DocType.status (DocType.apply_patch env L b d) = s
                   ∧ DocType.reviewedBy (DocType.apply_patch env L b d) = Some L
                   ∧ DocType.reviewedAt (DocType.apply_patch env L b d)
                     = Some (now env)).
  { unfold DocType.apply_patch. simpl. rewrite Hs.
    destruct (String.eqb_spec s (DocType.status d)) as [?|_]; [done|].
    simpl. by rewrite Hterm. }
  destruct Hpatch as (Hs' & Hby & Hat).
  unfold DocType.Document_save.
  destruct (decide _) as [Heq|_].
  { apply (f_equal DocType.status) in Heq. congruence. }
  rewrite Hp. eexists _, _. split; [reflexivity|]. simpl.
  rewrite lookup_insert_eq. done.
Qed.

(** An update that does not change the status leaves [reviewedAt] alone. *)
Lemma updateT_keeps_review env L i b w c d d' w' :
  DocType.docs w !! i = Some d ->
  (DocType.patch_status b = None
   ∨ DocType.patch_status b = Some (DocType.status d)) ->
  DocType.updateDocument env L i b w = (Success c (i, d'), w') ->
  DocType.reviewedAt d' = DocType.reviewedAt d
  ∧ DocType.reviewedBy d' = DocType.reviewedBy d.
Proof.
  intros Hd Hs. unfold DocType.updateDocument.
  destruct (DocType.Document_findOne _ _ _) as [doc|] eqn:Hfind; [|done].
  apply findOneT_Some in Hfind as (Hdoc & _).
  assert (doc = d) as -> by congruence.
  destruct (DocType.Document_save _ _ _ _ _) as [[saved store]|] eqn:Hsave;
    [|done].
  intros [= <- <- <-].
  assert (Hpatch : DocType.reviewedAt (DocType.apply_patch env L b d)
                   = DocType.reviewedAt d
                   ∧ DocType.reviewedBy (DocType.apply_patch env L b d)
                     = DocType.reviewedBy d).
  { unfold DocType.apply_patch. simpl.
    destruct Hs as [->| ->]; [done|]. by rewrite String.eqb_refl. }
  apply Document_saveT_inv in Hsave as [(Heq & -> & _)|(_ & _ & -> & _)].
  - done.
  - exact Hpatch.
Qed.

(** In the category variant the test on the status comes after the
    assignment of the status, so it never holds: the handler records no
    reviewer, whatever the request. *)
Lemma apply_patchC_reviewedBy env L b d :
  Category.reviewedBy (Category.apply_patch env L b d) = Category.reviewedBy d.
Proof.
  unfold Category.apply_patch. simpl.
  case_bool_decide as Hs; [|done].
  unfold or_else, truthy. rewrite Hs. simpl. done.
Qed.

(** C3, in the category variant, on the lease of lawyer 7 (status
    [pending_review], never reviewed): the update to [reviewed] at time 4000
    answers the document with status [reviewed], a review time and no
    reviewer; the update to [approved] answers it with status [approved]
    and neither reviewer nor review time. *)
Theorem category_update_records_no_reviewer :
  Category.status leaseC = "pending_review"
  ∧ Category.docs twoDocsC !! 1%N = Some leaseC
  ∧ reviewC (Category.updateDocument (mkEnv 4000 0 0 true)
               (setStatusC 7 1 "reviewed") twoDocsC).1
    = Some ("reviewed", None, Some 4000%N)
  ∧ reviewC (Category.updateDocument (mkEnv 4000 0 0 true)
               (setStatusC 7 1 "approved") twoDocsC).1
    = Some ("approved", None, None).
Proof. vm_compute. done. Qed.

(** ** Creates that fail *)

Lemma find_none_existsb {B} (p q : B -> bool) (l : list B) :
  (∀ x, p x = q x) -> existsb q l = false -> List.find p l = None.
Proof.
  intros Hpq. induction l as [|x l IH]; simpl; [done|].
  rewrite Hpq. destruct (q x); simpl; [done|]. exact IH.
Qed.

(** In the category variant the file is stored after the relationship check
    and unlinked again when [Document.create] throws: the collection is as
    before and nothing is left under the path of the upload.  The exception
    is thrown again inside the callback, where nothing catches it. *)
Lemma uploadC_failed_create_unlinks env req w file stored :
  Category.up_errors req = [] ->
  not_archived (Category.up_user req)
    (Category.body_clientId (Category.up_body req))
    (Category.relationships w) = true ->
  upload_single env (Category.up_file req) (Category.files w)
    = MulterStored file stored ->
  succeeded (Category.uploadDocument env req w).1 = false ->
  (Category.uploadDocument env req w).1 = Unhandled
  ∧ Category.docs (Category.uploadDocument env req w).2 = Category.docs w
  ∧ Category.files (Category.uploadDocument env req w).2 !! path file = None
  ∧ Category.files (Category.uploadDocument env req w).2
    = delete (path file) (Category.files w).
Proof.
  intros Herr Hrel Hup. unfold Category.uploadDocument. rewrite Herr.
  destruct (LawyerClient_findOne _ _) as [lc|] eqn:Hlc.
  2:{ unfold LawyerClient_findOne in Hlc. unfold not_archived in Hrel.
      apply existsb_exists in Hrel as (lc & Hin & Hlc').
      eapply find_none in Hlc; [|exact Hin]. simpl in Hlc. congruence. }
  rewrite Hup.
  destruct (Category.Document_create _ _ _) as [[[i d] store]|]; [done|].
  intros _. simpl. split; [done|]. split; [done|].
  split; [apply lookup_delete_eq|].
  revert Hup. unfold upload_single.
  destruct (Category.up_file req) as [f|]; [|done].
  destruct (String.eqb (part_originalname f) _); [done|].
  destruct (negb (String.eqb _ _)); [done|].
  destruct (negb (fileFilter _)); [done|].
  destruct (_ <=? _)%N; [done|].
  intros [= <- <-]. simpl. by rewrite delete_insert_eq.
Qed.

(** C5, in the documentType variant: lawyer 7 uploads the lease for client
    9; the middleware has stored the file, the relationship is active, and
    the database refuses the write.  The handler answers 500, no record is
    created, and the file is still on disk. *)
Theorem doctype_failed_create_keeps_file :
  active_or_pending 7 (Some 9%N) (DocType.relationships officeT) = true
  ∧ DocType.files officeT !! path leaseFile = Some [Byte.x25; Byte.x50]
  ∧ (DocType.uploadDocument (mkEnv 1000 5 1 false) (uploadLeaseT 9) officeT).1
    = Failure 500 "Failed to upload document"
  ∧ DocType.docs
      (DocType.uploadDocument (mkEnv 1000 5 1 false) (uploadLeaseT 9) officeT).2
    = ∅
  ∧ DocType.files
      (DocType.uploadDocument (mkEnv 1000 5 1 false) (uploadLeaseT 9) officeT).2
    !! path leaseFile = Some [Byte.x25; Byte.x50].
Proof. vm_compute. done. Qed.

(** Whatever makes [Document.create] throw, the handler of the documentType
    variant answers 500 and leaves the world, the stored file included, as
    it found it. *)
Lemma uploadT_failed_create_keeps_world env req w :
  (DocType.uploadDocument env req w).1 = Failure 500 "Failed to upload document" ->
  (DocType.uploadDocument env req w).2 = w.
Proof.
  unfold DocType.uploadDocument.
  destruct (DocType.up_errors req); [|done].
  destruct (LawyerClient_findOne _ _) as [lc|]; [|done].
  destruct (DocType.up_file req) as [file|]; [|done].
  by destruct (DocType.Document_create _ _ _) as [[[i d] store]|].
Qed.

(** ** Creates without a relationship *)

(** C6 as stated fails in the category variant: the only relationship of
    lawyer 7 with client 9 is completed (neither active nor pending) and
    not archived, and the upload succeeds, with a record and a file. *)
Lemma upload_without_active_relationship_counterexample :
  active_or_pending 7 (Some 9%N) (Category.relationships completedC) = false
  ∧ ∃ d w',
      Category.uploadDocument (mkEnv 1000 5 1 true) uploadLease completedC
      = (Success 201 (1%N, d), w')
      ∧ Category.docs w' !! 1%N = Some d
      ∧ Category.files w' !! Category.filePath d = Some [Byte.x25; Byte.x50].
Proof. split; [reflexivity|]. eexists _, _. vm_compute. done. Qed.

(** In the documentType variant the file the middleware stored stays on
    disk when the relationship is missing. *)
Lemma doctype_upload_without_relationship_keeps_file :
  (DocType.uploadDocument (mkEnv 1000 5 1 true) (uploadLeaseT 10) officeT).1
  = Failure 404 "Client relationship not found or inactive"
  ∧ DocType.files
      (DocType.uploadDocument (mkEnv 1000 5 1 true) (uploadLeaseT 10) officeT).2
    !! path leaseFile = Some [Byte.x25; Byte.x50].
Proof. vm_compute. done. Qed.

(** C6, amended.  A create request that passes validation and finds no
    relationship row of the caller and the client that qualifies (not
    archived in the category variant, active or pending in the documentType
    variant) is answered 404, and the world is as the handler found it: no
    record is created, and the category variant, which stores the file
    after this check, has stored none. *)
Theorem upload_without_relationship_is_not_found :
  (∀ env req w,
     Category.up_errors req = [] ->
     not_archived (Category.up_user req)
       (Category.body_clientId (Category.up_body req))
       (Category.relationships w) = false ->
     Category.uploadDocument env req w
     = (Failure 404 "Client relationship not found", w))
  ∧ (∀ env req w,
     DocType.up_errors req = [] ->
     active_or_pending (DocType.up_user req)
       (DocType.body_clientId (DocType.up_body req))
       (DocType.relationships w) = false ->
     DocType.uploadDocument env req w
     = (Failure 404 "Client relationship not found or inactive", w)).
Proof.
  split.
  - intros env req w Herr Hrel. unfold Category.uploadDocument.
    rewrite Herr. unfold LawyerClient_findOne.
    by rewrite (find_none_existsb _ _ _ (fun _ => eq_refl) Hrel).
  - intros env req w Herr Hrel. unfold DocType.uploadDocument.
    rewrite Herr. unfold LawyerClient_findOne.
    erewrite find_none_existsb; [done| |exact Hrel].
    intros lc. simpl. by rewrite orb_false_r.
Qed.

(** Lawyer 8 has no relationship with client 9. *)
Lemma upload_without_relationship_is_not_found_witness :
  Category.uploadDocument (mkEnv 1000 5 1 true)
    (Category.mkUploadRequest 8 [] (Category.up_body uploadLease) (Some leasePart))
    officeC
  = (Failure 404 "Client relationship not found", officeC).
Proof.
  apply (proj1 upload_without_relationship_is_not_found); reflexivity.
Defined.

(** ** Searching *)







Lemma truthy_Some (s : string) : s ≠ EmptyString -> truthy (Some s) = Some s.
Proof.
  intros Hne. unfold truthy. destruct (String.eqb_spec s EmptyString); done.
Qed.






(** It fails in the documentType variant too: the agreement is tagged
    "contract" and the search for "contract" returns nothing. *)
Lemma doctype_search_misses_tags :
  DocType.docs archiveT !! 1%N = Some agreementT
  ∧ DocType.lawyerId agreementT = 7%N
  ∧ (∃ tag, tag ∈ DocType.tags agreementT ∧ contains_ci "contract" tag)
  ∧ listedT (DocType.getLawyerDocuments reading 7 (searchT "contract") archiveT) = [].
Proof.
  split; [reflexivity|]. split; [reflexivity|].
  split; [|vm_compute; reflexivity].
  exists "contract". split; [apply list_elem_of_here|].
  by exists EmptyString, EmptyString.
Qed.



(** ** Documents of another lawyer *)

Lemma findOneC_foreign i L store d :
  store !! i = Some d -> Category.lawyerId d ≠ L ->
  Category.Document_findOne i L store = None.
Proof.
  intros Hd Hne. unfold Category.Document_findOne. rewrite Hd.
  destruct (N.eqb_spec (Category.lawyerId d) L); [done|]. reflexivity.
Qed.

Lemma findOneT_foreign i L store d :
  store !! i = Some d -> DocType.lawyerId d ≠ L ->
  DocType.Document_findOne i L store = None.
Proof.
  intros Hd Hne. unfold DocType.Document_findOne. rewrite Hd.
  destruct (N.eqb_spec (DocType.lawyerId d) L); [done|]. reflexivity.
Qed.

(** X1.  A lawyer who asks for the document of another lawyer by its
    identifier is told 404 "Document not found" by fetch, download, update
    and delete alike, in both controllers, and nothing changes. *)
Theorem foreign_document_is_not_found :
  (∀ env L i w d b,
     Category.docs w !! i = Some d -> Category.lawyerId d ≠ L ->
     Category.getDocumentById L i w = Failure 404 "Document not found"
     ∧ Category.downloadDocument env L i w
       = (Failure 404 "Document not found", w)
     ∧ Category.updateDocument env (Category.mkUpdateRequest L i [] b) w
       = (Failure 404 "Document not found", w)
     ∧ Category.deleteDocument env L i w
       = (Failure 404 "Document not found", w))
  ∧ (∀ env L i w d b,
     DocType.docs w !! i = Some d -> DocType.lawyerId d ≠ L ->
     DocType.getDocumentById env L i w = (Failure 404 "Document not found", w)
     ∧ DocType.downloadDocument env L i w
       = (Failure 404 "Document not found", w)
     ∧ DocType.updateDocument env L i b w
       = (Failure 404 "Document not found", w)
     ∧ DocType.deleteDocument env L i w
       = (Failure 404 "Document not found", w)).
Proof.
  split.
  - intros env L i w d b Hd Hne.
    pose proof (findOneC_foreign i L _ d Hd Hne) as Hnone.
    unfold Category.getDocumentById, Category.downloadDocument,
      Category.updateDocument, Category.deleteDocument. simpl.
    by rewrite Hnone.
  - intros env L i w d b Hd Hne.
    pose proof (findOneT_foreign i L _ d Hd Hne) as Hnone.
    unfold DocType.getDocumentById, DocType.downloadDocument,
      DocType.updateDocument, DocType.deleteDocument.
    by rewrite Hnone.
Qed.

(** Lawyer 8 asks for the lease of lawyer 7. *)
Lemma foreign_document_is_not_found_witness :
  Category.getDocumentById 8 1 twoDocsC = Failure 404 "Document not found"
  ∧ Category.deleteDocument (mkEnv 5000 0 0 true) 8 1
      twoDocsC
    = (Failure 404 "Document not found", twoDocsC).
Proof.
  destruct (proj1 foreign_document_is_not_found
              (mkEnv 5000 0 0 true) 8%N 1%N
              twoDocsC leaseC emptyPatchC)
    as (Hget & _ & _ & Hdel);
    [vm_compute; reflexivity | vm_compute; discriminate |].
  split; [exact Hget | exact Hdel].
Defined.

(** X2.  The documents of other lawyers change nothing in what a lawyer is
    listed or counted: the list response and the statistics of the category
    variant, and the documents and pagination of a list of the documentType
    variant, are what they would be without such a document. *)
Theorem foreign_documents_do_not_interfere :
  (∀ env L q c w i d,
     Category.docs w !! i = Some d -> Category.lawyerId d ≠ L ->
     Category.getDocuments env L q w
     = Category.getDocuments env L q (withoutC i w)
     ∧ Category.getDocumentStats L c w
       = Category.getDocumentStats L c (withoutC i w))
  ∧ (∀ env L q w i d,
     DocType.docs w !! i = Some d -> DocType.lawyerId d ≠ L ->
     pageT (DocType.getLawyerDocuments env L q w)
     = pageT (DocType.getLawyerDocuments env L q (withoutT i w))).
Proof.
  split.
  - intros env L q c w i d Hd Hne.
    assert (Hl : (Category.lawyerId d =? L)%N = false) by by apply N.eqb_neq.
    assert (Hstats : ∀ c', Category.Document_getDocumentStats (AsString L) c'
                             (delete i (Category.docs w))
                           = Category.Document_getDocumentStats (AsString L) c'
                               (Category.docs w)).
    { intros c'. unfold Category.Document_getDocumentStats.
      rewrite (Model_find_refused _ _ i d Hd); done. }
    split.
    + unfold Category.getDocuments, withoutC. simpl.
      rewrite Hstats, (Model_find_refused _ _ i d Hd); [done|].
      unfold Category.list_query. by rewrite Hl.
    + unfold Category.getDocumentStats, withoutC. simpl. by rewrite Hstats.
  - intros env L q w i d Hd Hne.
    assert (Hl : (DocType.lawyerId d =? L)%N = false) by by apply N.eqb_neq.
    unfold DocType.getLawyerDocuments, withoutT. simpl.
    rewrite (Model_find_refused _ _ i d Hd).
    + destruct (negb _); [done|]. by destruct (paginate _ _ _).
    + unfold DocType.list_query. by rewrite Hl.
Qed.

(** What lawyer 8 lists and counts is the same with and without the lease of
    lawyer 7. *)
Lemma foreign_documents_do_not_interfere_witness :
  Category.getDocuments reading 8 noFilterC twoDocsC
  = Category.getDocuments reading 8 noFilterC (withoutC 1 twoDocsC).
Proof.
  apply (proj1 foreign_documents_do_not_interfere reading 8%N noFilterC None
           twoDocsC 1%N leaseC);
    [vm_compute; reflexivity | vm_compute; discriminate].
Defined.

(** ** What an update can and cannot change *)

Lemma pre_saveC_fixed env loaded d :
  fixedC (Category.pre_save env loaded d) = fixedC d.
Proof. unfold Category.pre_save. by destruct (_ && _). Qed.

Lemma updateC_success env req w c i d' w' :
  Category.updateDocument env req w = (Success c (i, d'), w') ->
  ∃ d, Category.docs w !! i = Some d
       ∧ Category.lawyerId d = Category.upd_user req
       ∧ Category.isDeleted d = false
       ∧ i = Category.upd_id req
       ∧ Category.Document_save env i d
           (Category.apply_patch env (Category.upd_user req)
              (Category.upd_body req) d) (Category.docs w)
         = Some (d', Category.docs w')
       ∧ Category.files w' = Category.files w.
Proof.
  unfold Category.updateDocument.
  destruct (Category.upd_errors req); [|done].
  destruct (Category.Document_findOne _ _ _) as [d|] eqn:Hfind; [|done].
  apply findOneC_Some in Hfind as (Hd & HL & Hlive).
  destruct (Category.Document_save _ _ _ _ _) as [[saved store]|] eqn:Hsave;
    [|done].
  intros [= <- <- <- <-]. exists d. simpl. done.
Qed.

Lemma updateT_success env L i b w c j d' w' :
  DocType.updateDocument env L i b w = (Success c (j, d'), w') ->
  ∃ d, DocType.docs w !! i = Some d
       ∧ DocType.lawyerId d = L ∧ j = i
       ∧ DocType.Document_save env i d (DocType.apply_patch env L b d)
           (DocType.docs w)
         = Some (d', DocType.docs w')
       ∧ DocType.files w' = DocType.files w.
Proof.
  unfold DocType.updateDocument.
  destruct (DocType.Document_findOne _ _ _) as [d|] eqn:Hfind; [|done].
  apply findOneT_Some in Hfind as (Hd & HL).
  destruct (DocType.Document_save _ _ _ _ _) as [[saved store]|] eqn:Hsave;
    [|done].
  intros [= <- <- <- <-]. exists d. simpl. done.
Qed.

(** X3.  An update that succeeds answers the document with the same
    owner, client, file, uploader, creation time, visibility, deletion flag
    and download counter as before, whatever the patch carries; the files
    on disk are untouched.  So no update makes a document public, moves it
    to another lawyer or brings a deleted one back. *)
Theorem update_keeps_identity_and_file :
  (∀ env req w c i d' w',
     Category.updateDocument env req w = (Success c (i, d'), w') ->
     ∃ d, Category.docs w !! i = Some d
          ∧ Category.docs w' !! i = Some d'
          ∧ fixedC d' = fixedC d
          ∧ Category.files w' = Category.files w)
  ∧ (∀ env L i b w c j d' w',
     DocType.updateDocument env L i b w = (Success c (j, d'), w') ->
     ∃ d, DocType.docs w !! i = Some d
          ∧ DocType.docs w' !! i = Some d'
          ∧ fixedT d' = fixedT d
          ∧ DocType.files w' = DocType.files w).
Proof.
  split.
  - intros env req w c i d' w' Hup.
    apply updateC_success in Hup as (d & Hd & _ & _ & -> & Hsave & Hfiles).
    exists d. split; [done|].
    pose proof Hsave as Hinv.
    apply saveC_effect in Hsave as (Hd' & _); [|done].
    split; [done|]. split; [|done].
    apply Document_saveC_inv in Hinv as [(_ & -> & _)|(_ & _ & -> & _)];
      [done|].
    transitivity (fixedC (Category.pre_save env d
                            (Category.apply_patch env (Category.upd_user req)
                               (Category.upd_body req) d))); [reflexivity|].
    by rewrite pre_saveC_fixed.
  - intros env L i b w c j d' w' Hup.
    apply updateT_success in Hup as (d & Hd & _ & -> & Hsave & Hfiles).
    exists d. split; [done|].
    pose proof Hsave as Hinv.
    apply saveT_effect in Hsave as (Hd' & _); [|done].
    split; [done|]. split; [|done].
    by apply Document_saveT_inv in Hinv as [(_ & -> & _)|(_ & _ & -> & _)].
Qed.

(** The retitled lease has its new title and is the lease in all the rest. *)
Lemma update_keeps_identity_and_file_witness :
  Category.title leaseRetitledC = "Lease 2024"
  ∧ fixedC leaseRetitledC = fixedC leaseC.
Proof.
  split; [vm_compute; reflexivity|].
  destruct (proj1 update_keeps_identity_and_file (mkEnv 4000 0 0 true)
              retitleLease twoDocsC 200%N 1%N leaseRetitledC retitledC)
    as (d & Hd & _ & Hfixed & _); [vm_compute; reflexivity|].
  assert (Hl : Category.docs twoDocsC !! 1%N = Some leaseC)
    by (vm_compute; reflexivity).
  rewrite Hl in Hd. injection Hd as <-. exact Hfixed.
Defined.

(** X4.  An update with an empty patch changes nothing: the documentType
    controller answers 200 with the stored document, and so does
    documentController.js when the stored document passes the validators
    of its schema; the world is as before. *)
Theorem empty_update_is_a_no_op :
  (∀ env L i w d,
     Category.docs w !! i = Some d -> Category.lawyerId d = L ->
     Category.isDeleted d = false -> Category.validate d = true ->
     Category.updateDocument env (Category.mkUpdateRequest L i [] emptyPatchC) w
     = (Success 200 (i, d), w))
  ∧ (∀ env L i w d,
     DocType.docs w !! i = Some d -> DocType.lawyerId d = L ->
     DocType.updateDocument env L i emptyPatchT w = (Success 200 (i, d), w)).
Proof.
  split.
  - intros env L i w d Hd HL Hlive Hvalid.
    unfold Category.updateDocument, Category.Document_findOne. simpl.
    rewrite Hd, HL, N.eqb_refl, Hlive. simpl.
    assert (Hpatch : Category.apply_patch env L emptyPatchC d = d)
      by by destruct d.
    rewrite Hpatch. unfold Category.Document_save.
    rewrite pre_saveC_same_status by done.
    assert (Hv : Category.validate_modified d d = true).
    { revert Hvalid. unfold Category.validate, Category.validate_modified.
      rewrite !andb_true_iff. intros (((((((((((? & ?) & ?) & ?) & ?) & ?) & ?) & ?) & ?) & ?) & ?) & ?).
      rewrite !bool_decide_eq_true_2 by done. simpl. done. }
    rewrite Hv. destruct (decide (d = d)); [|done]. by destruct w.
  - intros env L i w d Hd HL.
    unfold DocType.updateDocument, DocType.Document_findOne.
    rewrite Hd, HL, N.eqb_refl.
    assert (Hpatch : DocType.apply_patch env L emptyPatchT d = d)
      by by destruct d.
    rewrite Hpatch. unfold DocType.Document_save.
    destruct (decide (d = d)); [|done]. by destruct w.
Qed.

Lemma empty_update_is_a_no_op_witness :
  Category.updateDocument (mkEnv 4000 0 0 true)
    (Category.mkUpdateRequest 7 1 [] emptyPatchC) twoDocsC
  = (Success 200 (1%N, leaseC), twoDocsC).
Proof.
  apply (proj1 empty_update_is_a_no_op); vm_compute; reflexivity.
Defined.

(** ** What a delete does to the record and to the file *)

(** X5.  A delete that succeeds in documentController.js keeps the file
    and the record: the files on disk are untouched, the record is still in
    the collection with [isDeleted = true] and every field but [isDeleted]
    and [updatedAt] as before, and no other record changes.  In the
    documentType controller it removes both: the record is taken out of the
    collection and the file at its [filePath] is unlinked, and nothing else
    changes. *)
Theorem delete_soft_keeps_hard_removes :
  (∀ env L i w,
     succeeded (Category.deleteDocument env L i w).1 = true ->
     ∃ d d',
       Category.docs w !! i = Some d
       ∧ Category.docs (Category.deleteDocument env L i w).2 !! i = Some d'
       ∧ Category.isDeleted d = false ∧ Category.isDeleted d' = true
       ∧ restOfC d' = restOfC d
       ∧ Category.files (Category.deleteDocument env L i w).2 = Category.files w
       ∧ (∀ j, j ≠ i ->
          Category.docs (Category.deleteDocument env L i w).2 !! j
          = Category.docs w !! j))
  ∧ (∀ env L i w,
     succeeded (DocType.deleteDocument env L i w).1 = true ->
     ∃ d,
       DocType.docs w !! i = Some d ∧ DocType.lawyerId d = L
       ∧ DocType.docs (DocType.deleteDocument env L i w).2
         = delete i (DocType.docs w)
       ∧ DocType.files (DocType.deleteDocument env L i w).2
         = delete (DocType.filePath d) (DocType.files w)
       ∧ DocType.files (DocType.deleteDocument env L i w).2
         !! DocType.filePath d = None).
Proof.
  split.
  - intros env L i w. unfold Category.deleteDocument.
    destruct (Category.Document_findOne i L _) as [d|] eqn:Hfind; [|done].
    apply findOneC_Some in Hfind as (Hd & _ & Hlive).
    destruct (Category.Document_save _ _ _ _ _) as [[saved store]|] eqn:Hsave;
      [|done].
    intros _. simpl. exists d, saved.
    pose proof Hsave as Hinv.
    apply saveC_effect in Hsave as (Hsaved & _ & _ & Hother); [|done].
    apply Document_saveC_inv in Hinv as [(Heq & _)|(_ & _ & -> & _)].
    + rewrite pre_saveC_same_status in Heq by done.
      apply (f_equal Category.isDeleted) in Heq. simpl in Heq. congruence.
    + rewrite pre_saveC_same_status in * by done.
      split; [done|]. split; [done|]. split; [done|]. split; [reflexivity|].
      split; [reflexivity|]. split; [reflexivity|]. exact Hother.
  - intros env L i w. unfold DocType.deleteDocument.
    destruct (DocType.Document_findOne i L _) as [d|] eqn:Hfind; [|done].
    apply findOneT_Some in Hfind as (Hd & HL).
    destruct (persist env); [|done]. intros _. simpl.
    exists d. rewrite lookup_delete_eq. done.
Qed.

(** Lawyer 7 deletes the lease: its file stays on disk. *)
Lemma delete_soft_keeps_hard_removes_witness :
  Category.files (Category.deleteDocument (mkEnv 3000 0 0 true) 7 1 twoDocsC).2
  = Category.files twoDocsC.
Proof.
  destruct (proj1 delete_soft_keeps_hard_removes (mkEnv 3000 0 0 true) 7%N 1%N
              twoDocsC) as (d & d' & _ & _ & _ & _ & _ & Hfiles & _);
    [vm_compute; reflexivity|]. exact Hfiles.
Defined.

(** X6.  When the database refuses the removal in the documentType
    controller, the delete answers 500 with the file already unlinked and
    the record still in the collection; a download of that document then
    answers 404 "File not found on server" and counts nothing. *)
Theorem doctype_delete_refused_loses_file :
  ∀ env env2 L i w d,
    DocType.docs w !! i = Some d -> DocType.lawyerId d = L ->
    persist env = false ->
    (DocType.deleteDocument env L i w).1
    = Failure 500 "Failed to delete document"
    ∧ DocType.docs (DocType.deleteDocument env L i w).2 = DocType.docs w
    ∧ DocType.files (DocType.deleteDocument env L i w).2
      = delete (DocType.filePath d) (DocType.files w)
    ∧ DocType.downloadDocument env2 L i (DocType.deleteDocument env L i w).2
      = (Failure 404 "File not found on server",
         (DocType.deleteDocument env L i w).2).
Proof.
  intros env env2 L i w d Hd HL Hp.
  unfold DocType.deleteDocument at 1 2 3.
  unfold DocType.deleteDocument at 2.
  unfold DocType.Document_findOne. rewrite Hd, HL, N.eqb_refl, Hp. simpl.
  split; [done|]. split; [done|]. split; [done|].
  unfold DocType.downloadDocument, DocType.deleteDocument,
    DocType.Document_findOne.
  rewrite Hd, HL, N.eqb_refl, Hp. simpl.
  rewrite Hd, HL, N.eqb_refl. by rewrite lookup_delete_eq.
Qed.

(** The database refuses to remove the agreement of lawyer 7. *)
Lemma doctype_delete_refused_loses_file_witness :
  (DocType.deleteDocument (mkEnv 3000 0 0 false) 7 1 archiveT).1
  = Failure 500 "Failed to delete document"
  ∧ DocType.docs (DocType.deleteDocument (mkEnv 3000 0 0 false) 7 1 archiveT).2
    = DocType.docs archiveT.
Proof.
  destruct (doctype_delete_refused_loses_file (mkEnv 3000 0 0 false)
              (mkEnv 3100 0 0 true) 7%N 1%N archiveT agreementT)
    as (Hr & Hdocs & _); [reflexivity | reflexivity | reflexivity |].
  split; [exact Hr | exact Hdocs].
Defined.

(** ** Visibility over the whole interface *)

Lemma saveC_isPublic env i loaded d store saved store' :
  Category.Document_save env i loaded d store = Some (saved, store') ->
  Category.isPublic d = Category.isPublic loaded ->
  Category.isPublic saved = Category.isPublic loaded.
Proof.
  intros Hsave Hsame.
  apply Document_saveC_inv in Hsave as [(_ & -> & _)|(_ & _ & -> & _)]; [done|].
  simpl. by rewrite pre_saveC_isPublic.
Qed.

Lemma saveT_isPublic env i loaded d store saved store' :
  DocType.Document_save env i loaded d store = Some (saved, store') ->
  DocType.isPublic d = DocType.isPublic loaded ->
  DocType.isPublic saved = DocType.isPublic loaded.
Proof.
  intros Hsave Hsame.
  by apply Document_saveT_inv in Hsave as [(_ & -> & _)|(_ & _ & -> & _)].
Qed.

(** A save of a record whose visibility was not touched keeps every record
    private. *)
Lemma saveC_private env i loaded d store saved store' :
  Category.Document_save env i loaded d store = Some (saved, store') ->
  store !! i = Some loaded ->
  Category.isPublic d = Category.isPublic loaded ->
  (∀ j dj, store !! j = Some dj -> Category.isPublic dj = false) ->
  ∀ j dj, store' !! j = Some dj -> Category.isPublic dj = false.
Proof.
  intros Hsave Hi Hsame Hall j dj Hj.
  pose proof (saveC_isPublic _ _ _ _ _ _ _ Hsave Hsame) as Hpub.
  apply saveC_effect in Hsave as (Hsaved & _ & _ & Hother); [|done].
  destruct (decide (j = i)) as [->|Hne].
  - rewrite Hsaved in Hj. injection Hj as <-. rewrite Hpub. by eapply Hall.
  - rewrite Hother in Hj by done. by eapply Hall.
Qed.

Lemma saveT_private env i loaded d store saved store' :
  DocType.Document_save env i loaded d store = Some (saved, store') ->
  store !! i = Some loaded ->
  DocType.isPublic d = DocType.isPublic loaded ->
  (∀ j dj, store !! j = Some dj -> DocType.isPublic dj = false) ->
  ∀ j dj, store' !! j = Some dj -> DocType.isPublic dj = false.
Proof.
  intros Hsave Hi Hsame Hall j dj Hj.
  pose proof (saveT_isPublic _ _ _ _ _ _ _ Hsave Hsame) as Hpub.
  apply saveT_effect in Hsave as (Hsaved & _ & _ & Hother); [|done].
  destruct (decide (j = i)) as [->|Hne].
  - rewrite Hsaved in Hj. injection Hj as <-. rewrite Hpub. by eapply Hall.
  - rewrite Hother in Hj by done. by eapply Hall.
Qed.

Lemma handleC_private env r w :
  all_privateC w -> all_privateC (Category.handle env r w).
Proof.
  unfold all_privateC. intros Hall. destruct r as [req|L q|L j|L j|req|L j|L c]; simpl; try done.
  - unfold Category.uploadDocument.
    destruct (Category.up_errors req); [|done].
    destruct (LawyerClient_findOne _ _) as [lc|]; [|done].
    destruct (upload_single _ _ _) as [| |file stored]; try done.
    destruct (Category.Document_create _ _ _) as [[[i d] store]|] eqn:Hc;
      [|done].
    apply Document_createC_inv in Hc as (Hpub & _ & _ & _ & _ & _ & _ & _ & ->).
    intros k dk. simpl. destruct (decide (k = i)) as [->|Hne].
    + rewrite lookup_insert_eq. by intros [= <-].
    + rewrite lookup_insert_ne by done. apply Hall.
  - unfold Category.downloadDocument.
    destruct (Category.Document_findOne _ _ _) as [d|] eqn:Hfind; [|done].
    apply findOneC_Some in Hfind as (Hd & _ & _).
    destruct (Category.files w !! _); [|done].
    destruct (Category.Document_save _ _ _ _ _) as [[saved store]|] eqn:Hsave;
      [|done].
    destruct (_ && _); simpl;
      (eapply saveC_private; [exact Hsave|exact Hd|reflexivity|exact Hall]).
  - unfold Category.updateDocument.
    destruct (Category.upd_errors req); [|done].
    destruct (Category.Document_findOne _ _ _) as [d|] eqn:Hfind; [|done].
    apply findOneC_Some in Hfind as (Hd & _ & _).
    destruct (Category.Document_save _ _ _ _ _) as [[saved store]|] eqn:Hsave;
      [|done].
    simpl. eapply saveC_private; [exact Hsave|exact Hd|reflexivity|exact Hall].
  - unfold Category.deleteDocument.
    destruct (Category.Document_findOne _ _ _) as [d|] eqn:Hfind; [|done].
    apply findOneC_Some in Hfind as (Hd & _ & _).
    destruct (Category.Document_save _ _ _ _ _) as [[saved store]|] eqn:Hsave;
      [|done].
    simpl. eapply saveC_private; [exact Hsave|exact Hd|reflexivity|exact Hall].
Qed.

Lemma handleT_private env r w :
  all_privateT w -> all_privateT (DocType.handle env r w).
Proof.
  unfold all_privateT. intros Hall. destruct r as [req|L q|L j|L j|L j b|L j|L c]; simpl; try done.
  - unfold DocType.uploadDocument.
    destruct (DocType.up_errors req); [|done].
    destruct (LawyerClient_findOne _ _) as [lc|]; [|done].
    destruct (DocType.up_file req) as [file|]; [|done].
    destruct (DocType.Document_create _ _ _) as [[[i d] store]|] eqn:Hc;
      [|done].
    apply Document_createT_inv in Hc as (Hpub & _ & _ & _ & _ & _ & _ & ->).
    intros k dk. simpl. destruct (decide (k = i)) as [->|Hne].
    + rewrite lookup_insert_eq. by intros [= <-].
    + rewrite lookup_insert_ne by done. apply Hall.
  - unfold DocType.getDocumentById.
    destruct (DocType.Document_findOne _ _ _) as [d|] eqn:Hfind; [|done].
    apply findOneT_Some in Hfind as (Hd & _).
    destruct (DocType.Document_save _ _ _ _ _) as [[saved store]|] eqn:Hsave;
      [|done].
    simpl. eapply saveT_private; [exact Hsave|exact Hd|reflexivity|exact Hall].
  - unfold DocType.downloadDocument.
    destruct (DocType.Document_findOne _ _ _) as [d|] eqn:Hfind; [|done].
    apply findOneT_Some in Hfind as (Hd & _).
    destruct (DocType.files w !! _); [|done].
    destruct (DocType.Document_save _ _ _ _ _) as [[saved store]|] eqn:Hsave;
      [|done].
    simpl. eapply saveT_private; [exact Hsave|exact Hd|reflexivity|exact Hall].
  - unfold DocType.updateDocument.
    destruct (DocType.Document_findOne _ _ _) as [d|] eqn:Hfind; [|done].
    apply findOneT_Some in Hfind as (Hd & _).
    destruct (DocType.Document_save _ _ _ _ _) as [[saved store]|] eqn:Hsave;
      [|done].
    simpl. eapply saveT_private; [exact Hsave|exact Hd|reflexivity|exact Hall].
  - unfold DocType.deleteDocument.
    destruct (DocType.Document_findOne _ _ _) as [d|]; [|done].
    destruct (persist env); simpl; [|done].
    intros k dk Hk. apply lookup_delete_Some in Hk as [_ Hk]. by eapply Hall.
Qed.

(** X7.  No request of the interface makes a document public: when every
    record of the collection is private, every record is private after any
    sequence of uploads, lists, fetches, downloads, updates, deletes and
    statistics calls, in both controllers. *)
Theorem no_request_publishes :
  (∀ trace w, all_privateC w -> all_privateC (runC trace w))
  ∧ (∀ trace w, all_privateT w -> all_privateT (runT trace w)).
Proof.
  split.
  - induction trace as [|[env r] rest IH]; intros w Hall; simpl; [done|].
    by apply IH, handleC_private.
  - induction trace as [|[env r] rest IH]; intros w Hall; simpl; [done|].
    by apply IH, handleT_private.
Qed.

(** From the empty office: an upload that asks for a public document, an
    update and a download leave only private records. *)
Lemma no_request_publishes_witness :
  all_privateC
    (runC [ (mkEnv 1000 5 1 true,
             Category.Upload uploadLease);
            (mkEnv 4000 0 0 true,
             Category.Update retitleLease);
            (mkEnv 5000 0 0 true,
             Category.DownloadReq 7 1) ] officeC).
Proof.
  apply (proj1 no_request_publishes). intros i d Hd. by vm_compute in Hd.
Defined.

(** ** Pages *)











(** ** The order of a list *)

Lemma key_leb_total (a b : SortKey) : key_leb a b = true ∨ key_leb b a = true.
Proof.
  destruct a, b; simpl; try (by left); try (by right).
  - destruct (N.leb_spec n n0); [by left|]. right. apply N.leb_le. lia.
  - apply String.leb_total.
  - destruct (N.leb_spec i i0); [by left|]. right. apply N.leb_le. lia.
  - destruct b, b0; simpl; auto.
  - destruct (N.leb_spec t t0); [by left|]. right. apply N.leb_le. lia.
Qed.

Lemma in_order_total {A} (key : N * A -> SortKey) desc :
  Total (in_order key desc).
Proof.
  intros x y. unfold in_order. destruct desc.
  - destruct (key_leb_total (key y) (key x)) as [->| ->]; simpl; auto.
  - destruct (key_leb_total (key x) (key y)) as [->| ->]; simpl; auto.
Qed.

Lemma sort_docs_Sorted {A} (key : N * A -> SortKey) desc (l : list (N * A)) :
  Sorted (in_order key desc) (sort_docs key desc l).
Proof.
  unfold sort_docs.
  apply (Sorted_merge_sort (in_order key desc) (Total0 := in_order_total key desc)).
Qed.

Lemma Sorted_drop {B} (R : relation B) n (l : list B) :
  Sorted R l -> Sorted R (drop n l).
Proof.
  revert l. induction n as [|n IH]; intros l Hs; [done|].
  destruct l as [|x l]; [done|]. simpl. apply IH. by inversion Hs.
Qed.

Lemma Sorted_take {B} (R : relation B) n (l : list B) :
  Sorted R l -> Sorted R (take n l).
Proof.
  revert l. induction n as [|n IH]; intros l Hs; [constructor|].
  destruct l as [|x l]; [done|]. simpl. inversion Hs as [|? ? Hs' Hhd]; subst.
  constructor; [by apply IH|].
  destruct l as [|y l]; [destruct n; constructor|].
  destruct n; [constructor|]. simpl. constructor. by inversion Hhd.
Qed.

Lemma paginate_Sorted {B} (R : relation B) skip limit (l page : list B) :
  Sorted R l -> paginate skip limit l = Some page -> Sorted R page.
Proof.
  intros Hs. unfold paginate. destruct (skip <? 0)%Z; [done|].
  intros [= <-]. destruct (limit =? 0)%Z.
  - by apply Sorted_drop.
  - by apply Sorted_take, Sorted_drop.
Qed.

Lemma Sorted_weaken {B} (R R' : relation B) (l : list B) :
  (∀ x y, R x y -> R' x y) -> Sorted R l -> Sorted R' l.
Proof.
  intros Himp. induction 1 as [|x l Hs IH Hhd]; constructor; [done|].
  destruct Hhd; constructor. by apply Himp.
Qed.

Lemma listedC_Sorted env L q w :
  Sorted (in_order
            (Category.sort_key
               (bool_decide (default "desc" (Category.q_sortOrder q) = "desc"))
               (default "createdAt" (Category.q_sortBy q)))
            (bool_decide (default "desc" (Category.q_sortOrder q) = "desc")))
    (listedC (Category.getDocuments env L q w)).
Proof.
  unfold Category.getDocuments, listedC.
  destruct (negb _); [constructor|].
  destruct (paginate _ _ _) as [page|] eqn:Hpage; [|constructor]. simpl.
  eapply paginate_Sorted; [|exact Hpage]. apply sort_docs_Sorted.
Qed.

Lemma listedT_Sorted env L q w :
  Sorted (in_order
            (DocType.sort_key
               (bool_decide (default "desc" (DocType.q_sortOrder q) = "desc"))
               (default "createdAt" (DocType.q_sortBy q)))
            (bool_decide (default "desc" (DocType.q_sortOrder q) = "desc")))
    (listedT (DocType.getLawyerDocuments env L q w)).
Proof.
  unfold DocType.getLawyerDocuments, listedT.
  destruct (negb _); [constructor|].
  destruct (paginate _ _ _) as [page|] eqn:Hpage; [|constructor]. simpl.
  eapply paginate_Sorted; [|exact Hpage]. apply sort_docs_Sorted.
Qed.

(** X10.  A list request that names no sort returns the newest documents
    first; one that names no field, or [createdAt], and an order other than
    the word "desc" (so also "DESC" or "descending") returns the oldest
    first. *)
Theorem list_defaults_to_newest_first :
  (∀ env L q w,
     (Category.q_sortBy q = None -> Category.q_sortOrder q = None ->
      Sorted newer_firstC (listedC (Category.getDocuments env L q w)))
     ∧ (∀ order,
          default "createdAt" (Category.q_sortBy q) = "createdAt" ->
          Category.q_sortOrder q = Some order -> order ≠ "desc" ->
          Sorted older_firstC (listedC (Category.getDocuments env L q w))))
  ∧ (∀ env L q w,
     (DocType.q_sortBy q = None -> DocType.q_sortOrder q = None ->
      Sorted newer_firstT (listedT (DocType.getLawyerDocuments env L q w)))
     ∧ (∀ order,
          default "createdAt" (DocType.q_sortBy q) = "createdAt" ->
          DocType.q_sortOrder q = Some order -> order ≠ "desc" ->
          Sorted older_firstT
            (listedT (DocType.getLawyerDocuments env L q w)))).
Proof.
  split.
  - intros env L q w. pose proof (listedC_Sorted env L q w) as Hs. split.
    + intros Hby Hord. rewrite Hby, Hord in Hs. simpl in Hs.
      eapply Sorted_weaken; [|exact Hs].
      intros x y. unfold in_order, newer_firstC. simpl.
      intros H. by apply N.leb_le, Is_true_true.
    + intros order Hby Hord Hne. rewrite Hby, Hord in Hs. simpl in Hs.
      rewrite bool_decide_eq_false_2 in Hs by done.
      eapply Sorted_weaken; [|exact Hs].
      intros x y. unfold in_order, older_firstC. simpl.
      intros H. by apply N.leb_le, Is_true_true.
  - intros env L q w. pose proof (listedT_Sorted env L q w) as Hs. split.
    + intros Hby Hord. rewrite Hby, Hord in Hs. simpl in Hs.
      eapply Sorted_weaken; [|exact Hs].
      intros x y. unfold in_order, newer_firstT. simpl.
      intros H. by apply N.leb_le, Is_true_true.
    + intros order Hby Hord Hne. rewrite Hby, Hord in Hs. simpl in Hs.
      rewrite bool_decide_eq_false_2 in Hs by done.
      eapply Sorted_weaken; [|exact Hs].
      intros x y. unfold in_order, older_firstT. simpl.
      intros H. by apply N.leb_le, Is_true_true.
Qed.

(** The unfiltered list of lawyer 7 shows the will (uploaded at 2000) before
    the lease (uploaded at 1000). *)
Lemma list_defaults_to_newest_first_witness :
  Sorted newer_firstC
    (listedC (Category.getDocuments reading 7 noFilterC twoDocsC))
  ∧ (fst <$> listedC (Category.getDocuments reading 7 noFilterC twoDocsC))
    = [2%N; 1%N].
Proof.
  split; [|vm_compute; reflexivity].
  apply (proj1 list_defaults_to_newest_first reading 7%N noFilterC twoDocsC);
    reflexivity.
Defined.

(** ** Statistics *)

Lemma occurrences_cons k x (l : list string) :
  occurrences k (x :: l)
  = ((if decide (x = k) then 1 else 0) + occurrences k l)%N.
Proof.
  unfold occurrences. destruct (decide (x = k)) as [Heq|Hne].
  - rewrite filter_cons_True by done. simpl. lia.
  - rewrite filter_cons_False by done. lia.
Qed.

Lemma tally_acc_lookup (l : list string) : ∀ (acc : gmap string N) k,
  fold_left (fun acc k => <[k := (default 0 (acc !! k) + 1)%N]> acc) l acc !! k
  = if decide (occurrences k l = 0%N) then acc !! k
    else Some (default 0%N (acc !! k) + occurrences k l)%N.
Proof.
  induction l as [|x l IH]; intros acc k.
  - reflexivity.
  - cbn [fold_left]. rewrite IH, occurrences_cons.
    destruct (decide (x = k)) as [->|Hne].
    + rewrite lookup_insert_eq. simpl.
      repeat case_decide; try lia; f_equal; lia.
    + rewrite lookup_insert_ne by done.
      repeat case_decide; try lia; f_equal; lia.
Qed.

(** The count of a value is the number of its occurrences, and a value that
    does not occur is no key. *)
Lemma tally_lookup (l : list string) k :
  tally l !! k
  = if decide (occurrences k l = 0%N) then None else Some (occurrences k l).
Proof.
  unfold tally. rewrite tally_acc_lookup, lookup_empty. simpl.
  by destruct (decide _).
Qed.

Lemma sum_counts_insert_new (m : gmap string N) k n :
  m !! k = None -> sum_counts (<[k := n]> m) = (n + sum_counts m)%N.
Proof.
  intros Hk. unfold sum_counts.
  rewrite map_fold_insert_L; [done| |done]. intros. lia.
Qed.

Lemma sum_counts_bump (m : gmap string N) k :
  sum_counts (<[k := (default 0 (m !! k) + 1)%N]> m) = (sum_counts m + 1)%N.
Proof.
  destruct (m !! k) as [n|] eqn:Hk; simpl.
  - rewrite <- (insert_delete_eq m k (n + 1)%N).
    rewrite sum_counts_insert_new by apply lookup_delete_eq.
    rewrite <- (insert_id m k n Hk) at 2. rewrite <- insert_delete_eq.
    rewrite sum_counts_insert_new by apply lookup_delete_eq. lia.
  - rewrite sum_counts_insert_new by done. lia.
Qed.

Lemma sum_counts_tally (l : list string) :
  sum_counts (tally l) = N.of_nat (length l).
Proof.
  unfold tally. induction l as [|x l IH] using rev_ind; [done|].
  rewrite fold_left_app. simpl. rewrite sum_counts_bump, IH, length_app.
  simpl. lia.
Qed.

Lemma Model_find_ext {B} (p p' : B -> bool) (store : gmap N B) :
  (∀ d, p d = p' d) -> Model_find p store = Model_find p' store.
Proof.
  intros Hext. unfold Model_find. f_equal.
  apply map_filter_ext. intros i d _. simpl. by rewrite Hext.
Qed.

(** X11.  The static [getDocumentStats] of the schema, called with the
    identifiers as [ObjectId]s, ranges over the documents of that lawyer
    that are not deleted (of the given client, when there is one):
    [totalDocuments] is their number and [totalSize] the sum of their
    sizes; [byStatus] and [byCategory] give for each status and category
    the number of these documents that have it, have no key for a value
    none of them has, and their counts add up to [totalDocuments]. *)
Theorem stats_count_by_status_and_category :
  ∀ L c store,
    let group := snd <$> Model_find (countedC L c) store in
    let st := Category.Document_getDocumentStats (AsObjectId L)
                (AsObjectId <$> c) store in
    (∀ d, d ∈ group ↔ ∃ i, store !! i = Some d ∧ Category.lawyerId d = L
                           ∧ Category.isDeleted d = false
                           ∧ same_id c (Category.clientId d) = true)
    ∧ Category.totalDocuments st = N.of_nat (length group)
    ∧ Category.totalSize st
      = fold_right N.add 0%N (Category.fileSize <$> group)
    ∧ (∀ s, Category.byStatus st !! s
            = if decide (occurrences s (Category.status <$> group) = 0%N)
              then None
              else Some (occurrences s (Category.status <$> group)))
    ∧ (∀ s, Category.byCategory st !! s
            = if decide (occurrences s (Category.category <$> group) = 0%N)
              then None
              else Some (occurrences s (Category.category <$> group)))
    ∧ sum_counts (Category.byStatus st) = Category.totalDocuments st
    ∧ sum_counts (Category.byCategory st) = Category.totalDocuments st.
Proof.
  intros L c store group st. split.
  { intros d. unfold group. rewrite list_elem_of_fmap. split.
    - intros [[i d'] [-> Hin]]. apply Model_find_spec in Hin as [Hd Hc].
      exists i. unfold countedC in Hc.
      rewrite !andb_true_iff, negb_true_iff, N.eqb_eq in Hc. simpl. tauto.
    - intros (i & Hd & HL & Hdel & Hc). exists (i, d). split; [done|].
      apply Model_find_spec. split; [done|]. unfold countedC.
      rewrite HL, N.eqb_refl, Hdel, Hc. done. }
  assert (Hst : st = {| Category.totalDocuments := N.of_nat (length group);
                        Category.totalSize :=
                          fold_right N.add 0%N (Category.fileSize <$> group);
                        Category.byStatus := tally (Category.status <$> group);
                        Category.byCategory :=
                          tally (Category.category <$> group) |}).
  { unfold st, Category.Document_getDocumentStats.
    rewrite (Model_find_ext _ (countedC L c)).
    - change (snd <$> Model_find (countedC L c) store) with group.
      by destruct group.
    - intros d. unfold countedC, same_id. by destruct c. }
  rewrite Hst. simpl.
  split; [done|]. split; [done|].
  split; [intros s; apply tally_lookup|].
  split; [intros s; apply tally_lookup|].
  rewrite !sum_counts_tally, !length_fmap. done.
Qed.

Lemma Model_find_none {B} (p : B -> bool) (store : gmap N B) :
  (∀ d, p d = false) -> Model_find p store = [].
Proof.
  intros Hno. unfold Model_find.
  apply map_to_list_empty_iff, map_empty. intros i.
  apply map_lookup_filter_None. right. intros d _. simpl.
  rewrite Hno. exact id.
Qed.

(** X12.  The statistics that the handlers of documentController.js answer
    count nothing, whatever the collection holds: the handlers pass the
    identifiers of the request, which are strings, and the aggregation
    compares them with [ObjectId]s.  So the statistics call answers zeros,
    and a list response carries [totalItems], the number of documents its
    query matches, beside statistics with [totalDocuments = 0]. *)
Theorem handler_statistics_are_empty :
  (∀ L c w,
     Category.getDocumentStats L c w
     = Success 200 (Category.mkDocumentStats 0 0 ∅ ∅))
  ∧ (∀ env L q w c data,
     Category.getDocuments env L q w = Success c data ->
     Category.stats data = Category.mkDocumentStats 0 0 ∅ ∅
     ∧ totalItems (Category.pagination data)
       = Z.of_nat (length (Model_find (Category.list_query env L q)
                             (Category.docs w)))).
Proof.
  assert (Hzero : ∀ L c store,
            Category.Document_getDocumentStats (AsString L) c store
            = Category.mkDocumentStats 0 0 ∅ ∅).
  { intros L c store. unfold Category.Document_getDocumentStats.
    by rewrite Model_find_none. }
  split.
  - intros L c w. unfold Category.getDocumentStats. by rewrite Hzero.
  - intros env L q w c data. unfold Category.getDocuments.
    destruct (negb _); [done|].
    destruct (paginate _ _ _) as [page|]; [|done].
    intros [= _ <-]. simpl. by rewrite Hzero.
Qed.

(** Lawyer 7 lists two documents, and the statistics beside them count
    none. *)
Lemma handler_statistics_are_empty_witness :
  ∃ data,
    Category.getDocuments reading 7 noFilterC twoDocsC = Success 200 data
    ∧ totalItems (Category.pagination data) = 2%Z
    ∧ Category.totalDocuments (Category.stats data) = 0%N.
Proof.
  destruct (Category.getDocuments reading 7 noFilterC twoDocsC)
    as [c data| |] eqn:Hlist;
    try (exfalso; apply (f_equal succeeded) in Hlist; vm_compute in Hlist;
         discriminate).
  destruct (proj2 handler_statistics_are_empty reading 7%N noFilterC twoDocsC
              c data Hlist) as [Hstats Htotal].
  assert (Hc : c = 200%N).
  { assert (Hv : match Category.getDocuments reading 7 noFilterC twoDocsC with
                 | Success code _ => code
                 | _ => 0%N
                 end = 200%N) by (vm_compute; reflexivity).
    by rewrite Hlist in Hv. }
  subst c. exists data. split; [done|]. split.
  - rewrite Htotal. vm_compute. reflexivity.
  - by rewrite Hstats.
Defined.

(** ** Uploads *)

Lemma find_some_existsb {B} (p : B -> bool) (l : list B) :
  existsb p l = true -> ∃ x, List.find p l = Some x ∧ In x l ∧ p x = true.
Proof.
  induction l as [|x l IH]; simpl; [done|].
  destruct (p x) eqn:Hx; simpl.
  - intros _. exists x. auto.
  - intros (y & Hy & Hin & Hp)%IH. exists y. auto.
Qed.

(** X13.  An upload that passes validation and the relationship check but
    carries no file, or a file part without a file name, is answered 400
    "No file uploaded" (by both controllers when there is no file, by
    documentController.js for the part without a name, whatever its type),
    and one whose named file is of a type outside the allowed list is
    answered 400 by documentController.js; nothing is written to disk and
    no record is created. *)
Theorem upload_without_acceptable_file_is_refused :
  (∀ env req w,
     Category.up_errors req = [] ->
     not_archived (Category.up_user req)
       (Category.body_clientId (Category.up_body req))
       (Category.relationships w) = true ->
     (Category.up_file req = None ->
      Category.uploadDocument env req w = (Failure 400 "No file uploaded", w))
     ∧ (∀ f, Category.up_file req = Some f ->
             part_originalname f = EmptyString ->
             Category.uploadDocument env req w
             = (Failure 400 "No file uploaded", w))
     ∧ (∀ f, Category.up_file req = Some f ->
             part_originalname f ≠ EmptyString ->
             part_fieldname f = "document" ->
             fileFilter (part_mimetype f) = false ->
             Category.uploadDocument env req w
             = (Failure 400
                  "Invalid file type. Only PDF, Word, Excel, images, and archives are allowed.",
                w)))
  ∧ (∀ env req w,
     DocType.up_errors req = [] ->
     active_or_pending (DocType.up_user req)
       (DocType.body_clientId (DocType.up_body req))
       (DocType.relationships w) = true ->
     DocType.up_file req = None ->
     DocType.uploadDocument env req w = (Failure 400 "No file uploaded", w)).
Proof.
  split.
  - intros env req w Herr Hrel.
    apply find_some_existsb in Hrel as (lc & Hlc & _).
    unfold Category.uploadDocument, LawyerClient_findOne. rewrite Herr, Hlc.
    split; [|split].
    + intros ->. reflexivity.
    + intros f -> Hname. unfold upload_single. by rewrite Hname.
    + intros f -> Horig Hname Hbad. unfold upload_single.
      destruct (String.eqb_spec (part_originalname f) EmptyString); [done|].
      by rewrite Hname, Hbad.
  - intros env req w Herr Hrel Hfile.
    unfold DocType.uploadDocument, LawyerClient_findOne. rewrite Herr.
    assert (Hfind : ∃ lc, List.find
              (λ lc, (lc_lawyerId lc =? DocType.up_user req)%N
                     && bool_decide (Some (lc_clientId lc)
                                     = DocType.body_clientId (DocType.up_body req))
                     && existsb (String.eqb (lc_status lc)) ["active"; "pending"])
              (DocType.relationships w) = Some lc).
    { unfold active_or_pending in Hrel.
      induction (DocType.relationships w) as [|x l IH]; simpl in *; [done|].
      rewrite orb_false_r.
      destruct (_ && _ && _); simpl in *; eauto. }
    destruct Hfind as [lc ->]. by rewrite Hfile.
Qed.

(** Lawyer 7 sends an executable. *)
Lemma upload_without_acceptable_file_is_refused_witness :
  (Category.uploadDocument (mkEnv 1000 5 1 true)
     (Category.mkUploadRequest 7 [] (Category.up_body uploadLease)
        (Some (mkFilePart "document" "setup.exe" "application/x-msdownload"
                 [Byte.x4d; Byte.x5a])))
     officeC).2 = officeC.
Proof.
  destruct (proj1 upload_without_acceptable_file_is_refused
              (mkEnv 1000 5 1 true)
              (Category.mkUploadRequest 7 [] (Category.up_body uploadLease)
                 (Some (mkFilePart "document" "setup.exe"
                          "application/x-msdownload" [Byte.x4d; Byte.x5a])))
              officeC eq_refl eq_refl) as (_ & _ & Hbad).
  by rewrite (Hbad _ eq_refl ltac:(discriminate) eq_refl eq_refl).
Defined.

(** What [Document.create] of the category variant stores. *)
Lemma Document_createC_fields env n store i d store' :
  Category.Document_create env n store = Some (i, d, store') ->
  Category.validate d = true
  ∧ Some (Category.clientId d) = Category.new_clientId n
  ∧ Category.lawyerClientId d = Category.new_lawyerClientId n
  ∧ Category.uploadedBy d = Category.new_uploadedBy n
  ∧ Category.originalFileName d = Category.new_originalFileName n
  ∧ Category.fileSize d = Category.new_fileSize n
  ∧ Category.mimeType d = Category.new_mimeType n
  ∧ Category.status d = "pending_review"
  ∧ Category.reviewedBy d = None ∧ Category.reviewedAt d = None
  ∧ Category.createdAt d = now env.
Proof.
  unfold Category.Document_create.
  destruct (Category.new_clientId n), (Category.new_title n); try done.
  destruct (Category.validate _ && persist env) eqn:Hok; [|done].
  apply andb_true_iff in Hok as [Hv _].
  destruct (store !! newId env); [done|].
  intros [= <- <- <-]. done.
Qed.

Lemma upload_single_stored env part files file stored :
  upload_single env part files = MulterStored file stored ->
  ∃ f, part = Some f
       ∧ part_originalname f ≠ EmptyString
       ∧ fileFilter (part_mimetype f) = true
       ∧ (N.of_nat (length (part_content f)) < fileSizeLimit)%N
       ∧ originalname file = part_originalname f
       ∧ mimetype file = part_mimetype f
       ∧ size file = N.of_nat (length (part_content f))
       ∧ filename file = storage_filename env f
       ∧ path file = uploadDir ++ "/" ++ storage_filename env f
       ∧ stored = <[path file := part_content f]> files.
Proof.
  unfold upload_single. destruct part as [f|]; [|done].
  destruct (String.eqb_spec (part_originalname f) EmptyString); [done|].
  destruct (negb (String.eqb _ _)); [done|].
  destruct (fileFilter _) eqn:Hok; [|done]. simpl.
  destruct (_ <=? _)%N eqn:Hsz; [done|]. apply N.leb_gt in Hsz.
  intros [= <- <-]. exists f. simpl. done.
Qed.

Lemma fileFilter_allowed m : fileFilter m = true -> In m allowedTypes.
Proof.
  unfold fileFilter. intros (x & Hin & Heq)%existsb_exists.
  apply String.eqb_eq in Heq. by subst.
Qed.

(** Every type the filter allows can go into a header. *)
Lemma fileFilter_header m :
  fileFilter m = true -> Str.header_value m = true.
Proof.
  intros Hm%fileFilter_allowed. simpl in Hm.
  repeat (destruct Hm as [<-|Hm]; [reflexivity|]). done.
Qed.

(** A valid document stays valid for [save] when the fields the validators
    read are as they were. *)
Lemma validate_modified_of_validate d d' :
  Category.validate d = true ->
  Category.title d' = Category.title d ->
  Category.fileName d' = Category.fileName d ->
  Category.originalFileName d' = Category.originalFileName d ->
  Category.filePath d' = Category.filePath d ->
  Category.mimeType d' = Category.mimeType d ->
  Category.description d' = Category.description d ->
  Category.category d' = Category.category d ->
  Category.status d' = Category.status d ->
  Category.priority d' = Category.priority d ->
  Category.tags d' = Category.tags d ->
  Category.reviewNotes d' = Category.reviewNotes d ->
  Category.validate_modified d d' = true.
Proof.
  unfold Category.validate, Category.validate_modified.
  rewrite !andb_true_iff.
  intros (((((((((((? & ?) & ?) & ?) & ?) & ?) & ?) & ?) & ?) & ?) & ?) & ?).
  intros -> -> -> -> -> -> -> -> -> -> ->.
  rewrite !bool_decide_eq_true_2 by done. simpl. done.
Qed.

(** A successful upload of the category variant with everything that went
    into the record. *)
Lemma uploadC_created env req w c i d w' :
  Category.uploadDocument env req w = (Success c (i, d), w') ->
  ∃ lc file,
    c = 201%N
    ∧ Category.up_errors req = []
    ∧ In lc (Category.relationships w)
    ∧ lc_lawyerId lc = Category.up_user req
    ∧ Some (lc_clientId lc) = Category.body_clientId (Category.up_body req)
    ∧ lc_isArchived lc = false
    ∧ upload_single env (Category.up_file req) (Category.files w)
      = MulterStored file (Category.files w')
    ∧ Category.Document_create env
        {| Category.new_lawyerId := Category.up_user req;
           Category.new_clientId :=
             Category.body_clientId (Category.up_body req);
           Category.new_lawyerClientId := lc_id lc;
           Category.new_title := Category.body_title (Category.up_body req);
           Category.new_description :=
             Category.body_description (Category.up_body req);
           Category.new_fileName := filename file;
           Category.new_originalFileName := originalname file;
           Category.new_filePath := path file;
           Category.new_fileSize := size file;
           Category.new_mimeType := mimetype file;
           Category.new_category :=
             or_else (Category.body_category (Category.up_body req)) "other";
           Category.new_priority :=
             or_else (Category.body_priority (Category.up_body req)) "medium";
           Category.new_tags :=
             match truthy (Category.body_tags (Category.up_body req)) with
             | Some t => Str.trim <$> Str.split ","%char t
             | None => []
             end;
           Category.new_uploadedBy := Category.up_user req |}
        (Category.docs w)
      = Some (i, d, Category.docs w')
    ∧ Category.relationships w' = Category.relationships w.
Proof.
  unfold Category.uploadDocument.
  destruct (Category.up_errors req); [|done].
  destruct (LawyerClient_findOne _ _) as [lc|] eqn:Hlc; [|done].
  destruct (upload_single _ _ _) as [| |file stored] eqn:Hup; try done.
  destruct (Category.Document_create _ _ _) as [[[i' d'] store]|] eqn:Hc;
    [|done].
  intros [= <- <- <- <-]. simpl. exists lc, file.
  apply find_some in Hlc as [Hin Hp].
  rewrite !andb_true_iff, N.eqb_eq, bool_decide_eq_true, negb_true_iff in Hp.
  destruct Hp as [[? ?] ?]. done.
Qed.

(** X14.  What was uploaded is what is downloaded, when its name can go
    into a header: after a successful upload to documentController.js, a
    download of the new document by the uploader (the database taking the
    write of the counter) answers 200 with the bytes, the MIME type, the
    original name and the size of the uploaded file.  When the name cannot
    go into a header (it has a character above U+00FF, or a control
    character), the download is answered 500.  The counter of the document
    is 1 in both cases. *)
Theorem upload_then_download_returns_the_file :
  ∀ env env2 req w c i d w' f,
    Category.uploadDocument env req w = (Success c (i, d), w') ->
    Category.up_file req = Some f ->
    persist env2 = true ->
    (Str.header_value (part_originalname f) = true ->
     (Category.downloadDocument env2 (Category.up_user req) i w').1
     = Success 200
         {| Category.contentType := part_mimetype f;
            Category.attachment := part_originalname f;
            Category.contentLength := N.of_nat (length (part_content f));
            Category.bytes := part_content f |})
    ∧ (Str.header_value (part_originalname f) = false ->
       (Category.downloadDocument env2 (Category.up_user req) i w').1
       = Failure 500 "Failed to download document")
    ∧ countC i (Category.downloadDocument env2 (Category.up_user req) i w').2
      = Some 1%N.
Proof.
  intros env env2 req w c i d w' f Hup Hf Hp.
  apply uploadC_created in Hup
    as (lc & file & _ & _ & _ & _ & _ & _ & Hstore & Hc & _).
  apply upload_single_stored in Hstore
    as (f' & Hf' & _ & Hfilter & _ & Hname & Hmime & Hsize & _ & _ & Hstored).
  assert (f' = f) as -> by congruence.
  apply fileFilter_header in Hfilter.
  pose proof (Document_createC_fields _ _ _ _ _ _ Hc)
    as (Hvalid & _ & _ & _ & Horig & Hfsize & Hfmime & _).
  apply Document_createC_inv in Hc
    as (_ & Hdel & Hcount & Hlaw & Hfp & _ & _ & _ & Hdocs).
  simpl in *.
  assert (Hd : Category.docs w' !! i = Some d)
    by (rewrite Hdocs; apply lookup_insert_eq).
  assert (Hfile : Category.files w' !! Category.filePath d
                  = Some (part_content f)).
  { rewrite Hstored, Hfp. apply lookup_insert_eq. }
  unfold Category.downloadDocument, Category.Document_findOne.
  rewrite Hd, Hlaw, N.eqb_refl, Hdel. cbn [negb andb]. rewrite Hfile.
  unfold Category.Document_save.
  rewrite pre_saveC_same_status by done.
  rewrite (validate_modified_of_validate d _ Hvalid) by reflexivity.
  destruct (decide _) as [Heq|_].
  { apply (f_equal Category.downloadCount) in Heq. simpl in Heq. lia. }
  rewrite Hp.
  cbn [Category.touch Category.mimeType Category.originalFileName
       Category.fileSize].
  rewrite Hfmime, Horig, Hfsize, Hmime, Hname, Hsize, Hfilter. cbn [andb].
  unfold countC.
  destruct (Str.header_value (part_originalname f));
    cbn [fst snd Category.docs]; rewrite lookup_insert_eq; simpl;
    rewrite Hcount; done.
Qed.

(** Lawyer 7 uploads the lease and downloads it. *)
Lemma upload_then_download_returns_the_file_witness :
  bytesC
    (Category.downloadDocument (mkEnv 1500 0 0 true) 7 1
       (Category.uploadDocument (mkEnv 1000 5 1 true)
          uploadLease officeC).2).1
  = Some [Byte.x25; Byte.x50].
Proof.
  destruct (upload_then_download_returns_the_file
              (mkEnv 1000 5 1 true)
              (mkEnv 1500 0 0 true) uploadLease officeC
              201%N 1%N leaseC
              (Category.uploadDocument (mkEnv 1000 5 1 true)
                 uploadLease officeC).2
              leasePart) as [Hdl _];
    [vm_compute; reflexivity | reflexivity | reflexivity |].
  simpl in Hdl. by rewrite (Hdl eq_refl).
Defined.

(** X15.  The record of a successful upload to documentController.js
    belongs to the caller, who is also its uploader, and to the client
    named in the body; caller and client are linked by a relationship that
    is not archived, whose identifier the record carries.  The record is
    new (status pending_review, no review, not deleted, never downloaded),
    it is added under an identifier that was free, and every other record
    is as before. *)
Theorem upload_creates_a_linked_record :
  ∀ env req w c i d w',
    Category.uploadDocument env req w = (Success c (i, d), w') ->
    c = 201%N
    ∧ Category.lawyerId d = Category.up_user req
    ∧ Category.uploadedBy d = Category.up_user req
    ∧ Some (Category.clientId d) = Category.body_clientId (Category.up_body req)
    ∧ (∃ lc, In lc (Category.relationships w)
             ∧ lc_id lc = Category.lawyerClientId d
             ∧ lc_lawyerId lc = Category.lawyerId d
             ∧ lc_clientId lc = Category.clientId d
             ∧ lc_isArchived lc = false)
    ∧ Category.status d = "pending_review"
    ∧ Category.reviewedBy d = None ∧ Category.reviewedAt d = None
    ∧ Category.isDeleted d = false ∧ Category.downloadCount d = 0%N
    ∧ Category.createdAt d = now env
    ∧ Category.docs w !! i = None
    ∧ Category.docs w' = <[i := d]> (Category.docs w)
    ∧ stdpp.base.size (Category.docs w') = S (stdpp.base.size (Category.docs w)).
Proof.
  intros env req w c i d w' Hup.
  apply uploadC_created in Hup
    as (lc & file & -> & _ & Hin & HlcL & HlcC & Harch & _ & Hc & _).
  pose proof (Document_createC_fields _ _ _ _ _ _ Hc)
    as (_ & Hclient & Hlcid & Hby & _ & _ & _ & Hst & Hrb & Hra & Hcr).
  apply Document_createC_inv in Hc
    as (_ & Hdel & Hcount & Hlaw & _ & _ & _ & Hfree & Hdocs).
  simpl in *.
  split; [done|]. split; [done|]. split; [done|]. split; [done|].
  split.
  { exists lc. split; [done|]. split; [done|]. split; [congruence|].
    split; [congruence|done]. }
  split; [done|]. split; [done|]. split; [done|]. split; [done|].
  split; [done|]. split; [done|]. split; [done|]. split; [done|].
  rewrite Hdocs. by apply map_size_insert_None.
Qed.

Lemma upload_creates_a_linked_record_witness :
  Category.lawyerId leaseC = 7%N ∧ Category.uploadedBy leaseC = 7%N
  ∧ Category.clientId leaseC = 9%N ∧ Category.lawyerClientId leaseC = 100%N.
Proof.
  destruct (upload_creates_a_linked_record
              (mkEnv 1000 5 1 true) uploadLease
              officeC 201%N 1%N leaseC
              (Category.uploadDocument (mkEnv 1000 5 1 true)
                 uploadLease officeC).2)
    as (_ & HL & Hby & _); [vm_compute; reflexivity|].
  split; [exact HL|]. split; [exact Hby|]. split; reflexivity.
Defined.

(** ** Trimming *)

(** What [ltrim] leaves is the end of the list. *)
Lemma ltrim_suffix (l : list ascii) : ∃ p, l = (p ++ Str.ltrim l)%list.
Proof.
  assert (H : ∀ n (l : list ascii),
            (length l <= n)%nat -> ∃ p, l = (p ++ Str.ltrim l)%list).
  { clear l. induction n as [|n IH]; intros l Hn.
    - destruct l; [by exists []|simpl in Hn; lia].
    - destruct l as [|a l1]; [by exists []|]. cbn [Str.ltrim].
      destruct (Str.space1 a).
      { destruct (IH l1) as [p Hp]; [simpl in Hn; lia|].
        exists (a :: p). simpl. by rewrite <- Hp. }
      destruct l1 as [|b l2]; [by exists []|].
      destruct (Str.space2 a b).
      { destruct (IH l2) as [p Hp]; [simpl in Hn; lia|].
        exists (a :: b :: p). simpl. by rewrite <- Hp. }
      destruct l2 as [|c l3]; [by exists []|].
      destruct (Str.space3 a b c); [|by exists []].
      destruct (IH l3) as [p Hp]; [simpl in Hn; lia|].
      exists (a :: b :: c :: p). simpl. by rewrite <- Hp. }
  by apply (H (length l)).
Qed.

Lemma ltrim_rev_suffix (l : list ascii) :
  ∃ p, l = (p ++ Str.ltrim_rev l)%list.
Proof.
  assert (H : ∀ n (l : list ascii),
            (length l <= n)%nat -> ∃ p, l = (p ++ Str.ltrim_rev l)%list).
  { clear l. induction n as [|n IH]; intros l Hn.
    - destruct l; [by exists []|simpl in Hn; lia].
    - destruct l as [|a l1]; [by exists []|]. cbn [Str.ltrim_rev].
      destruct (Str.space1 a).
      { destruct (IH l1) as [p Hp]; [simpl in Hn; lia|].
        exists (a :: p). simpl. by rewrite <- Hp. }
      destruct l1 as [|b l2]; [by exists []|].
      destruct (Str.space2 b a).
      { destruct (IH l2) as [p Hp]; [simpl in Hn; lia|].
        exists (a :: b :: p). simpl. by rewrite <- Hp. }
      destruct l2 as [|c l3]; [by exists []|].
      destruct (Str.space3 c b a); [|by exists []].
      destruct (IH l3) as [p Hp]; [simpl in Hn; lia|].
      exists (a :: b :: c :: p). simpl. by rewrite <- Hp. }
  by apply (H (length l)).
Qed.

Lemma ltrim_length (l : list ascii) : (length (Str.ltrim l) <= length l)%nat.
Proof.
  destruct (ltrim_suffix l) as [p Hp]. rewrite Hp at 2.
  rewrite length_app. lia.
Qed.

(** A list that [ltrim] leaves as it is starts with no white space, and
    so does every list it starts with. *)
Lemma ltrim_fixed_prefix (t q : list ascii) :
  Str.ltrim (t ++ q) = (t ++ q)%list -> Str.ltrim t = t.
Proof.
  intros Hfix.
  assert (Hshort : ∀ r : list ascii,
            (length r < length (t ++ q)%list)%nat ->
            Str.ltrim r ≠ (t ++ q)%list).
  { intros r Hr Heq. pose proof (ltrim_length r) as Hle.
    rewrite Heq in Hle. lia. }
  destruct t as [|a t1]; [done|]. cbn [app Str.ltrim] in Hfix |- *.
  destruct (Str.space1 a).
  { exfalso. apply (Hshort (t1 ++ q)%list); [simpl; lia|done]. }
  destruct t1 as [|b t2]; [done|]. cbn [app] in Hfix |- *.
  destruct (Str.space2 a b).
  { exfalso. apply (Hshort (t2 ++ q)%list); [simpl; lia|done]. }
  destruct t2 as [|c t3]; [done|]. cbn [app] in Hfix |- *.
  destruct (Str.space3 a b c); [|done].
  exfalso. apply (Hshort (t3 ++ q)%list); [simpl; lia|done].
Qed.

Lemma ltrim_idem (l : list ascii) : Str.ltrim (Str.ltrim l) = Str.ltrim l.
Proof.
  assert (H : ∀ n (l : list ascii),
            (length l <= n)%nat -> Str.ltrim (Str.ltrim l) = Str.ltrim l).
  { clear l. induction n as [|n IH]; intros l Hn.
    - destruct l; [done|simpl in Hn; lia].
    - destruct l as [|a l1]; [done|]. cbn [Str.ltrim].
      destruct (Str.space1 a) eqn:H1; [apply IH; simpl in Hn; lia|].
      destruct l1 as [|b l2]; [cbn [Str.ltrim]; by rewrite H1|].
      destruct (Str.space2 a b) eqn:H2; [apply IH; simpl in Hn; lia|].
      destruct l2 as [|c l3]; [cbn [Str.ltrim]; by rewrite H1, H2|].
      destruct (Str.space3 a b c) eqn:H3; [apply IH; simpl in Hn; lia|].
      cbn [Str.ltrim]. by rewrite H1, H2, H3. }
  by apply (H (length l)).
Qed.

Lemma ltrim_rev_idem (l : list ascii) :
  Str.ltrim_rev (Str.ltrim_rev l) = Str.ltrim_rev l.
Proof.
  assert (H : ∀ n (l : list ascii),
            (length l <= n)%nat ->
            Str.ltrim_rev (Str.ltrim_rev l) = Str.ltrim_rev l).
  { clear l. induction n as [|n IH]; intros l Hn.
    - destruct l; [done|simpl in Hn; lia].
    - destruct l as [|a l1]; [done|]. cbn [Str.ltrim_rev].
      destruct (Str.space1 a) eqn:H1; [apply IH; simpl in Hn; lia|].
      destruct l1 as [|b l2]; [cbn [Str.ltrim_rev]; by rewrite H1|].
      destruct (Str.space2 b a) eqn:H2; [apply IH; simpl in Hn; lia|].
      destruct l2 as [|c l3]; [cbn [Str.ltrim_rev]; by rewrite H1, H2|].
      destruct (Str.space3 c b a) eqn:H3; [apply IH; simpl in Hn; lia|].
      cbn [Str.ltrim_rev]. by rewrite H1, H2, H3. }
  by apply (H (length l)).
Qed.

(** The characters of a trimmed string: a run that neither starts nor ends
    with white space. *)
Lemma trim_chars (l : list ascii) :
  let t := rev (Str.ltrim_rev (rev (Str.ltrim l))) in
  Str.ltrim t = t ∧ Str.ltrim_rev (rev t) = rev t.
Proof.
  simpl. split.
  - destruct (ltrim_rev_suffix (rev (Str.ltrim l))) as [p Hp].
    apply (ltrim_fixed_prefix _ (rev p)).
    rewrite <- rev_app_distr, <- Hp, rev_involutive. apply ltrim_idem.
  - rewrite rev_involutive. apply ltrim_rev_idem.
Qed.

Lemma trim_idem (s : string) : Str.trim (Str.trim s) = Str.trim s.
Proof.
  unfold Str.trim. rewrite list_ascii_of_string_of_list_ascii.
  destruct (trim_chars (list_ascii_of_string s)) as [Hl Hr].
  by rewrite Hl, Hr, rev_involutive.
Qed.

Lemma in_ltrim c (l : list ascii) : In c (Str.ltrim l) -> In c l.
Proof.
  destruct (ltrim_suffix l) as [p Hp]. intros Hin. rewrite Hp.
  apply in_or_app. by right.
Qed.

Lemma in_ltrim_rev c (l : list ascii) : In c (Str.ltrim_rev l) -> In c l.
Proof.
  destruct (ltrim_rev_suffix l) as [p Hp]. intros Hin. rewrite Hp.
  apply in_or_app. by right.
Qed.

(** Trimming adds no character. *)
Lemma in_trim c s :
  In c (list_ascii_of_string (Str.trim s)) -> In c (list_ascii_of_string s).
Proof.
  unfold Str.trim. rewrite list_ascii_of_string_of_list_ascii.
  by intros Hin%in_rev%in_ltrim_rev%in_rev%in_ltrim.
Qed.

(** ** Strings of ASCII characters *)

Lemma ascii_only_cons c s :
  ascii_only (String c s) = (N_of_ascii c <? 128)%N && ascii_only s.
Proof. reflexivity. Qed.

Lemma ascii_only_trim s : ascii_only s = true -> ascii_only (Str.trim s) = true.
Proof.
  unfold ascii_only. rewrite !forallb_forall.
  intros Hall c Hin. by apply Hall, in_trim.
Qed.

Lemma ascii_units s : ascii_only s = true -> Str.units s = String.length s.
Proof.
  induction s as [|c s IH]; [done|].
  rewrite ascii_only_cons. intros [Hc Hs]%andb_true_iff.
  cbn [Str.units String.length]. rewrite IH by done.
  unfold Str.unit_weight. apply N.ltb_lt in Hc.
  destruct (N.leb_spec 128 (N_of_ascii c)); [lia|].
  destruct (N.leb_spec 240 (N_of_ascii c)); [lia|]. done.
Qed.

Lemma ascii_code_points s :
  ascii_only s = true -> CategoryRoutes.code_points s = String.length s.
Proof.
  induction s as [|c s IH]; [done|].
  rewrite ascii_only_cons. intros [Hc Hs]%andb_true_iff.
  cbn [CategoryRoutes.code_points String.length]. rewrite IH by done.
  unfold CategoryRoutes.continuation. apply N.ltb_lt in Hc.
  destruct (N.leb_spec 128 (N_of_ascii c)); [lia|]. done.
Qed.

Lemma ascii_selectors s :
  ascii_only s = true -> CategoryRoutes.selectors s = 0%nat.
Proof.
  induction s as [|a s IH]; [done|].
  rewrite ascii_only_cons. intros [Ha Hs]%andb_true_iff.
  cbn [CategoryRoutes.selectors]. rewrite IH by done.
  destruct s as [|b [|c s]]; try done.
  destruct (Ascii.eqb_spec a "239") as [->|_]; [done|]. done.
Qed.

(** On an ASCII string the validator of a route and the validator of the
    schema measure the same length. *)
Lemma isLength_ascii min max s :
  ascii_only s = true ->
  CategoryRoutes.isLength min max s = true ->
  (min <= String.length s)%nat ∧ (Str.units s <= max)%nat.
Proof.
  intros Hs. unfold CategoryRoutes.isLength.
  rewrite ascii_code_points, ascii_selectors, ascii_units by done.
  rewrite andb_true_iff, !Nat.leb_le. lia.
Qed.

(** ** Requests that pass the validators of the routes *)

Lemma check_nil ok message :
  CategoryRoutes.check ok message = [] ↔ ok = true.
Proof. unfold CategoryRoutes.check. by destruct ok. Qed.

Lemma at_most_spec n s :
  Category.at_most n s = true ↔ (Str.units s <= n)%nat.
Proof. unfold Category.at_most. apply Nat.leb_le. Qed.

Lemma nonempty_spec s : Category.nonempty s = true ↔ s ≠ EmptyString.
Proof. destruct s; simpl; split; done. Qed.

Lemma optional_check_message field (p : string -> bool) m m' :
  CategoryRoutes.optional field (fun v => CategoryRoutes.check (p v) m) = [] ->
  CategoryRoutes.optional field (fun v => CategoryRoutes.check (p v) m') = [].
Proof. destruct field as [v|]; simpl; [|done]. by destruct (p v). Qed.

Lemma short_tags_stored tags :
  short_tags tags ->
  forallb (Category.at_most 50)
    (Str.trim <$> match truthy tags with
                  | Some t => Str.trim <$> Str.split ","%char t
                  | None => []
                  end) = true.
Proof.
  unfold short_tags. destruct (truthy tags) as [t|]; [|done].
  intros Hshort. apply forallb_forall. intros x Hx.
  apply list_elem_of_In, list_elem_of_fmap in Hx as (y & -> & Hy).
  apply list_elem_of_fmap in Hy as (piece & -> & Hpiece).
  apply at_most_spec. rewrite trim_idem. by apply Hshort.
Qed.

Lemma validate_intro d :
  Category.title d ≠ EmptyString ->
  (Str.units (Category.title d) <= 200)%nat ->
  (∀ v, Category.description d = Some v -> (Str.units v <= 1000)%nat) ->
  Category.fileName d ≠ EmptyString ->
  Category.originalFileName d ≠ EmptyString ->
  Category.filePath d ≠ EmptyString ->
  Category.mimeType d ≠ EmptyString ->
  Category.one_of Category.categories (Category.category d) = true ->
  Category.one_of Category.statuses (Category.status d) = true ->
  Category.one_of Category.priorities (Category.priority d) = true ->
  forallb (Category.at_most 50) (Category.tags d) = true ->
  (∀ v, Category.reviewNotes d = Some v -> (Str.units v <= 1000)%nat) ->
  Category.validate d = true.
Proof.
  intros Ht1 Ht2 Hdesc Hfn Hon Hfp Hmt Hcat Hst Hpr Htags Hnotes.
  unfold Category.validate.
  rewrite !(proj2 (nonempty_spec _)) by done.
  rewrite (proj2 (at_most_spec _ _)) by done.
  rewrite Hcat, Hst, Hpr, Htags. simpl.
  assert (Hd : match Category.description d with
               | Some s => Category.at_most 1000 s
               | None => true
               end = true).
  { destruct (Category.description d) as [v|]; [|done].
    apply at_most_spec. by apply Hdesc. }
  assert (Hn : match Category.reviewNotes d with
               | Some s => Category.at_most 1000 s
               | None => true
               end = true).
  { destruct (Category.reviewNotes d) as [v|]; [|done].
    apply at_most_spec. by apply Hnotes. }
  by rewrite Hd, Hn.
Qed.

Lemma validate_elim d :
  Category.validate d = true ->
  Category.title d ≠ EmptyString
  ∧ (Str.units (Category.title d) <= 200)%nat
  ∧ (∀ v, Category.description d = Some v -> (Str.units v <= 1000)%nat)
  ∧ Category.fileName d ≠ EmptyString
  ∧ Category.originalFileName d ≠ EmptyString
  ∧ Category.filePath d ≠ EmptyString
  ∧ Category.mimeType d ≠ EmptyString
  ∧ Category.one_of Category.categories (Category.category d) = true
  ∧ Category.one_of Category.statuses (Category.status d) = true
  ∧ Category.one_of Category.priorities (Category.priority d) = true
  ∧ forallb (Category.at_most 50) (Category.tags d) = true
  ∧ (∀ v, Category.reviewNotes d = Some v -> (Str.units v <= 1000)%nat).
Proof.
  unfold Category.validate. rewrite !andb_true_iff.
  intros (((((((((((Ht1 & Ht2) & Hd) & Hfn) & Hon) & Hfp) & Hmt) & Hcat) & Hst)
            & Hpr) & Htags) & Hn).
  apply nonempty_spec in Ht1, Hfn, Hon, Hfp, Hmt. apply at_most_spec in Ht2.
  split; [done|]. split; [done|]. split.
  { intros v Hv. rewrite Hv in Hd. by apply at_most_spec. }
  split; [done|]. split; [done|]. split; [done|]. split; [done|].
  split; [done|]. split; [done|]. split; [done|]. split; [done|].
  intros v Hv. rewrite Hv in Hn. by apply at_most_spec.
Qed.

Lemma or_else_one_of_kept (l : list string) field current :
  CategoryRoutes.optional field
    (fun v => CategoryRoutes.check (Category.one_of l v) "x") = [] ->
  Category.one_of l current = true ->
  Category.one_of l (or_else field current) = true.
Proof.
  intros Hok Hcur. unfold or_else, truthy.
  destruct field as [v|]; [|done]. simpl in Hok. apply check_nil in Hok.
  by destruct (String.eqb v EmptyString).
Qed.

(** X16.  No request to POST /upload stores a document.  The validators of
    the route and the first lines of the handler read the body before the
    multipart middleware, which the handler calls itself, has parsed it: a
    multipart request, the only kind that carries a file, is answered 400
    "Validation errors", whatever its fields; a request whose body a body
    parser has read has no file, and is answered 400 or 404.  The world is
    as before in every case. *)
Theorem upload_route_never_stores :
  (∀ env user fields file w,
     CategoryRoutes.post_upload env user
       (CategoryRoutes.Multipart fields file) w
     = (Failure 400 "Validation errors", w))
  ∧ (∀ env user body w,
     CategoryRoutes.post_upload env user (CategoryRoutes.Parsed body) w
     = (Failure 400 "Validation errors", w)
     ∨ CategoryRoutes.post_upload env user (CategoryRoutes.Parsed body) w
       = (Failure 404 "Client relationship not found", w)
     ∨ CategoryRoutes.post_upload env user (CategoryRoutes.Parsed body) w
       = (Failure 400 "No file uploaded", w)).
Proof.
  split.
  - reflexivity.
  - intros env user body w.
    unfold CategoryRoutes.post_upload, Category.uploadDocument.
    cbn [Category.up_errors Category.up_file Category.up_body Category.up_user].
    destruct (CategoryRoutes.validateUploadDocument body); [|by left].
    destruct (LawyerClient_findOne _ _); [|by right; left].
    right. right. reflexivity.
Qed.

(** X17.  A request to PUT /:id whose text fields are ASCII succeeds
    whenever it passes the validators of the route, the document is the
    caller's, not deleted and valid as stored, no tag that the tags string
    of the patch gives is longer than fifty characters, and the database
    takes the write: the answer is 200 with the document as it is then
    stored.  (The validators of the route count code points and those of
    the schema code units; on ASCII text the two agree.) *)
Theorem validated_update_succeeds :
  ∀ env user id b w d,
    CategoryRoutes.validateUpdateDocument b = [] ->
    plain_text (Category.patch_title b) ->
    plain_text (Category.patch_description b) ->
    plain_text (Category.patch_reviewNotes b) ->
    Category.docs w !! id = Some d ->
    Category.lawyerId d = user -> Category.isDeleted d = false ->
    Category.validate d = true ->
    short_tags (Category.patch_tags b) ->
    persist env = true ->
    ∃ d' w',
      CategoryRoutes.put_update env user id b w = (Success 200 (id, d'), w')
      ∧ Category.docs w' !! id = Some d'
      ∧ Category.validate d' = true.
Proof.
  intros env user id b w d Hvalid Hat Had Han Hd HL Hlive Hdv Htags Hp.
  pose proof Hvalid as Herrs.
  unfold CategoryRoutes.validateUpdateDocument in Hvalid.
  apply app_eq_nil in Hvalid as [Htitle Hvalid].
  apply app_eq_nil in Hvalid as [Hdesc Hvalid].
  apply app_eq_nil in Hvalid as [Hcat Hvalid].
  apply app_eq_nil in Hvalid as [Hprio Hvalid].
  apply app_eq_nil in Hvalid as [Hstatus Hnotes].
  destruct (validate_elim d Hdv)
    as (Ht1 & Ht2 & Hde & Hfn & Hon & Hfp & Hmt & Hc & Hs & Hpr & Htg & Hrn).
  set (patched := Category.apply_patch env user (CategoryRoutes.sanitizeUpdate b) d).
  assert (Htitle' :
            Category.title patched ≠ EmptyString
            ∧ (Str.units (Category.title patched) <= 200)%nat).
  { unfold patched, Category.apply_patch.
    cbn [Category.title CategoryRoutes.sanitizeUpdate Category.patch_title].
    destruct (Category.patch_title b) as [v|]; [|done].
    simpl in Htitle, Hat. apply check_nil in Htitle.
    apply isLength_ascii in Htitle as [Hmin Hmax];
      [|by apply ascii_only_trim].
    simpl fmap. rewrite truthy_Some.
    - rewrite trim_idem. split; [|done].
      intros Heq. rewrite Heq in Hmin. simpl in Hmin. lia.
    - intros Heq. rewrite Heq in Hmin. simpl in Hmin. lia. }
  destruct Htitle' as [Hpt1 Hpt2].
  assert (Hpv : Category.validate patched = true).
  { apply validate_intro; try done; unfold patched, Category.apply_patch;
      cbn [Category.title Category.description Category.fileName
           Category.originalFileName Category.filePath Category.mimeType
           Category.category Category.status Category.priority Category.tags
           Category.reviewNotes CategoryRoutes.sanitizeUpdate
           Category.patch_title Category.patch_description
           Category.patch_category Category.patch_priority Category.patch_tags
           Category.patch_status Category.patch_reviewNotes]; try done.
    - intros v. destruct (Category.patch_description b) as [v0|]; [|by apply Hde].
      simpl in Hdesc, Had |- *. intros [= <-].
      apply check_nil, isLength_ascii in Hdesc as [_ Hmax];
        [|by apply ascii_only_trim].
      by rewrite trim_idem.
    - eapply or_else_one_of_kept; [|done].
      eapply optional_check_message, Hcat.
    - eapply or_else_one_of_kept; [|done].
      eapply optional_check_message, Hstatus.
    - eapply or_else_one_of_kept; [|done].
      eapply optional_check_message, Hprio.
    - pose proof (short_tags_stored _ Htags) as Hst'. unfold short_tags in Htags.
      destruct (truthy (Category.patch_tags b)) as [t|]; [|done]. exact Hst'.
    - intros v. destruct (Category.patch_reviewNotes b) as [v0|]; [|by apply Hrn].
      simpl in Hnotes, Han |- *. intros [= <-].
      by apply check_nil, isLength_ascii in Hnotes as [_ Hmax];
        [|apply ascii_only_trim]. }
  unfold CategoryRoutes.put_update, Category.updateDocument.
  cbn [Category.upd_errors Category.upd_id Category.upd_user Category.upd_body].
  rewrite Herrs. unfold Category.Document_findOne.
  rewrite Hd, HL, N.eqb_refl, Hlive. cbn [negb andb].
  fold patched. unfold Category.Document_save.
  rewrite validate_modified_weaker by (by rewrite validate_pre_save).
  destruct (decide _) as [Heq|_].
  - exists d, w. rewrite Heq. split; [|done]. by destruct w.
  - rewrite Hp. eexists _, _. split; [reflexivity|].
    cbn [Category.docs]. rewrite lookup_insert_eq. split; [done|].
    transitivity (Category.validate (Category.pre_save env d patched));
      [reflexivity|]. by rewrite validate_pre_save.
Qed.

(** Lawyer 7 retitles the lease through the route. *)
Lemma validated_update_succeeds_witness :
  ∃ d' w',
    CategoryRoutes.put_update (mkEnv 4000 0 0 true) 7 1
      (Category.upd_body retitleLease) twoDocsC
    = (Success 200 (1%N, d'), w')
    ∧ Category.validate d' = true.
Proof.
  destruct (validated_update_succeeds (mkEnv 4000 0 0 true)
              7%N 1%N (Category.upd_body retitleLease) twoDocsC leaseC)
    as (d' & w' & Hup & _ & Hv).
  - reflexivity.
  - reflexivity.
  - exact I.
  - exact I.
  - vm_compute. reflexivity.
  - reflexivity.
  - reflexivity.
  - reflexivity.
  - exact I.
  - reflexivity.
  - by exists d', w'.
Defined.

(** ** When review information is written *)

(** X18.  In the documentType controller an update touches the reviewer,
    the review time and the review notes only when it changes the status
    to reviewed, approved or rejected: then the reviewer is the caller, the
    time is the time of the update, and the notes are those of the patch
    when it has some (and the old ones otherwise).  Any other update that
    succeeds, a change to another status included, leaves the three as
    they were. *)
Theorem doctype_review_only_on_transition :
  ∀ env L i b w c j d d' w',
    DocType.docs w !! i = Some d ->
    DocType.updateDocument env L i b w = (Success c (j, d'), w') ->
    (∃ s, DocType.patch_status b = Some s ∧ s ≠ DocType.status d
          ∧ DocType.review_terminal s = true
          ∧ DocType.status d' = s
          ∧ DocType.reviewedBy d' = Some L
          ∧ DocType.reviewedAt d' = Some (now env)
          ∧ DocType.reviewNotes d'
            = match truthy (DocType.patch_reviewNotes b) with
              | Some notes => Some notes
              | None => DocType.reviewNotes d
              end)
    ∨ reviewT d' = reviewT d.
Proof.
  intros env L i b w c j d d' w' Hd Hup.
  apply updateT_success in Hup as (d0 & Hd0 & _ & _ & Hsave & _).
  assert (d0 = d) as -> by congruence.
  apply Document_saveT_inv in Hsave as [(_ & -> & _)|(_ & _ & -> & _)];
    [by right|].
  unfold reviewT.
  unfold DocType.touch, DocType.apply_patch.
  cbn [DocType.reviewedBy DocType.reviewedAt DocType.reviewNotes DocType.status].
  destruct (DocType.patch_status b) as [s|];
    [|right; by destruct (truthy _)].
  destruct (String.eqb_spec s (DocType.status d)) as [->|Hne];
    [right; by destruct (truthy _)|].
  destruct (DocType.review_terminal s) eqn:Hterm.
  - left. exists s. cbn [default from_option id].
    split; [done|]. split; [done|]. split; [done|]. split; [done|].
    split; [done|]. split; [done|]. by destruct (truthy _).
  - right. by destruct (truthy _).
Qed.

Lemma doctype_review_only_on_transition_witness :
  reviewT approvedT = (Some 7%N, Some 4000%N, Some "fine").
Proof.
  destruct (doctype_review_only_on_transition (mkEnv 4000 0 0 true) 7%N 1%N
              approveWithNote archiveT 200%N 1%N agreementT approvedT
              approvedWorldT)
    as [(s & Hs & _ & _ & _ & Hby & Hat & Hn)|Hsame].
  - reflexivity.
  - vm_compute. reflexivity.
  - unfold reviewT. rewrite Hby, Hat, Hn. reflexivity.
  - vm_compute in Hsame. discriminate.
Defined.

Lemma apply_patchC_reviewedAt env L b d :
  Category.reviewedAt (Category.apply_patch env L b d) = Category.reviewedAt d.
Proof.
  unfold Category.apply_patch. simpl.
  case_bool_decide as Hs; [|done].
  unfold or_else, truthy. rewrite Hs. simpl. done.
Qed.

(** What a save of documentController.js does to the review fields of a
    document whose review fields the handler has not touched. *)
Lemma saveC_review env i loaded d store saved store' :
  Category.Document_save env i loaded d store = Some (saved, store') ->
  Category.reviewedBy d = Category.reviewedBy loaded ->
  Category.reviewedAt d = Category.reviewedAt loaded ->
  Category.reviewedBy saved = Category.reviewedBy loaded
  ∧ (Category.reviewedAt saved = Category.reviewedAt loaded
     ∨ (Category.reviewedAt loaded = None
        ∧ Category.reviewedAt saved = Some (now env)
        ∧ Category.status saved = "reviewed"
        ∧ Category.status loaded ≠ "reviewed")).
Proof.
  intros Hsave Hby Hat.
  apply Document_saveC_inv in Hsave as [(_ & -> & _)|(_ & _ & -> & _)].
  { split; [done|by left]. }
  unfold Category.pre_save.
  destruct (_ && _) eqn:Hcond; simpl.
  - split; [done|]. right.
    rewrite !andb_true_iff, !negb_true_iff in Hcond.
    destruct Hcond as [[Hchg Hrev] Hnone].
    apply String.eqb_eq in Hrev. apply String.eqb_neq in Hchg.
    apply bool_decide_eq_false in Hnone.
    split.
    { rewrite <- Hat. destruct (Category.reviewedAt d); [|done].
      exfalso. apply Hnone. eauto. }
    split; [done|]. split; [done|]. congruence.
  - split; [done|by left].
Qed.

Lemma handleC_review env r w i d d' :
  Category.docs w !! i = Some d ->
  Category.docs (Category.handle env r w) !! i = Some d' ->
  Category.reviewedBy d' = Category.reviewedBy d
  ∧ (Category.reviewedAt d' = Category.reviewedAt d
     ∨ (Category.reviewedAt d = None
        ∧ Category.reviewedAt d' = Some (now env)
        ∧ Category.status d' = "reviewed"
        ∧ Category.status d ≠ "reviewed")).
Proof.
  intros Hd Hd'.
  assert (Hsame : d' = d -> Category.reviewedBy d' = Category.reviewedBy d
     ∧ (Category.reviewedAt d' = Category.reviewedAt d
     ∨ (Category.reviewedAt d = None
        ∧ Category.reviewedAt d' = Some (now env)
        ∧ Category.status d' = "reviewed"
        ∧ Category.status d ≠ "reviewed"))).
  { intros ->. split; [done|by left]. }
  assert (Hsaved : ∀ j loaded patched saved store,
            Category.docs w !! j = Some loaded ->
            Category.Document_save env j loaded patched (Category.docs w)
            = Some (saved, store) ->
            Category.reviewedBy patched = Category.reviewedBy loaded ->
            Category.reviewedAt patched = Category.reviewedAt loaded ->
            store !! i = Some d' ->
            Category.reviewedBy d' = Category.reviewedBy d
            ∧ (Category.reviewedAt d' = Category.reviewedAt d
               ∨ (Category.reviewedAt d = None
                  ∧ Category.reviewedAt d' = Some (now env)
                  ∧ Category.status d' = "reviewed"
                  ∧ Category.status d ≠ "reviewed"))).
  { intros j loaded patched saved store Hj Hsave Hby Hat Hi.
    pose proof (saveC_review _ _ _ _ _ _ _ Hsave Hby Hat) as Hrev.
    apply saveC_effect in Hsave as (Hs & _ & _ & Hother); [|done].
    destruct (decide (i = j)) as [->|Hne].
    - assert (loaded = d) as -> by congruence.
      assert (saved = d') as -> by congruence. exact Hrev.
    - rewrite Hother in Hi by done. apply Hsame. congruence. }
  destruct r as [req|L q|L j|L j|req|L j|L c]; simpl in Hd'.
  - apply Hsame. rewrite (uploadC_keeps env req w i d Hd) in Hd'. congruence.
  - apply Hsame. congruence.
  - apply Hsame. congruence.
  - revert Hd'. unfold Category.downloadDocument.
    destruct (Category.Document_findOne _ _ _) as [doc|] eqn:Hfind;
      [|simpl; intros; apply Hsame; congruence].
    apply findOneC_Some in Hfind as (Hdoc & _ & _).
    destruct (Category.files w !! _); [|simpl; intros; apply Hsame; congruence].
    destruct (Category.Document_save _ _ _ _ _) as [[saved store]|] eqn:Hsave;
      [|simpl; intros; apply Hsame; congruence].
    destruct (_ && _); simpl; intros Hi; by eapply (Hsaved j doc).
  - revert Hd'. unfold Category.updateDocument.
    destruct (Category.upd_errors req); [|simpl; intros; apply Hsame; congruence].
    destruct (Category.Document_findOne _ _ _) as [doc|] eqn:Hfind;
      [|simpl; intros; apply Hsame; congruence].
    apply findOneC_Some in Hfind as (Hdoc & _ & _).
    destruct (Category.Document_save _ _ _ _ _) as [[saved store]|] eqn:Hsave;
      [|simpl; intros; apply Hsame; congruence].
    simpl. intros Hi.
    eapply (Hsaved _ doc); [exact Hdoc|exact Hsave| | |exact Hi].
    + apply apply_patchC_reviewedBy.
    + apply apply_patchC_reviewedAt.
  - revert Hd'. unfold Category.deleteDocument.
    destruct (Category.Document_findOne _ _ _) as [doc|] eqn:Hfind;
      [|simpl; intros; apply Hsame; congruence].
    apply findOneC_Some in Hfind as (Hdoc & _ & _).
    destruct (Category.Document_save _ _ _ _ _) as [[saved store]|] eqn:Hsave;
      [|simpl; intros; apply Hsame; congruence].
    simpl. intros Hi. by eapply (Hsaved j doc).
  - apply Hsame. congruence.
Qed.

(** X19.  In documentController.js no request changes the reviewer of a
    document, and the review time is written at most once: a request either
    leaves it as it was or, when there was none, sets it to the time of an
    update that changes the status to reviewed.  So along any sequence of
    requests the reviewer stays what it was and a review time, once there,
    stays the same. *)
Theorem category_review_time_is_written_once :
  (∀ env r w i d d',
     Category.docs w !! i = Some d ->
     Category.docs (Category.handle env r w) !! i = Some d' ->
     Category.reviewedBy d' = Category.reviewedBy d
     ∧ (Category.reviewedAt d' = Category.reviewedAt d
        ∨ (Category.reviewedAt d = None
           ∧ Category.reviewedAt d' = Some (now env)
           ∧ Category.status d' = "reviewed"
           ∧ Category.status d ≠ "reviewed")))
  ∧ (∀ trace w i d,
     Category.docs w !! i = Some d ->
     ∃ d', Category.docs (runC trace w) !! i = Some d'
           ∧ Category.reviewedBy d' = Category.reviewedBy d
           ∧ ∀ t, Category.reviewedAt d = Some t ->
                  Category.reviewedAt d' = Some t).
Proof.
  split; [exact handleC_review|].
  induction trace as [|[env r] rest IH]; intros w i d Hd; simpl.
  - exists d. done.
  - destruct (handleC_stays env r w i) as [d1 Hd1]; [eauto|].
    destruct (handleC_review env r w i d d1 Hd Hd1) as [Hby Hat].
    destruct (IH _ i d1 Hd1) as (d' & Hd' & Hby' & Hat').
    exists d'. split; [done|]. split; [congruence|].
    intros t Ht. apply Hat'.
    destruct Hat as [->|(Hnone & _)]; [done|congruence].
Qed.

(** The lease is marked reviewed at 4000 and approved at 5000: it has no
    reviewer, as before, and its review time is set. *)
Lemma category_review_time_is_written_once_witness :
  ∃ d', Category.docs
          (runC [ (mkEnv 4000 0 0 true, Category.Update (setStatusC 7 1 "reviewed"));
                  (mkEnv 5000 0 0 true, Category.Update (setStatusC 7 1 "approved")) ]
             twoDocsC) !! 1%N = Some d'
        ∧ Category.reviewedBy d' = None.
Proof.
  destruct (proj2 category_review_time_is_written_once
              [ (mkEnv 4000 0 0 true, Category.Update (setStatusC 7 1 "reviewed"));
                (mkEnv 5000 0 0 true, Category.Update (setStatusC 7 1 "approved")) ]
              twoDocsC 1%N leaseC) as (d' & Hd' & Hby & _);
    [vm_compute; reflexivity|].
  exists d'. split; [exact Hd'|]. rewrite Hby. reflexivity.
Defined.

(** ** Icons and tags *)

Lemma has_char_cons c x s :
  has_char c (String x s) = Ascii.eqb c x || has_char c s.
Proof. reflexivity. Qed.

(** No piece of a split contains the separator. *)
Lemma split_pieces sep s piece :
  piece ∈ Str.split sep s -> has_char sep piece = false.
Proof.
  revert piece. induction s as [|c s IH]; intros piece; simpl.
  - by intros ->%list_elem_of_singleton.
  - destruct (Ascii.eqb_spec c sep) as [->|Hne].
    + intros [->|Hin]%elem_of_cons; [done|]. by apply IH.
    + destruct (Str.split sep s) as [|h t] eqn:Hs.
      * intros ->%list_elem_of_singleton. rewrite has_char_cons.
        destruct (Ascii.eqb_spec sep c); [congruence|done].
      * intros [->|Hin]%elem_of_cons.
        -- rewrite has_char_cons, (IH h ltac:(left)).
           destruct (Ascii.eqb_spec sep c); [congruence|done].
        -- apply IH. by right.
Qed.

Lemma split_nonempty sep s : Str.split sep s ≠ [].
Proof.
  destruct s as [|c s]; simpl; [done|].
  destruct (Ascii.eqb c sep); [done|]. by destruct (Str.split sep s).
Qed.

(** The number of pieces is the number of separators and one. *)
Lemma split_length sep s :
  length (Str.split sep s) = S (count_char sep s).
Proof.
  unfold count_char. induction s as [|c s IH]; [done|]. simpl.
  destruct (Ascii.eqb_spec c sep) as [->|Hne].
  - rewrite filter_cons_True by done. simpl. by rewrite IH.
  - rewrite filter_cons_False by done.
    destruct (Str.split sep s) as [|h t] eqn:Hs; [by apply split_nonempty in Hs|].
    simpl in *. done.
Qed.

(** X20.  [getFileIcon] asks for "word" or "document" before it asks for
    "excel" or "spreadsheet": every type that contains "document" and not
    "pdf", the Office Open XML spreadsheet type among them, gets the icon
    of a text document, and of the types the upload filter allows only
    application/vnd.ms-excel gets the icon of a spreadsheet. *)
Theorem spreadsheet_icon_only_for_old_excel :
  (∀ m, Str.includes "pdf" m = false -> Str.includes "document" m = true ->
        getFileIcon m = MemoIcon)
  ∧ (∀ m, fileFilter m = true ->
          (getFileIcon m = ChartIcon ↔ m = "application/vnd.ms-excel"))
  ∧ fileFilter "application/vnd.openxmlformats-officedocument.spreadsheetml.sheet"
    = true
  ∧ getFileIcon "application/vnd.openxmlformats-officedocument.spreadsheetml.sheet"
    = MemoIcon.
Proof.
  split; [|split; [|split; reflexivity]].
  - intros m Hpdf Hdoc. unfold getFileIcon. by rewrite Hpdf, Hdoc, orb_true_r.
  - intros m Hm. apply fileFilter_allowed in Hm. simpl in Hm.
    repeat (destruct Hm as [<-|Hm]; [by split|]). done.
Qed.

Lemma spreadsheet_icon_only_for_old_excel_witness :
  getFileIcon "application/vnd.ms-excel" = ChartIcon.
Proof.
  by apply (proj1 (proj2 spreadsheet_icon_only_for_old_excel)).
Defined.

Lemma has_char_In c s : has_char c s = true ↔ In c (list_ascii_of_string s).
Proof.
  unfold has_char. rewrite existsb_exists. split.
  - intros (x & Hin & Heq). apply Ascii.eqb_eq in Heq. by subst.
  - intros Hin. exists c. by rewrite Ascii.eqb_refl.
Qed.

Lemma has_char_trim c s :
  has_char c s = false -> has_char c (Str.trim s) = false.
Proof.
  intros Hno. apply not_true_is_false. intros Hin. apply not_true_iff_false in Hno.
  apply Hno. apply has_char_In. apply has_char_In in Hin. by apply in_trim.
Qed.

Lemma Document_createC_text env n store i d store' :
  Category.Document_create env n store = Some (i, d, store') ->
  Some (Category.title d) = Str.trim <$> Category.new_title n
  ∧ Category.description d = Str.trim <$> Category.new_description n
  ∧ Category.tags d = Str.trim <$> Category.new_tags n
  ∧ Category.category d = Category.new_category n
  ∧ Category.priority d = Category.new_priority n
  ∧ Category.fileName d = Category.new_fileName n.
Proof.
  unfold Category.Document_create.
  destruct (Category.new_clientId n), (Category.new_title n); try done.
  destruct (Category.validate _ && persist env); [|done].
  destruct (store !! newId env); [done|].
  intros [= <- <- <-]. done.
Qed.

(** X21.  The tags of an uploaded document are the pieces between the
    commas of the tags string of the request, each trimmed: there is one
    more of them than there are commas, none contains a comma, none starts
    or ends with white space (trimming it again changes nothing); a request
    without a tags string, or with an empty one, gives no tags. *)
Theorem uploaded_tags_are_the_trimmed_pieces :
  ∀ env req w c i d w',
    Category.uploadDocument env req w = (Success c (i, d), w') ->
    (∀ tag, tag ∈ Category.tags d ->
            has_char ","%char tag = false ∧ Str.trim tag = tag)
    ∧ (truthy (Category.body_tags (Category.up_body req)) = None ->
       Category.tags d = [])
    ∧ (∀ t, truthy (Category.body_tags (Category.up_body req)) = Some t ->
            Category.tags d = Str.trim <$> Str.split ","%char t
            ∧ length (Category.tags d) = S (count_char ","%char t)).
Proof.
  intros env req w c i d w' Hup.
  apply uploadC_created in Hup as (lc & file & _ & _ & _ & _ & _ & _ & _ & Hc & _).
  apply Document_createC_text in Hc as (_ & _ & Htags & _). simpl in Htags.
  assert (Hidem : ∀ l : list string, Str.trim <$> (Str.trim <$> l) = Str.trim <$> l).
  { intros l. rewrite <- list_fmap_compose. apply list_fmap_ext.
    intros _ x _. apply trim_idem. }
  destruct (truthy _) as [t|] eqn:Ht.
  - rewrite Hidem in Htags. split; [|split; [done|]].
    + intros tag Hin. rewrite Htags in Hin.
      apply list_elem_of_fmap in Hin as (piece & -> & Hpiece).
      split; [|apply trim_idem].
      apply has_char_trim. by eapply split_pieces.
    + intros t' [= <-]. split; [done|].
      by rewrite Htags, length_fmap, split_length.
  - split; [|split; [done|done]].
    intros tag Hin. rewrite Htags in Hin. by apply elem_of_nil in Hin.
Qed.

(** The will is uploaded with the tags "estate, family". *)
Lemma uploaded_tags_are_the_trimmed_pieces_witness :
  ∃ d, Category.docs twoDocsC !! 2%N = Some d
       ∧ Category.tags d = ["estate"; "family"].
Proof.
  destruct (Category.uploadDocument (mkEnv 2000 6 2 true) uploadWill
              (Category.uploadDocument (mkEnv 1000 5 1 true) uploadLease officeC).2)
    as [r w'] eqn:Hup.
  assert (Hr : match r with
               | Success 201 (2%N, d) =>
                   Category.docs twoDocsC !! 2%N = Some d
               | _ => False
               end).
  { apply (f_equal fst) in Hup. simpl in Hup. rewrite <- Hup.
    vm_compute. reflexivity. }
  destruct r as [c [i d]| |]; try done.
  destruct c as [|c]; [done|]. 
  destruct (uploaded_tags_are_the_trimmed_pieces _ _ _ _ _ _ _ Hup)
    as (_ & _ & Hsome).
  destruct (Hsome "estate, family" eq_refl) as [Htags _].
  exists d. split.
  - clear -Hr. repeat (destruct c as [c|c|]; try done);
      repeat (destruct i as [|i]; try done);
      repeat (destruct i as [i|i|]; try done).
  - rewrite Htags. reflexivity.
Defined.
